(** * bapsflib: HDF5 mapping layer of the LaPD data-acquisition files

    A shallow embedding of the mapping-construction code of bapsflib

      - [bapsflib/_hdf_mappers/map_controls/n5700ps.py]
      - [bapsflib/lapd/_hdf/hdfmapper.py]
      - [bapsflib/lapdhdf/hdfmappers.py]

    together with the pieces of Python and of h5py the code relies on
    (text operations, the [re] constructs of the command-list pattern,
    group / attribute / dataset access, warnings and exceptions).

    Scope of the text model: a Python [str] is a Rocq [string] whose
    characters are the code points U+0000..U+00FF, a Python [bytes] is a
    Rocq [string] whose characters are the bytes.  The character classes
    below are the ones of CPython on that range.

    Effects: the methods run in a state monad over the open file, the
    warning filter and the log of warnings, with the exceptions of
    Python as a result.  The classes the sources import from modules
    that are not among them (the control template, the per-category
    collections) are parameters or are modelled from the
    specification, as said where they appear. *)

From Stdlib Require Import String Ascii List Bool Arith Lia.
Import ListNotations.
Set Warnings "-register-all".
Open Scope string_scope.
Open Scope bool_scope.

(** ** Python text *)

Module PyStr.

Definition code (c : ascii) : nat := nat_of_ascii c.

Definition between (lo hi : nat) (c : ascii) : bool :=
  Nat.leb lo (code c) && Nat.leb (code c) hi.

(** [\d] of [re] on [str] patterns: the decimal digits (category Nd). *)
Definition is_digit (c : ascii) : bool := between 48 57 c.

(** [str.isspace] and [\s]: tab..carriage return, the four
    separators U+001C..U+001F, space, NEL and no-break space. *)
Definition is_space (c : ascii) : bool :=
  between 9 13 c || between 28 32 c
  || Nat.eqb (code c) 133 || Nat.eqb (code c) 160.

(** [\w]: alphanumeric characters and the underscore. *)
Definition is_word (c : ascii) : bool :=
  is_digit c
  || between 65 90 c || between 97 122 c || Nat.eqb (code c) 95
  || Nat.eqb (code c) 170 || between 178 179 c || Nat.eqb (code c) 181
  || between 185 186 c || between 188 190 c
  || between 192 214 c || between 216 246 c || between 248 255 c.

(** Line boundaries of [str.splitlines]. *)
Definition is_linebreak (c : ascii) : bool :=
  between 10 13 c || between 28 30 c || Nat.eqb (code c) 133.

Fixpoint all_chars (p : ascii -> bool) (s : string) : bool :=
  match s with
  | EmptyString => true
  | String c s' => p c && all_chars p s'
  end.

Fixpoint rev (s : string) : string :=
  match s with
  | EmptyString => EmptyString
  | String c s' => rev s' ++ String c EmptyString
  end.

(** [str.lstrip()], [str.rstrip()] and [str.strip()] without argument. *)
Fixpoint lstrip (s : string) : string :=
  match s with
  | EmptyString => EmptyString
  | String c s' => if is_space c then lstrip s' else s
  end.

Definition rstrip (s : string) : string := rev (lstrip (rev s)).

Definition strip (s : string) : string := rstrip (lstrip s).

(** [str.splitlines()]: the lines of [s] without their terminators;
    a carriage return followed by a line feed is one terminator, and
    a terminator at the very end does not open a further line.
    [cur] is the line being read, reversed. *)
Fixpoint splitlines_aux (cur : string) (s : string) : list string :=
  match s with
  | EmptyString =>
      match cur with
      | EmptyString => []
      | _ => [rev cur]
      end
  | String c s' =>
      if is_linebreak c then
        match s' with
        | String d s'' =>
            if Nat.eqb (code c) 13 && Nat.eqb (code d) 10
            then rev cur :: splitlines_aux EmptyString s''
            else rev cur :: splitlines_aux EmptyString s'
        | EmptyString => [rev cur]
        end
      else splitlines_aux (String c cur) s'
  end.

Definition splitlines (s : string) : list string :=
  splitlines_aux EmptyString s.

(** [needle in hay] on strings. *)
Fixpoint startswith (p s : string) : bool :=
  match p, s with
  | EmptyString, _ => true
  | String a p', String b s' => Ascii.eqb a b && startswith p' s'
  | String _ _, EmptyString => false
  end.

Fixpoint contains (needle hay : string) : bool :=
  startswith needle hay
  || match hay with
     | EmptyString => false
     | String _ hay' => contains needle hay'
     end.

(** [str.casefold()]: upper-case letters go to lower case and the
    sharp s to "ss".  The micro sign U+00B5 folds to U+03BC, outside
    the modelled range: it stays as it is, which no test against an
    ASCII needle can tell apart. *)
Definition casefold_char (c : ascii) : string :=
  if between 65 90 c || between 192 214 c || between 216 222 c
  then String (ascii_of_nat (code c + 32)) EmptyString
  else if Nat.eqb (code c) 223 then "ss"
  else String c EmptyString.

Fixpoint casefold (s : string) : string :=
  match s with
  | EmptyString => EmptyString
  | String c s' => casefold_char c ++ casefold s'
  end.

(** [bytes.decode('utf-8')], on the modelled range.  [None] stands
    for a byte string with no image: malformed UTF-8, for which
    Python raises UnicodeDecodeError, and well-formed UTF-8 of a code
    point above U+00FF, which is outside the model. *)
Fixpoint utf8_decode (b : string) : option string :=
  match b with
  | EmptyString => Some EmptyString
  | String c b' =>
      if Nat.ltb (code c) 128 then option_map (String c) (utf8_decode b')
      else if between 194 195 c then
        match b' with
        | String d b'' =>
            if between 128 191 d
            then option_map
                   (String (ascii_of_nat ((code c - 192) * 64
                                          + (code d - 128))))
                   (utf8_decode b'')
            else None
        | EmptyString => None
        end
      else None
  end.

(** The text between the start of [s] and the start of its suffix
    [rest]. *)
Definition consumed (s rest : string) : string :=
  substring 0 (String.length s - String.length rest) s.

(** The last character of [w], or [d] when [w] is empty. *)
Fixpoint last_char (w : string) (d : option ascii) : option ascii :=
  match w with
  | EmptyString => d
  | String c w' => last_char w' (Some c)
  end.

End PyStr.

(** ** The constructs of [re] used by the command-list patterns *)

Module Re.
Import PyStr.

Inductive cclass := ClsDigit | ClsSpace.

Definition in_class (k : cclass) : ascii -> bool :=
  match k with
  | ClsDigit => is_digit
  | ClsSpace => is_space
  end.

Inductive regex :=
| Str (s : string)                       (* literal text *)
| Cls (k : cclass)                       (* \d, \s *)
| WordB                                  (* \b *)
| Seq (r1 r2 : regex)
| Alt (r1 r2 : regex)                    (* r1|r2 *)
| Plus (k : cclass)                      (* \d+ *)
| Star (k : cclass)                      (* \d* *)
| Group (name : option string) (r : regex). (* (...) and (?P<name>...) *)

Definition captures := list (string * string).

Definition set_group (name : option string) (txt : string)
           (caps : captures) : captures :=
  match name with
  | Some n => (n, txt) :: caps
  | None => caps
  end.

Fixpoint get_group (n : string) (caps : captures) : option string :=
  match caps with
  | [] => None
  | (m, txt) :: caps' =>
      if String.eqb n m then Some txt else get_group n caps'
  end.

(** A position in the subject: the character before it, if any, and
    the text from it on. *)
Definition is_word_opt (c : option ascii) : bool :=
  match c with
  | Some a => is_word a
  | None => false
  end.

Definition head (s : string) : option ascii :=
  match s with
  | EmptyString => None
  | String c _ => Some c
  end.

Definition at_boundary (prev : option ascii) (inp : string) : bool :=
  xorb (is_word_opt prev) (is_word_opt (head inp)).

Definition cont := option ascii -> string -> captures
                   -> option (string * captures).

Fixpoint match_str (s : string) (prev : option ascii) (inp : string)
  : option (option ascii * string) :=
  match s with
  | EmptyString => Some (prev, inp)
  | String c s' =>
      match inp with
      | String d inp' =>
          if Ascii.eqb c d then match_str s' (Some d) inp' else None
      | EmptyString => None
      end
  end.

(** Greedy repetition of a character class: the longest run first,
    then one character less on failure of the rest of the pattern. *)
Fixpoint rep (p : ascii -> bool) (prev : option ascii) (inp : string)
         (caps : captures) (k : cont) {struct inp}
  : option (string * captures) :=
  match inp with
  | String c inp' =>
      if p c then
        match rep p (Some c) inp' caps k with
        | Some r => Some r
        | None => k prev inp caps
        end
      else k prev inp caps
  | EmptyString => k prev inp caps
  end.

(** The backtracking matcher: [k] is the rest of the pattern. *)
Fixpoint run (r : regex) (prev : option ascii) (inp : string)
         (caps : captures) (k : cont) {struct r}
  : option (string * captures) :=
  match r with
  | Str s =>
      match match_str s prev inp with
      | Some (prev', inp') => k prev' inp' caps
      | None => None
      end
  | Cls c =>
      match inp with
      | String a inp' =>
          if in_class c a then k (Some a) inp' caps else None
      | EmptyString => None
      end
  | WordB => if at_boundary prev inp then k prev inp caps else None
  | Seq r1 r2 =>
      run r1 prev inp caps
          (fun prev' inp' caps' => run r2 prev' inp' caps' k)
  | Alt r1 r2 =>
      match run r1 prev inp caps k with
      | Some x => Some x
      | None => run r2 prev inp caps k
      end
  | Plus c =>
      match inp with
      | String a inp' =>
          if in_class c a
          then rep (in_class c) (Some a) inp' caps k
          else None
      | EmptyString => None
      end
  | Star c => rep (in_class c) prev inp caps k
  | Group n r' =>
      run r' prev inp caps
          (fun prev' inp' caps' =>
             k prev' inp' (set_group n (consumed inp inp') caps'))
  end.

(** A match object: where the match starts, its text ([group(0)])
    and its named groups. *)
Record match_obj := MatchObj {
  m_start : nat;
  m_text : string;
  m_groups : captures
}.

Definition group (m : match_obj) (n : string) : option string :=
  get_group n (m_groups m).

Definition accept : cont := fun _ rest caps => Some (rest, caps).

(** [pattern.match]: at the given position only. *)
Definition match_at (r : regex) (prev : option ascii) (inp : string)
           (pos : nat) : option match_obj :=
  match run r prev inp [] accept with
  | Some (rest, caps) => Some (MatchObj pos (consumed inp rest) caps)
  | None => None
  end.

(** [pattern.search]: the leftmost position where the pattern
    matches, the end of the subject included. *)
Fixpoint search_from (r : regex) (prev : option ascii) (inp : string)
         (pos : nat) : option match_obj :=
  match match_at r prev inp pos with
  | Some m => Some m
  | None =>
      match inp with
      | String c inp' => search_from r (Some c) inp' (S pos)
      | EmptyString => None
      end
  end.

Definition search (r : regex) (s : string) : option match_obj :=
  search_from r None s 0.

(** [stops p rest]: a run of characters of [p] cannot go on into
    [rest]. *)
Definition stops (p : ascii -> bool) (rest : string) : bool :=
  match rest with
  | EmptyString => true
  | String c _ => negb (p c)
  end.

End Re.

(** ** Control device 'N5700_PS': the command-list pattern *)

Module N5700Pattern.
Import Re.

(** [r'(?P<VOLT>(\bSOURCE:VOLTAGE:LEVEL\s)'
     + r'(?P<VAL>(\d+\.\d*|\.\d+|\d+\b)))'] *)
Definition volt_pattern : regex :=
  Group (Some "VOLT")
    (Seq (Group None
            (Seq WordB (Seq (Str "SOURCE:VOLTAGE:LEVEL") (Cls ClsSpace))))
         (Group (Some "VAL")
            (Group None
               (Alt (Seq (Plus ClsDigit) (Seq (Str ".") (Star ClsDigit)))
               (Alt (Seq (Str ".") (Plus ClsDigit))
                    (Seq (Plus ClsDigit) WordB)))))).

(** The alternation inside the group VAL. *)
Definition val_body : regex :=
  Alt (Seq (Plus ClsDigit) (Seq (Str ".") (Star ClsDigit)))
      (Alt (Seq (Str ".") (Plus ClsDigit))
           (Seq (Plus ClsDigit) WordB)).

Definition keyword : string := "SOURCE:VOLTAGE:LEVEL".

(** A decimal numeric literal: digits '.' optional digits, or
    '.' digits, or bare digits. *)
Definition digits (s : string) : Prop :=
  PyStr.all_chars PyStr.is_digit s = true.

Inductive numeric_literal : string -> Prop :=
| NumFrac (i f : string) :
    i <> "" -> digits i -> digits f -> numeric_literal (i ++ "." ++ f)
| NumDotFrac (f : string) :
    f <> "" -> digits f -> numeric_literal ("." ++ f)
| NumInt (i : string) :
    i <> "" -> digits i -> numeric_literal i.

(** A command whose number follows the keyword after a tab. *)
Definition tab_command : string :=
  keyword ++ String "009"%char "5".

End N5700Pattern.

(** ** Python values, dictionaries and exceptions *)

Module Py.

Inductive exn :=
| KeyError | AttributeError | UnicodeDecodeError | ValueError | TypeError.

Inductive result (A : Type) :=
| Ok (a : A)
| Raise (e : exn).
Arguments Ok {A} a.
Arguments Raise {A} e.

(** A [dict] with [str] keys, in insertion order. *)
Definition dict (V : Type) := list (string * V).

Fixpoint dget {V} (k : string) (d : dict V) : option V :=
  match d with
  | [] => None
  | (k', v) :: d' => if String.eqb k k' then Some v else dget k d'
  end.

(** [d[k] = v]: an existing key keeps its place. *)
Fixpoint dset {V} (k : string) (v : V) (d : dict V) : dict V :=
  match d with
  | [] => [(k, v)]
  | (k', v') :: d' =>
      if String.eqb k k' then (k, v) :: d' else (k', v') :: dset k v d'
  end.

Definition dkeys {V} (d : dict V) : list string := map fst d.

(** [k in d] *)
Definition dmem {V} (k : string) (d : dict V) : bool :=
  match dget k d with
  | Some _ => true
  | None => false
  end.

(** [x in l] on a list of strings. *)
Definition str_in_list (x : string) (l : list string) : bool :=
  existsb (String.eqb x) l.

(** [d[k]], raising KeyError. *)
Definition getitem {V} (k : string) (d : dict V) : result V :=
  match dget k d with
  | Some v => Ok v
  | None => Raise KeyError
  end.

Inductive np_dtype :=
| NpInt32                     (* numpy.int32 *)
| NpFloat64                   (* dtype of an empty array *)
| NpUnicode (width : nat)     (* '<U width' *)
| NpObject.

(** The values the mapping code stores and reads. *)
Inductive pyval :=
| PNone
| PInt (n : nat)
| PStr (s : string)
| PBytes (b : string)
| PTuple (items : list pyval)
| PDict (d : list (string * pyval))
| PDtype (t : np_dtype)
| PPattern (r : Re.regex).

(** [val.decode('utf-8')]: only bytes have the method. *)
Definition decode_utf8 (v : pyval) : result pyval :=
  match v with
  | PBytes b =>
      match PyStr.utf8_decode b with
      | Some s => Ok (PStr s)
      | None => Raise UnicodeDecodeError
      end
  | _ => Raise AttributeError
  end.

(** [tuple([cls.strip() for cls in val.decode('utf-8').splitlines()])] *)
Definition decode_command_list (v : pyval) : result pyval :=
  match decode_utf8 v with
  | Ok (PStr s) =>
      Ok (PTuple (map (fun cls => PStr (PyStr.strip cls))
                      (PyStr.splitlines s)))
  | Ok _ => Raise AttributeError
  | Raise e => Raise e
  end.

Definition rbind {A B} (r : result A) (f : A -> result B) : result B :=
  match r with
  | Ok a => f a
  | Raise e => Raise e
  end.

(** [numpy.array(v).dtype] for a tuple of strings: the width of the
    longest item, at least 1; an empty tuple gives float64. *)
Fixpoint max_width (items : list pyval) : option nat :=
  match items with
  | [] => Some 0
  | PStr s :: items' =>
      match max_width items' with
      | Some n => Some (Nat.max (String.length s) n)
      | None => None
      end
  | _ :: _ => None
  end.

Definition np_array_dtype (v : pyval) : np_dtype :=
  match v with
  | PTuple [] => NpFloat64
  | PTuple items =>
      match max_width items with
      | Some n => NpUnicode (Nat.max 1 n)
      | None => NpObject
      end
  | _ => NpObject
  end.

End Py.

(** ** HDF5 files as h5py presents them *)

Module H5.
Import Py.

Definition shape := list nat.

(** A member of a group: a group, with its attributes and members in
    the order h5py iterates them, or a dataset, with its attributes
    and the fields of its compound dtype. *)
Inductive node :=
| Group (attrs : dict pyval) (members : list (string * node))
| Dataset (attrs : dict pyval) (fields : list (string * shape)).

Record file := File {
  filename : string;
  root : node
}.

(** An open object is designated by its path from the root. *)
Definition path := list string.

Fixpoint lookup (k : string) (ms : list (string * node)) : option node :=
  match ms with
  | [] => None
  | (k', n) :: ms' => if String.eqb k k' then Some n else lookup k ms'
  end.

Fixpoint resolve (n : node) (p : path) : option node :=
  match p with
  | [] => Some n
  | k :: p' =>
      match n with
      | Group _ ms =>
          match lookup k ms with
          | Some n' => resolve n' p'
          | None => None
          end
      | Dataset _ _ => None
      end
  end.

Definition node_attrs (n : node) : dict pyval :=
  match n with
  | Group a _ => a
  | Dataset a _ => a
  end.

Definition is_group (n : node) : bool :=
  match n with
  | Group _ _ => true
  | Dataset _ _ => false
  end.

(** [obj.name]: the absolute path name. *)
Definition name_of (p : path) : string :=
  "/" ++ String.concat "/" p.

(** [os.path.basename(obj.name)] *)
Definition basename (p : path) : string :=
  List.last p "".

End H5.

(** ** Effects: the open file, warnings, exceptions *)

Module Eff.
Import Py H5.

(** The warning filters the code installs.  A filter that turns a
    warning into an exception is outside the model. *)
Inductive warn_filter := FilterDefault | FilterIgnore.

(** A call of [warn]: the message and the filter in force. *)
Record warning := Warning {
  wn_filter : warn_filter;
  wn_message : string
}.

Record world := World {
  w_file : file;
  w_filter : warn_filter;
  w_warnings : list warning
}.

Definition M (A : Type) := world -> result A * world.

Definition ret {A} (a : A) : M A := fun w => (Ok a, w).

Definition bind {A B} (m : M A) (f : A -> M B) : M B :=
  fun w =>
    match m w with
    | (Ok a, w') => f a w'
    | (Raise e, w') => (Raise e, w')
    end.

Definition raise {A} (e : exn) : M A := fun w => (Raise e, w).

Definition lift {A} (r : result A) : M A := fun w => (r, w).

(** [try: m  except e: handler] *)
Definition exn_eqb (a b : exn) : bool :=
  match a, b with
  | KeyError, KeyError | AttributeError, AttributeError
  | UnicodeDecodeError, UnicodeDecodeError
  | ValueError, ValueError | TypeError, TypeError => true
  | _, _ => false
  end.

Definition try_except {A} (m : M A) (e : exn) (handler : M A) : M A :=
  fun w =>
    match m w with
    | (Ok a, w') => (Ok a, w')
    | (Raise e', w') =>
        if exn_eqb e' e then handler w' else (Raise e', w')
    end.

(** [warnings.warn(msg)] *)
Definition warn (msg : string) : M unit :=
  fun w =>
    (Ok tt,
     World (w_file w) (w_filter w)
           (w_warnings w ++ [Warning (w_filter w) msg])).

(** [with warnings.catch_warnings(): warnings.simplefilter(f); m]:
    the filter in force before is back on exit, also by an
    exception. *)
Definition with_filter {A} (f : warn_filter) (m : M A) : M A :=
  fun w =>
    match m (World (w_file w) f (w_warnings w)) with
    | (r, w') => (r, World (w_file w') (w_filter w) (w_warnings w'))
    end.

(** Reading the open file. *)
Definition read {A} (f : file -> result A) : M A :=
  fun w => (f (w_file w), w).

Definition node_at (p : path) (f : file) : result node :=
  match resolve (root f) p with
  | Some n => Ok n
  | None => Raise ValueError
  end.

(** [name in group] *)
Definition h5_contains (g : path) (k : string) : M bool :=
  read (fun f =>
    match node_at g f with
    | Ok (Group _ ms) =>
        Ok (match lookup k ms with Some _ => true | None => false end)
    | Ok (Dataset _ _) => Raise TypeError
    | Raise e => Raise e
    end).

(** [group[name]] *)
Definition h5_getitem (g : path) (k : string) : M path :=
  read (fun f =>
    match node_at g f with
    | Ok (Group _ ms) =>
        match lookup k ms with
        | Some _ => Ok (g ++ [k])%list
        | None => Raise KeyError
        end
    | Ok (Dataset _ _) => Raise TypeError
    | Raise e => Raise e
    end).

(** [list(group)], [group.keys()] *)
Definition h5_keys (g : path) : M (list string) :=
  read (fun f =>
    match node_at g f with
    | Ok (Group _ ms) => Ok (map fst ms)
    | Ok (Dataset _ _) => Raise TypeError
    | Raise e => Raise e
    end).

(** [isinstance(obj, h5py.Group)] *)
Definition h5_is_group (p : path) : M bool :=
  read (fun f =>
    match node_at p f with
    | Ok n => Ok (is_group n)
    | Raise e => Raise e
    end).

(** [dict(obj.attrs)] *)
Definition h5_attrs (p : path) : M (dict pyval) :=
  read (fun f =>
    match node_at p f with
    | Ok n => Ok (node_attrs n)
    | Raise e => Raise e
    end).

(** [obj.attrs[key]] *)
Definition h5_attr (p : path) (k : string) : M pyval :=
  bind (h5_attrs p) (fun a => lift (getitem k a)).

(** [key in obj.attrs] *)
Definition h5_has_attr (p : path) (k : string) : M bool :=
  bind (h5_attrs p) (fun a => ret (dmem k a)).

(** [obj.name] *)
Definition h5_name (p : path) : M string :=
  read (fun f =>
    match node_at p f with
    | Ok _ => Ok (name_of p)
    | Raise e => Raise e
    end).

(** [dset.dtype[field].shape]: a group has no dtype, a dtype
    without the field raises KeyError. *)
Definition h5_field_shape (p : path) (field : string) : M shape :=
  read (fun f =>
    match node_at p f with
    | Ok (Dataset _ fields) =>
        match find (fun kv => String.eqb field (fst kv)) fields with
        | Some kv => Ok (snd kv)
        | None => Raise KeyError
        end
    | Ok (Group _ _) => Raise AttributeError
    | Raise e => Raise e
    end).

(** [file.filename] *)
Definition h5_filename : M string :=
  read (fun f => Ok (filename f)).

(** Writing the open file.  A file object of h5py is mutable: these
    are the operations that change it.  The mapping code calls none
    of them. *)
Fixpoint set_member (k : string) (n : node) (ms : list (string * node))
  : list (string * node) :=
  match ms with
  | [] => [(k, n)]
  | (k', n') :: ms' =>
      if String.eqb k k' then (k, n) :: ms' else (k', n') :: set_member k n ms'
  end.

Fixpoint remove_member (k : string) (ms : list (string * node))
  : list (string * node) :=
  match ms with
  | [] => []
  | (k', n') :: ms' =>
      if String.eqb k k' then ms' else (k', n') :: remove_member k ms'
  end.

Fixpoint update_at (n : node) (p : path) (g : node -> node) : node :=
  match p with
  | [] => g n
  | k :: p' =>
      match n with
      | Group a ms =>
          match lookup k ms with
          | Some n' => Group a (set_member k (update_at n' p' g) ms)
          | None => n
          end
      | Dataset _ _ => n
      end
  end.

Definition write (p : path) (g : node -> node) : M unit :=
  fun w =>
    match node_at p (w_file w) with
    | Ok _ =>
        (Ok tt,
         World (File (filename (w_file w))
                     (update_at (root (w_file w)) p g))
               (w_filter w) (w_warnings w))
    | Raise e => (Raise e, w)
    end.

(** [obj.attrs[key] = val] *)
Definition h5_set_attr (p : path) (k : string) (v : pyval) : M unit :=
  write p (fun n =>
             match n with
             | Group a ms => Group (dset k v a) ms
             | Dataset a fs => Dataset (dset k v a) fs
             end).

(** [group.create_group(name)], on a name not in use *)
Definition h5_create_group (g : path) (k : string) : M unit :=
  write g (fun n =>
             match n with
             | Group a ms => Group a (set_member k (Group [] []) ms)
             | Dataset a fs => n
             end).

(** [del group[name]] *)
Definition h5_delete (g : path) (k : string) : M unit :=
  write g (fun n =>
             match n with
             | Group a ms => Group a (remove_member k ms)
             | Dataset a fs => n
             end).

(** Control flow of a loop body: go on, or [return] from the
    enclosing function. *)
Inductive flow (S : Type) :=
| Continue (s : S)
| Return (s : S).
Arguments Continue {S} s.
Arguments Return {S} s.

Fixpoint for_each {X S} (xs : list X) (body : X -> S -> M (flow S))
         (s : S) : M (flow S) :=
  match xs with
  | [] => ret (Continue s)
  | x :: xs' =>
      bind (body x s)
           (fun fl =>
              match fl with
              | Continue s' => for_each xs' body s'
              | Return s' => ret (Return s')
              end)
  end.

(** The value of [for_each] when the body computes [body]. *)
Fixpoint for_each_value {X S} (xs : list X)
         (body : X -> S -> result (flow S)) (s : S) : result (flow S) :=
  match xs with
  | [] => Ok (Continue s)
  | x :: xs' =>
      rbind (body x s)
            (fun fl =>
               match fl with
               | Continue s' => for_each_value xs' body s'
               | Return s' => Ok (Return s')
               end)
  end.

Fixpoint filterM {X} (p : X -> M bool) (xs : list X) : M (list X) :=
  match xs with
  | [] => ret []
  | x :: xs' =>
      bind (p x) (fun b =>
      bind (filterM p xs') (fun r =>
      ret (if b then x :: r else r)))
  end.

(** [frame m]: running [m] leaves the open file and the warning
    filter as they are and only adds to the log of warnings. *)
Definition frame {A} (m : M A) : Prop :=
  forall w r w',
    m w = (r, w') ->
    w_file w' = w_file w /\ w_filter w' = w_filter w
    /\ exists ws, w_warnings w' = (w_warnings w ++ ws)%list.

(** [computes m f r]: on the file [f], whatever the filter and the
    log, [m] yields [r] and leaves the file as it is. *)
Definition computes {A} (m : M A) (f : file) (r : result A) : Prop :=
  forall w, w_file w = f -> exists w', m w = (r, w') /\ w_file w' = f.

(** The outcome of [try: m  except e: handler] from the outcomes of
    [m] and of the handler. *)
Definition try_value {A} (r : result A) (e : exn) (rh : result A)
  : result A :=
  match r with
  | Ok a => Ok a
  | Raise e' => if exn_eqb e' e then rh else Raise e'
  end.

End Eff.

Declare Scope eff_scope.
Delimit Scope eff_scope with eff.
Notation "x <- m ;; k" := (Eff.bind m (fun x => k))
  (at level 61, m at next level, right associativity) : eff_scope.
Notation "m ;;; k" := (Eff.bind m (fun _ => k))
  (at level 61, right associativity) : eff_scope.

(** ** The control-device template *)

Module ControlTemplate.
Import Py H5 Eff.
Local Open Scope eff_scope.

(** The state of a control mapping object. *)
Record mapper := Mapper {
  group : path;                        (* self.group *)
  info : dict pyval;                   (* self._info *)
  configs : dict pyval;                (* self._configs *)
  cl_re_patterns : list Re.regex;      (* self._cl_re_patterns *)
  build_successful : option bool       (* self._build_successful *)
}.

Definition set_info (k : string) (v : pyval) (self : mapper) : mapper :=
  Mapper (group self) (dset k v (info self)) (configs self)
         (cl_re_patterns self) (build_successful self).

Definition set_configs (c : dict pyval) (self : mapper) : mapper :=
  Mapper (group self) (info self) c
         (cl_re_patterns self) (build_successful self).

Definition extend_patterns (ps : list Re.regex) (self : mapper) : mapper :=
  Mapper (group self) (info self) (configs self)
         (cl_re_patterns self ++ ps)%list (build_successful self).

Definition set_build_successful (b : bool) (self : mapper) : mapper :=
  Mapper (group self) (info self) (configs self)
         (cl_re_patterns self) (Some b).

(** Modelled from the spec: [hdfMap_control_cl_template.__init__]
    (control_template.py is not among the sources): the object keeps
    the control group, starts with no configuration and no
    command-list pattern. *)
Definition template_init (control_group : path) : mapper :=
  Mapper control_group
         [("group name", PStr (basename control_group));
          ("group path", PStr (name_of control_group));
          ("contype", PNone)]
         [] [] None.

(** Modelled from the spec: the property [name] of the template, the
    name of the control group. *)
Definition name (self : mapper) : string := basename (group self).

(** Modelled from the spec: the property [sgroup_names] of the
    template, the names of the subgroups of the control group. *)
Definition sgroup_names (self : mapper) : M (list string) :=
  keys <- h5_keys (group self) ;;
  filterM (fun k => p <- h5_getitem (group self) k ;; h5_is_group p) keys.

(** [self._configs[name][key] = val] *)
Definition cfg_set (self : mapper) (name key : string) (val : pyval)
  : result mapper :=
  match dget name (configs self) with
  | Some (PDict c) =>
      Ok (set_configs (dset name (PDict (dset key val c)) (configs self))
                      self)
  | Some _ => Raise TypeError
  | None => Raise KeyError
  end.

(** [self._configs[name][key]] *)
Definition cfg_get (self : mapper) (name key : string) : result pyval :=
  match dget name (configs self) with
  | Some (PDict c) => getitem key c
  | Some _ => Raise TypeError
  | None => Raise KeyError
  end.

End ControlTemplate.

(** ** Control device 'N5700_PS' *)

Module N5700.
Import Py H5 Eff ControlTemplate.
Local Open Scope eff_scope.

Section Mapper.

(** [_construct_state_values_dict] of the command-list template,
    the shared helper that matches the command list against the
    patterns; control_template.py is not among the sources, the
    helper is a parameter.  It reads the mapping object only. *)
Variable construct_state_values_dict :
  mapper -> string -> list Re.regex -> result (dict pyval).

Definition construct_dataset_name : string := "Run time list".

Definition pairs : list (string * string) :=
  [("IP address", "IP address");
   ("power supply device", "Model Number");
   ("initial state", "Initialization commands");
   ("command list", "N5700 power supply command list")].

Definition _default_state_values_dict (self : mapper)
           (config_name : string) : result (dict pyval) :=
  rbind (cfg_get self config_name "dset paths") (fun dp =>
  rbind (cfg_get self config_name "command list") (fun cl =>
  rbind (cfg_get self config_name "command list") (fun cl_str =>
  let command :=
    [("dset paths", dp);
     ("dset field", PTuple [PStr "Command index"]);
     ("re pattern", PNone);
     ("command list", cl);
     ("cl str", cl_str);
     ("shape", PTuple [])] in
  rbind (getitem "command list" command) (fun cl' =>
  Ok [("command",
       PDict (dset "dtype" (PDtype (np_array_dtype cl')) command))])))).

Definition attr_warning (self : mapper) (name attr : string) : string :=
  "Attribute '" ++ attr ++ "' not found in control device '"
  ++ ControlTemplate.name self ++ "' configuration group '" ++ name ++ "'".

(** The body of [for pair in pairs]. *)
Definition map_attr (name : string) (cong : path)
           (pair : string * string) (self : mapper) : M (flow mapper) :=
  try_except
    (val <- h5_attr cong (snd pair) ;;
     val' <- lift (if String.eqb (fst pair) "command list"
                   then decode_command_list val
                   else decode_utf8 val) ;;
     self' <- lift (cfg_set self name (fst pair) val') ;;
     ret (Continue self'))
    KeyError
    (self' <- lift (cfg_set self name (fst pair) PNone) ;;
     if negb (String.eqb (fst pair) "command list")
     then warn (attr_warning self name (snd pair)
                ++ ", continuing with mapping") ;;;
          ret (Continue self')
     else warn (attr_warning self name (snd pair)) ;;;
          ret (Return (set_build_successful false self'))).

Definition dataset_warning (self : mapper) (name : string) : string :=
  "Dataset '" ++ construct_dataset_name
  ++ "' not found for control device '" ++ ControlTemplate.name self
  ++ "' configuration group '" ++ name ++ "'".

(** The end of the body of [for name in self.sgroup_names]: 'dset
    paths', 'shotnum' and 'state values'. *)
Definition define_dataset_values (name : string) (dset : path)
           (self : mapper) : M (flow mapper) :=
  dname <- h5_name dset ;;
  self <- lift (cfg_set self name "dset paths" (PStr dname)) ;;
  dp <- lift (cfg_get self name "dset paths") ;;
  shp <- h5_field_shape dset "Shot number" ;;
  self <- lift (cfg_set self name "shotnum"
                  (PDict [("dset paths", dp);
                          ("dset field", PTuple [PStr "Shot number"]);
                          ("shape", PTuple (map PInt shp));
                          ("dtype", PDtype NpInt32)])) ;;
  sv_dict <- with_filter FilterIgnore
               (try_except
                  (lift (construct_state_values_dict
                           self name (cl_re_patterns self)))
                  KeyError
                  (ret [])) ;;
  sv <- match sv_dict with
        | _ :: _ => ret sv_dict
        | [] => lift (_default_state_values_dict self name)
        end ;;
  self <- lift (cfg_set self name "state values" (PDict sv)) ;;
  ret (Continue self).

(** The body of [for name in self.sgroup_names]. *)
Definition map_config (name : string) (self : mapper)
  : M (flow mapper) :=
  cong <- h5_getitem (group self) name ;;
  found <- try_except
             (dset <- h5_getitem (group self) construct_dataset_name ;;
              ret (Some dset))
             KeyError
             (warn (dataset_warning self name) ;;; ret None) ;;
  match found with
  | None => ret (Return (set_build_successful false self))
  | Some dset =>
      let self := set_configs (Py.dset name (PDict []) (configs self))
                              self in
      fl <- for_each pairs (map_attr name cong) self ;;
      match fl with
      | Return self => ret (Return self)
      | Continue self => define_dataset_values name dset self
      end
  end.

Definition _build_configs (self : mapper) : M mapper :=
  let self := set_build_successful true self in
  names <- sgroup_names self ;;
  if Nat.eqb (List.length names) 0 then
    warn (ControlTemplate.name self ++ ": has no mappable configurations") ;;;
    ret (set_build_successful false self)
  else
    names <- sgroup_names self ;;
    fl <- for_each names map_config self ;;
    match fl with
    | Continue self => ret self
    | Return self => ret self
    end.

(** The object of [hdfMap_control_n5700ps.__init__] before
    [_build_configs]: the control type and the pattern are set. *)
Definition new_object (control_group : path) : mapper :=
  let self := template_init control_group in
  let self := set_info "contype" (PStr "power") self in
  extend_patterns [N5700Pattern.volt_pattern] self.

(** [hdfMap_control_n5700ps.__init__] *)
Definition init (control_group : path) : M mapper :=
  _build_configs (new_object control_group).

(** *** The values the methods compute

    The same steps as functions of the control group: [ms] are the
    members of the control group, [a] the attributes of a
    configuration group.  The methods above are proved to return these
    values. *)

(** [self] with [self._configs[name]] set to the dictionary [c]. *)
Definition with_entry (self : mapper) (name : string) (c : dict pyval)
  : mapper :=
  set_configs (Py.dset name (PDict c) (configs self)) self.

(** The outcome of the loop over [pairs] as a state of the object. *)
Definition entry_flow (self : mapper) (name : string)
           (r : result (flow (dict pyval))) : result (flow mapper) :=
  match r with
  | Ok (Continue c) => Ok (Continue (with_entry self name c))
  | Ok (Return c) =>
      Ok (Return (set_build_successful false (with_entry self name c)))
  | Raise e => Raise e
  end.

Definition fill_attr (a : dict pyval) (pair : string * string)
           (c : dict pyval) : result (flow (dict pyval)) :=
  match dget (snd pair) a with
  | Some v =>
      rbind (if String.eqb (fst pair) "command list"
             then decode_command_list v
             else decode_utf8 v)
            (fun val => Ok (Continue (Py.dset (fst pair) val c)))
  | None =>
      if negb (String.eqb (fst pair) "command list")
      then Ok (Continue (Py.dset (fst pair) PNone c))
      else Ok (Return (Py.dset (fst pair) PNone c))
  end.

Definition fill_attrs (a : dict pyval) (ps : list (string * string))
           (c : dict pyval) : result (flow (dict pyval)) :=
  for_each_value ps (fill_attr a) c.

Definition field_shape (n : node) (field : string) : result shape :=
  match n with
  | Dataset _ fields =>
      match find (fun kv => String.eqb field (fst kv)) fields with
      | Some kv => Ok (snd kv)
      | None => Raise KeyError
      end
  | Group _ _ => Raise AttributeError
  end.

Definition shotnum_entry (dp : pyval) (shp : shape) : pyval :=
  PDict [("dset paths", dp);
         ("dset field", PTuple [PStr "Shot number"]);
         ("shape", PTuple (map PInt shp));
         ("dtype", PDtype NpInt32)].

(** The result of the helper once KeyError is caught. *)
Definition caught_state_values (r : result (dict pyval))
  : result (dict pyval) :=
  match r with
  | Ok d => Ok d
  | Raise KeyError => Ok []
  | Raise e => Raise e
  end.

Definition finish_config (self : mapper) (name : string) (dset : node)
           (c : dict pyval) : result mapper :=
  let dname := name_of (group self ++ [construct_dataset_name])%list in
  let c1 := Py.dset "dset paths" (PStr dname) c in
  rbind (getitem "dset paths" c1) (fun dp =>
  rbind (field_shape dset "Shot number") (fun shp =>
  let c2 := Py.dset "shotnum" (shotnum_entry dp shp) c1 in
  let self2 := with_entry self name c2 in
  rbind (caught_state_values
           (construct_state_values_dict self2 name (cl_re_patterns self2)))
        (fun sv_dict =>
  rbind (match sv_dict with
         | _ :: _ => Ok sv_dict
         | [] => _default_state_values_dict self2 name
         end) (fun sv =>
  Ok (with_entry self name (Py.dset "state values" (PDict sv) c2)))))).

Definition config_step (ms : list (string * node)) (name : string)
           (self : mapper) : result (flow mapper) :=
  match lookup name ms with
  | None => Raise KeyError
  | Some cong =>
      match lookup construct_dataset_name ms with
      | None => Ok (Return (set_build_successful false self))
      | Some dset =>
          match fill_attrs (node_attrs cong) pairs [] with
          | Ok (Continue c) =>
              rbind (finish_config self name dset c)
                    (fun self' => Ok (Continue self'))
          | Ok (Return c) =>
              Ok (Return (set_build_successful false
                            (with_entry self name c)))
          | Raise e => Raise e
          end
      end
  end.

Definition config_loop (ms : list (string * node)) (names : list string)
           (self : mapper) : result (flow mapper) :=
  for_each_value names (config_step ms) self.

(** The names of the members of a group that are groups. *)
Definition subgroup_names (ms : list (string * node)) : list string :=
  filter (fun k => match lookup k ms with
                   | Some n => is_group n
                   | None => false
                   end)
         (map fst ms).

Definition build_configs_value (ms : list (string * node))
           (self : mapper) : result mapper :=
  let self := set_build_successful true self in
  let names := subgroup_names ms in
  if Nat.eqb (List.length names) 0 then
    Ok (set_build_successful false self)
  else
    match config_loop ms names self with
    | Ok (Continue self') => Ok self'
    | Ok (Return self') => Ok self'
    | Raise e => Raise e
    end.

(** *** The entries of [configs] *)

(** The value of a string attribute: decoded, None when absent. *)
Definition metadata_value (a : dict pyval) (attr : string) : pyval :=
  match dget attr a with
  | Some v =>
      match decode_utf8 v with
      | Ok s => s
      | Raise _ => PNone
      end
  | None => PNone
  end.

Definition command_list_attr : string := "N5700 power supply command list".

Definition command_list_value (a : dict pyval) : pyval :=
  match dget command_list_attr a with
  | Some v =>
      match decode_command_list v with
      | Ok t => t
      | Raise _ => PNone
      end
  | None => PNone
  end.

Definition metadata_entries (a : dict pyval) : dict pyval :=
  [("IP address", metadata_value a "IP address");
   ("power supply device", metadata_value a "Model Number");
   ("initial state", metadata_value a "Initialization commands");
   ("command list", command_list_value a)].

(** The entry of a configuration before 'state values'. *)
Definition base_entry (a : dict pyval) (dname : string) (shp : shape)
  : dict pyval :=
  (metadata_entries a
   ++ [("dset paths", PStr dname);
       ("shotnum", shotnum_entry (PStr dname) shp)])%list.

(** The default state values, on the command list [cl]. *)
Definition default_state_values (dname : string) (cl : pyval)
  : dict pyval :=
  [("command",
    PDict [("dset paths", PStr dname);
           ("dset field", PTuple [PStr "Command index"]);
           ("re pattern", PNone);
           ("command list", cl);
           ("cl str", cl);
           ("shape", PTuple []);
           ("dtype", PDtype (np_array_dtype cl))])].

(** The state values: the dictionary of the helper when it is not
    empty, the default otherwise. *)
Definition state_values (self2 : mapper) (name dname : string)
           (cl : pyval) : dict pyval :=
  match caught_state_values
          (construct_state_values_dict self2 name (cl_re_patterns self2))
  with
  | Ok (x :: l) => x :: l
  | _ => default_state_values dname cl
  end.

(** The complete entry, made on the object [self]. *)
Definition full_entry (self : mapper) (name : string) (a : dict pyval)
           (dname : string) (shp : shape) : dict pyval :=
  (base_entry a dname shp
   ++ [("state values",
        PDict (state_values (with_entry self name (base_entry a dname shp))
                            name dname (command_list_value a)))])%list.

(** *** Well-formed control groups *)

(** The attribute, when present, is a byte string that decodes. *)
Definition decodable (a : dict pyval) (attr : string) : bool :=
  match dget attr a with
  | Some v =>
      match decode_utf8 v with
      | Ok _ => true
      | Raise _ => false
      end
  | None => true
  end.

Definition attrs_decodable (a : dict pyval) : bool :=
  forallb (fun pair => decodable a (snd pair)) pairs.

Definition has_shot_number (n : node) : bool :=
  match field_shape n "Shot number" with
  | Ok _ => true
  | Raise _ => false
  end.

Fixpoint unique_names (names : list string) : bool :=
  match names with
  | [] => true
  | k :: names' => negb (str_in_list k names') && unique_names names'
  end.

(** The member names are unique, the attributes of the configuration
    groups decode, and the member 'Run time list', when there is one,
    is a dataset with the field 'Shot number'. *)
Definition well_formed (ms : list (string * node)) : bool :=
  unique_names (map fst ms)
  && forallb (fun k => match lookup k ms with
                       | Some n => attrs_decodable (node_attrs n)
                       | None => true
                       end)
             (subgroup_names ms)
  && match lookup construct_dataset_name ms with
     | Some n => has_shot_number n
     | None => true
     end.

(** The helper raises nothing but KeyError. *)
Definition helper_raises_only_KeyError : Prop :=
  forall self name ps e,
    construct_state_values_dict self name ps = Raise e -> e = KeyError.

(** The three ways for a build to fail: no subgroup, no member
    'Run time list', a configuration group without the command-list
    attribute. *)
Definition build_failure (ms : list (string * node)) : Prop :=
  subgroup_names ms = []
  \/ lookup construct_dataset_name ms = None
  \/ exists name cong,
      In name (subgroup_names ms) /\ lookup name ms = Some cong
      /\ dget command_list_attr (node_attrs cong) = None.

(** The attributes that may be missing without failing the build. *)
Definition optional_pairs : list (string * string) :=
  [("IP address", "IP address");
   ("power supply device", "Model Number");
   ("initial state", "Initialization commands")].

End Mapper.

End N5700.

(** ** The file mapping [bapsflib.lapd._hdf.hdfmapper.hdfMap] *)

Module HdfMap.
Import Py H5 Eff.
Local Open Scope eff_scope.

Definition _MSI_GNAME : string := "MSI".
Definition _DATA_GNAME : string := "Raw data + config".
Definition version_key : string := "LaPD HDF5 software version".

(** [d.update(items)] *)
Definition dupdate {V} (d : dict V) (items : dict V) : dict V :=
  fold_left (fun acc kv => dset (fst kv) (snd kv) acc) items d.

(** [for key, val in d.items(): if isinstance(val, bytes):
     d[key] = val.decode('utf-8')] *)
Fixpoint decode_items (items : dict pyval) (d : dict pyval)
  : result (dict pyval) :=
  match items with
  | [] => Ok d
  | (key, val) :: items' =>
      match val with
      | PBytes _ =>
          rbind (decode_utf8 val)
                (fun s => decode_items items' (dset key s d))
      | _ => decode_items items' d
      end
  end.

(** A mapping constructor of another module, called on a group of
    the open file: it reads the file, may warn and may raise. *)
Definition constructor (A : Type) : Type :=
  file -> path -> result A * list string.

Definition construct {A} (c : constructor A) (g : path) : M A :=
  fun w =>
    let (r, msgs) := c (w_file w) g in
    (r, World (w_file w) (w_filter w)
              (w_warnings w ++ map (Warning (w_filter w)) msgs)).

Section Map.

(** The mapping objects and the per-category collections
    [HDFMapMSI], [hdfMap_digitizers] and [HDFMapControls] are
    imported from modules that are not among the sources: they are
    parameters. *)
Variables MSIMap DigiMap ControlMap : Type.
Variable HDFMapMSI : constructor (dict MSIMap).
Variable hdfMap_digitizers : constructor (dict DigiMap).
Variable HDFMapControls : constructor (dict ControlMap).

(** The state of a [hdfMap] object; an attribute that is not set
    yet is [None]. *)
Record hdfMap := HdfMap {
  hdf_obj : path;                              (* self.__hdf_obj *)
  _attrs : dict (dict pyval);                  (* self._attrs *)
  msi : option (dict MSIMap);                  (* self.__msi *)
  digitizers : option (dict DigiMap);          (* self.__digitizers *)
  controls : option (dict ControlMap);         (* self.__controls *)
  unknowns : option (list string)              (* self.__unknowns *)
}.

Definition is_lapd_hdf (self : hdfMap) : M bool :=
  h5_has_attr (hdf_obj self) version_key.

Definition hdf_version (self : hdfMap) : M pyval :=
  v <- h5_attr (hdf_obj self) version_key ;;
  lift (decode_utf8 v).

Definition has_group (self : hdfMap) (gname : string) : M bool :=
  detected <- h5_contains (hdf_obj self) gname ;;
  if negb detected then
    fn <- h5_filename ;;
    warn ("No " ++ gname ++ " group found in " ++ fn) ;;;
    ret detected
  else ret detected.

Definition has_msi_group (self : hdfMap) : M bool :=
  has_group self _MSI_GNAME.

Definition has_data_group (self : hdfMap) : M bool :=
  has_group self _DATA_GNAME.

(** The attributes of one top-level group, bytes decoded. *)
Definition populate (self : hdfMap) (gname : string)
           (attrs : dict (dict pyval)) : M (dict (dict pyval)) :=
  g <- h5_getitem (hdf_obj self) gname ;;
  a <- h5_attrs g ;;
  old <- lift (getitem gname attrs) ;;
  let d := dupdate old a in
  d' <- lift (decode_items d d) ;;
  ret (dset gname d' attrs).

Definition __attach_msi (self : hdfMap) : M hdfMap :=
  b <- has_msi_group self ;;
  if b then
    g <- h5_getitem (hdf_obj self) _MSI_GNAME ;;
    m <- construct HDFMapMSI g ;;
    ret (HdfMap (hdf_obj self) (_attrs self) (Some m)
                (digitizers self) (controls self) (unknowns self))
  else
    ret (HdfMap (hdf_obj self) (_attrs self) (Some [])
                (digitizers self) (controls self) (unknowns self)).

Definition __attach_digitizers (self : hdfMap) : M hdfMap :=
  b <- has_data_group self ;;
  if b then
    g <- h5_getitem (hdf_obj self) _DATA_GNAME ;;
    m <- construct hdfMap_digitizers g ;;
    ret (HdfMap (hdf_obj self) (_attrs self) (msi self)
                (Some m) (controls self) (unknowns self))
  else
    ret (HdfMap (hdf_obj self) (_attrs self) (msi self)
                (Some []) (controls self) (unknowns self)).

Definition __attach_controls (self : hdfMap) : M hdfMap :=
  b <- has_data_group self ;;
  if b then
    g <- h5_getitem (hdf_obj self) _DATA_GNAME ;;
    m <- construct HDFMapControls g ;;
    ret (HdfMap (hdf_obj self) (_attrs self) (msi self)
                (digitizers self) (Some m) (unknowns self))
  else
    ret (HdfMap (hdf_obj self) (_attrs self) (msi self)
                (digitizers self) (Some []) (unknowns self)).

(** An attribute of the object that must have been set. *)
Definition attribute {A} (a : option A) : M A :=
  match a with
  | Some v => ret v
  | None => raise AttributeError
  end.

(** [for item in group: if item not in knowns:
     unknowns.append(group[item].name)] *)
Definition scan_unknowns (g : M path) (knowns : list string)
           (acc : list string) : M (list string) :=
  p <- g ;;
  items <- h5_keys p ;;
  fl <- for_each items
          (fun item acc =>
             if negb (str_in_list item knowns) then
               p' <- g ;;
               q <- h5_getitem p' item ;;
               n <- h5_name q ;;
               ret (Continue (acc ++ [n])%list)
             else ret (Continue acc))
          acc ;;
  match fl with
  | Continue acc' => ret acc'
  | Return acc' => ret acc'
  end.

Definition __attach_unknowns (self : hdfMap) : M hdfMap :=
  u <- scan_unknowns (ret (hdf_obj self))
         [_MSI_GNAME; _DATA_GNAME] [] ;;
  b <- has_msi_group self ;;
  u <- (if b then
          m <- attribute (msi self) ;;
          scan_unknowns (h5_getitem (hdf_obj self) _MSI_GNAME)
                        (dkeys m) u
        else ret u) ;;
  b <- has_data_group self ;;
  u <- (if b then
          d <- attribute (digitizers self) ;;
          c <- attribute (controls self) ;;
          scan_unknowns (h5_getitem (hdf_obj self) _DATA_GNAME)
                        (dkeys d ++ dkeys c)%list u
        else ret u) ;;
  ret (HdfMap (hdf_obj self) (_attrs self) (msi self)
              (digitizers self) (controls self) (Some u)).

(** [hdfMap.__init__] *)
Definition init (hdf : path) (silent : bool) : M hdfMap :=
  let self := HdfMap hdf [] None None None None in
  lapd <- is_lapd_hdf self ;;
  if negb lapd then
    _ <- h5_filename ;; raise ValueError
  else
    let attrs := [(_MSI_GNAME, []); (_DATA_GNAME, [])] in
    b <- has_msi_group self ;;
    attrs <- (if b then populate self _MSI_GNAME attrs
              else ret attrs) ;;
    b <- has_data_group self ;;
    attrs <- (if b then populate self _DATA_GNAME attrs
              else ret attrs) ;;
    let self := HdfMap hdf attrs None None None None in
    with_filter (if silent then FilterIgnore else FilterDefault)
      (self <- __attach_msi self ;;
       self <- __attach_digitizers self ;;
       self <- __attach_controls self ;;
       __attach_unknowns self).

Definition possible_candidates : list string :=
  ["SIS 3301"; "SIS crate"].

(** [for key in possible_candidates: if key in self.__digitizers:
     digi = self.__digitizers[key]; break], from [digi = None]. *)
Fixpoint first_candidate (keys : list string) (d : dict DigiMap)
  : option DigiMap :=
  match keys with
  | [] => None
  | key :: keys' =>
      if dmem key d then dget key d else first_candidate keys' d
  end.

Definition main_digitizer (self : hdfMap) : M (option DigiMap) :=
  d <- attribute (digitizers self) ;;
  ret (first_candidate possible_candidates d).

End Map.

Arguments HdfMap {MSIMap DigiMap ControlMap}.
Arguments hdf_obj {MSIMap DigiMap ControlMap}.
Arguments _attrs {MSIMap DigiMap ControlMap}.
Arguments msi {MSIMap DigiMap ControlMap}.
Arguments digitizers {MSIMap DigiMap ControlMap}.
Arguments controls {MSIMap DigiMap ControlMap}.
Arguments unknowns {MSIMap DigiMap ControlMap}.
Arguments is_lapd_hdf {MSIMap DigiMap ControlMap}.
Arguments hdf_version {MSIMap DigiMap ControlMap}.
Arguments has_group {MSIMap DigiMap ControlMap}.
Arguments has_msi_group {MSIMap DigiMap ControlMap}.
Arguments has_data_group {MSIMap DigiMap ControlMap}.
Arguments populate {MSIMap DigiMap ControlMap}.
Arguments __attach_msi {MSIMap DigiMap ControlMap}.
Arguments __attach_digitizers {MSIMap DigiMap ControlMap}.
Arguments __attach_controls {MSIMap DigiMap ControlMap}.
Arguments __attach_unknowns {MSIMap DigiMap ControlMap}.
Arguments init {MSIMap DigiMap ControlMap}.
Arguments first_candidate {DigiMap}.
Arguments main_digitizer {MSIMap DigiMap ControlMap}.

(** [gname in hdf_obj]: the group at [hdf] has a member [gname]. *)
Definition present (f : file) (hdf : path) (gname : string) : bool :=
  match resolve (root f) hdf with
  | Some (Group _ ms) =>
      match lookup gname ms with
      | Some _ => true
      | None => false
      end
  | _ => false
  end.

(** The message of [has_msi_group] and [has_data_group]. *)
Definition no_group_warning (f : file) (gname : string) : string :=
  "No " ++ gname ++ " group found in " ++ filename f.

(** A call of [warn] with the message is in the log. *)
Definition warned (w : world) (msg : string) : Prop :=
  exists flt, In (Warning flt msg) (w_warnings w).

(** The attributes of the object at [p]. *)
Definition attrs_at (f : file) (p : path) : dict pyval :=
  match resolve (root f) p with
  | Some n => node_attrs n
  | None => []
  end.

End HdfMap.

(** ** The earlier mapping [bapsflib.lapdhdf.hdfmappers] *)

Module Legacy.
Import Py H5 Eff.
Local Open Scope eff_scope.

Record hdfMap_msi := HdfMapMsi {
  possible_diagnostic_groups : list string;
  found_diagnostics : list string
}.

(** [hdfMap_msi.__new__] *)
Definition hdfMap_msi_new (msi_group : path) : M hdfMap_msi :=
  let obj := HdfMapMsi ["Discharge"; "Gas pressure"; "Heater";
                        "Interferometer array"; "Magnetic field"] [] in
  keys <- h5_keys msi_group ;;
  fl <- for_each keys
          (fun key obj =>
             ret (Continue
                    (HdfMapMsi (possible_diagnostic_groups obj)
                               (found_diagnostics obj ++ [key])%list)))
          obj ;;
  match fl with
  | Continue obj => ret obj
  | Return obj => ret obj
  end.

(** [for key in keys: if 'lapd' in key.casefold(): is_lapd = True;
     break], from [is_lapd = False]. *)
Fixpoint scan_lapd (keys : list string) : bool :=
  match keys with
  | [] => false
  | key :: keys' =>
      if PyStr.contains "lapd" (PyStr.casefold key) then true
      else scan_lapd keys'
  end.

(** The property [is_lapd_hdf] of the earlier [hdfMap]. *)
Definition is_lapd_hdf (hdf_obj : path) : M bool :=
  a <- h5_attrs hdf_obj ;;
  ret (scan_lapd (dkeys a)).

End Legacy.

(** ** Sample files *)

Module Samples.
Import Py H5 Eff.

Definition newline : string := String "010"%char "".

(** Modelled from the spec: a per-category collection, which
    enumerates the known device names and makes one mapper for each
    subgroup of that name; the mapper itself is left out. *)
Definition known_collection (known : list string)
  : HdfMap.constructor (dict unit) :=
  fun f g =>
    match resolve (root f) g with
    | Some (Group _ ms) =>
        (Ok (map (fun k => (k, tt))
                 (filter (fun k => str_in_list k known) (map fst ms))),
         [])
    | _ => (Raise TypeError, [])
    end.

Definition msi_names : list string :=
  ["Discharge"; "Gas pressure"; "Heater"; "Interferometer array";
   "Magnetic field"].
Definition digitizer_names : list string := ["SIS 3301"; "SIS crate"].
Definition control_names : list string :=
  ["6K Compumotor"; "N5700_PS"; "Waveform"].

Definition nsconf : node :=
  Group [("IP address", PBytes "192.168.7.3");
         ("Model Number", PBytes "N5751A");
         ("N5700 power supply command list",
          PBytes ("SOURCE:VOLTAGE:LEVEL 20.0 " ++ newline
                  ++ " SOURCE:VOLTAGE:LEVEL 30"))]
        [].

Definition run_time_list : node :=
  Dataset [] [("Shot number", []); ("Configuration name", []);
              ("Command index", [])].

Definition n5700_group : node :=
  Group [] [("Run time list", run_time_list); ("nsconf_1", nsconf)].

(** A file of the LaPD with both top-level groups. *)
Definition lapd_file : file :=
  File "run.hdf5"
    (Group [(HdfMap.version_key, PBytes "1.2")]
       [("MSI",
         Group [] [("Discharge", Group [] []);
                   ("Langmuir probe", Group [] [])]);
        ("Raw data + config",
         Group [("Description", PBytes "a run"); ("Shots", PInt 10)]
               [("N5700_PS", n5700_group);
                ("SIS crate", Group [] [])])]).

(** A file of the LaPD with no group at all. *)
Definition bare_file : file :=
  File "bare.hdf5" (Group [(HdfMap.version_key, PBytes "1.2")] []).

(** A file whose version attribute is not UTF-8. *)
Definition odd_version_file : file :=
  File "odd.hdf5"
    (Group [(HdfMap.version_key,
             PBytes (String (ascii_of_nat 255) ""))] []).

(** A file with an attribute that names the LaPD, but not the
    software version. *)
Definition other_lapd_file : file :=
  File "other.hdf5" (Group [("Created by LaPD", PBytes "yes")] []).

(** A control group whose dataset has no field 'Shot number'. *)
Definition no_shotnum_file : file :=
  File "noshot.hdf5"
    (Group []
       [("N5700_PS",
         Group [] [("Run time list",
                    Dataset [] [("Command index", [])]);
                   ("nsconf_1", nsconf)])]).

(** The N5700 control group of [lapd_file]. *)
Definition sample_group : path := ["Raw data + config"; "N5700_PS"].

Definition sample_members : list (string * node) :=
  [("Run time list", run_time_list); ("nsconf_1", nsconf)].

Definition start (f : file) : world := World f FilterDefault [].

(** A helper that finds no state value. *)
Definition no_state_values
  : ControlTemplate.mapper -> string -> list Re.regex
    -> result (dict pyval) :=
  fun _ _ _ => Ok [].

End Samples.

(** ** More of [bapsflib.lapd._hdf.hdfmapper]: the properties of a
    [hdfMap] *)

Module HdfMapProps.
Import Py H5 Eff HdfMap.

Section Props.
Context {MSIMap DigiMap ControlMap : Type}.

Local Abbreviation hdfMap := (HdfMap.hdfMap MSIMap DigiMap ControlMap).

(** The property [attrs]. *)
Definition attrs (self : hdfMap) : dict (dict pyval) := _attrs self.

(** [len(x)] on an attribute of the object: [len(None)] raises
    TypeError. *)
Definition len_of {A} (a : option (list A)) : result nat :=
  match a with
  | Some l => Ok (List.length l)
  | None => Raise TypeError
  end.

Definition has_data_run_sequence (self : hdfMap) : bool := false.

Definition has_msi_diagnostics (self : hdfMap) : result bool :=
  rbind (len_of (msi self))
        (fun n => Ok (if Nat.eqb n 0 then false else true)).

Definition has_digitizers (self : hdfMap) : result bool :=
  rbind (len_of (digitizers self))
        (fun n => Ok (if Nat.eqb n 0 then false else true)).

Definition has_controls (self : hdfMap) : result bool :=
  rbind (len_of (controls self))
        (fun n => Ok (if Nat.eqb n 0 then false else true)).

Definition has_unknowns (self : hdfMap) : result bool :=
  rbind (len_of (unknowns self))
        (fun n => Ok (if Nat.eqb n 0 then false else true)).

(** The chain [if key == k1: info[t1] = val  elif key == k2: ...] of
    [run_info] and [exp_info], as the table of its branches: the
    first branch whose key is [key] assigns. *)
Definition assign (table : list (string * string)) (key : string)
           (val : pyval) (info : dict pyval) : dict pyval :=
  match find (fun kt => String.eqb key (fst kt)) table with
  | Some kt => dset (snd kt) val info
  | None => info
  end.

(** [for key, val in items: <chain>] *)
Fixpoint assign_info (table : list (string * string))
         (items : dict pyval) (info : dict pyval) : dict pyval :=
  match items with
  | [] => info
  | (key, val) :: items' =>
      assign_info table items' (assign table key val info)
  end.

Definition run_info_table : list (string * string) :=
  [("Data run", "run name");
   ("Description", "run description");
   ("Status", "run status");
   ("Status date", "run date")].

Definition run_info (self : hdfMap) : result (dict pyval) :=
  let run_info := [("run name", PStr "");
                   ("run description", PStr "");
                   ("run status", PStr "");
                   ("run date", PStr "")] in
  rbind (getitem _DATA_GNAME (_attrs self))
        (fun items => Ok (assign_info run_info_table items run_info)).

Definition exp_info_table : list (string * string) :=
  [("Investigator", "investigator");
   ("Experiment name", "exp name");
   ("Experiment description", "exp description");
   ("Experiment set name", "exp set name");
   ("Experiment set description", "exp set description")].

Definition exp_info (self : hdfMap) : result (dict pyval) :=
  let exp_info := [("investigator", PStr "");
                   ("exp name", PStr "");
                   ("exp description", PStr "");
                   ("exp set name", PStr "");
                   ("exp set description", PStr "")] in
  rbind (getitem _DATA_GNAME (_attrs self))
        (fun items => Ok (assign_info exp_info_table items exp_info)).

End Props.

(** *** What the construction computes from the file *)

(** An attribute value as [__init__] stores it: a UTF-8 byte string
    is decoded, any other value is kept. *)
Definition decoded_value (v : pyval) : pyval :=
  match v with
  | PBytes b =>
      match PyStr.utf8_decode b with
      | Some s => PStr s
      | None => v
      end
  | _ => v
  end.

(** The value [run_info] and [exp_info] give for the attribute
    [key] of the data group. *)
Definition info_value (a : dict pyval) (key : string) : pyval :=
  match dget key a with
  | Some v => decoded_value v
  | None => PStr ""
  end.

(** The member names of the group at [g], in the order of
    iteration. *)
Definition members_at (f : file) (g : path) : list string :=
  match resolve (root f) g with
  | Some (Group _ ms) => map fst ms
  | _ => []
  end.

(** The path names of the members of the group at [g] whose name is
    not in [knowns]. *)
Definition unknown_names (f : file) (g : path) (knowns : list string)
  : list string :=
  map (fun item => name_of (g ++ [item])%list)
      (filter (fun item => negb (str_in_list item knowns))
              (members_at f g)).

(** The warning of a presence check on the group [gname], issued
    under the filter [flt]: none when the group is there. *)
Definition absent_warning (f : file) (hdf : path) (flt : warn_filter)
           (gname : string) : list warning :=
  if present f hdf gname then []
  else [Warning flt (no_group_warning f gname)].

(** [tagged m]: running [m] leaves the open file and the warning
    filter as they are, and every warning it adds to the log was
    issued under the filter in force at the start. *)
Definition tagged {A} (m : M A) : Prop :=
  forall w r w',
    m w = (r, w') ->
    w_file w' = w_file w /\ w_filter w' = w_filter w
    /\ exists ws,
        w_warnings w' = (w_warnings w ++ ws)%list
        /\ Forall (fun x => wn_filter x = w_filter w) ws.

(** [same m1 m2]: on the same file, whatever the filters and the
    logs, [m1] and [m2] have the same outcome, leave the file as it
    is and issue the same messages. *)
Definition same {A} (m1 m2 : M A) : Prop :=
  forall w1 w2 r1 w1' r2 w2',
    w_file w1 = w_file w2 ->
    m1 w1 = (r1, w1') -> m2 w2 = (r2, w2') ->
    r1 = r2
    /\ w_file w1' = w_file w1 /\ w_file w2' = w_file w2
    /\ exists ws1 ws2,
        w_warnings w1' = (w_warnings w1 ++ ws1)%list
        /\ w_warnings w2' = (w_warnings w2 ++ ws2)%list
        /\ map wn_message ws1 = map wn_message ws2.

End HdfMapProps.

(** ** More sample files *)

Module MoreSamples.
Import Py H5 Eff Samples.

(** A file of the LaPD whose data group describes the run and the
    experiment, with members that no collection knows. *)
Definition described_file : file :=
  File "described.hdf5"
    (Group [(HdfMap.version_key, PBytes "1.2")]
       [("MSI",
         Group [] [("Discharge", Group [] []);
                   ("Langmuir probe", Group [] [])]);
        ("Notes", Group [] []);
        ("Raw data + config",
         Group [("Data run", PBytes "run 12");
                ("Description", PBytes "a run");
                ("Investigator", PBytes "Everson");
                ("Experiment name", PBytes "waves");
                ("Shots", PInt 10)]
               [("SIS crate", Group [] []);
                ("Data run sequence", Group [] []);
                ("N5700_PS", n5700_group)])]).

(** A configuration group without the command-list attribute. *)
Definition plain_conf : node :=
  Group [("IP address", PBytes "192.168.7.3")] [].

(** The members of control groups: without the dataset, with a
    configuration that has no command list, and with two
    configurations around the dataset. *)
Definition no_dataset_members : list (string * node) :=
  [("nsconf_1", nsconf)].

Definition no_command_list_members : list (string * node) :=
  [("Run time list", run_time_list); ("nsconf_1", plain_conf)].

Definition two_config_members : list (string * node) :=
  [("nsconf_b", nsconf); ("Run time list", run_time_list);
   ("nsconf_a", nsconf)].

(** A configuration group with the four attributes. *)
Definition full_conf : node :=
  Group [("IP address", PBytes "192.168.7.3");
         ("Model Number", PBytes "N5751A");
         ("Initialization commands", PBytes "*RST");
         ("N5700 power supply command list",
          PBytes "SOURCE:VOLTAGE:LEVEL 20.0")]
        [].

Definition full_members : list (string * node) :=
  [("Run time list", run_time_list); ("nsconf_1", full_conf)].

Definition dataset_only_members : list (string * node) :=
  [("Run time list", run_time_list)].

(** A helper of the earlier template that finds no state value,
    and stand-ins for numpy: the array is the tuple it is made
    of. *)
Definition no_legacy_state_values
  : ControlTemplate.mapper -> string -> list Re.regex
    -> result (option (dict pyval)) :=
  fun _ _ _ => Ok None.

Definition tuple_array (v : pyval) : pyval := v.

(** A file with the control group 'N5700_PS' of the given
    members. *)
Definition control_file (ms : list (string * node)) : file :=
  File "control.hdf5"
    (Group [(HdfMap.version_key, PBytes "1.2")]
       [("Raw data + config", Group [] [("N5700_PS", Group [] ms)])]).

End MoreSamples.

(** ** More of the control device 'N5700_PS' *)

Module N5700Props.
Import Py H5 Eff ControlTemplate N5700.

(** The warning of a build that stops before it maps any
    configuration: there is no subgroup, or the dataset is looked
    for, and missed, on the first subgroup. *)
Definition early_failure_warning (ms : list (string * node))
           (self : mapper) : string :=
  match subgroup_names ms with
  | [] => ControlTemplate.name self ++ ": has no mappable configurations"
  | name :: _ => dataset_warning self name
  end.

(** The entry of a configuration group without the command-list
    attribute, as the loop over [pairs] leaves it. *)
Definition partial_entry (a : dict pyval) : dict pyval :=
  [("IP address", metadata_value a "IP address");
   ("power supply device", metadata_value a "Model Number");
   ("initial state", metadata_value a "Initialization commands");
   ("command list", PNone)].

(** The keys of a configuration mapped in full, in the order of
    their assignment. *)
Definition entry_keys : list string :=
  ["IP address"; "power supply device"; "initial state"; "command list";
   "dset paths"; "shotnum"; "state values"].

Definition no_linebreak (s : string) : bool :=
  PyStr.all_chars (fun c => negb (PyStr.is_linebreak c)) s.

(** The first character, if any, is no whitespace. *)
Definition starts_clean (s : string) : bool :=
  match s with
  | EmptyString => true
  | String c _ => negb (PyStr.is_space c)
  end.

(** The first and the last character of [s], if any, are no
    whitespace. *)
Definition no_outer_space (s : string) : bool :=
  starts_clean s && starts_clean (PyStr.rev s).

(** The warnings with which a build on the control group [gp]
    gives up. *)
Definition failure_message (gp : path) (msg : string) : Prop :=
  msg = (ControlTemplate.name (new_object gp)
         ++ ": has no mappable configurations")
  \/ (exists name, msg = dataset_warning (new_object gp) name)
  \/ (exists name,
         msg = attr_warning (new_object gp) name
                            "N5700 power supply command list").

(** [reports P m]: when the loop body [m] asks to return from the
    method, the last warning of the log is one of [P], issued by
    [m] under the filter in force. *)
Definition reports {S} (P : string -> Prop) (m : M (flow S)) : Prop :=
  forall w s w',
    m w = (Ok (Return s), w') ->
    exists ws msg,
      P msg
      /\ w_warnings w'
         = (w_warnings w ++ ws ++ [Warning (w_filter w) msg])%list.

(** The state at the end of a loop, however it ended. *)
Definition flow_state {S} (fl : flow S) : S :=
  match fl with
  | Continue s => s
  | Return s => s
  end.

(** What [__init__] sets before the build: the control group, the
    information on the device and the command-list patterns. *)
Definition fixed_part (self : mapper)
  : path * dict pyval * list Re.regex :=
  (group self, info self, cl_re_patterns self).

(** [pure m]: running [m] changes nothing: it only reads. *)
Definition pure {A} (m : M A) : Prop :=
  forall w r w', m w = (r, w') -> w' = w.

End N5700Props.

(** ** More of the earlier mapping [bapsflib.lapdhdf.hdfmappers] *)

Module LegacyProps.
Import Py H5 Eff Legacy.
Local Open Scope eff_scope.

Definition msi_group : string := "MSI".
Definition data_group : string := "Raw data + config".

(** The state of the earlier [hdfMap] object. *)
Record hdfMap := HdfMap {
  hdf_obj : path;                        (* self.__hdf_obj *)
  msi : option hdfMap_msi;               (* self.msi *)
  msi_diagnostic_groups : list string;
  sis_group : string;
  sis_crates : list string;
  data_configs : dict pyval
}.

(** [hdfMap.__attach_msi]: the value of [self.msi]. *)
Definition __attach_msi (hdf : path) : M (option hdfMap_msi) :=
  keys <- h5_keys hdf ;;
  if str_in_list msi_group keys then
    g <- h5_getitem hdf msi_group ;;
    m <- hdfMap_msi_new g ;;
    ret (Some m)
  else ret None.

(** [hdfMap.__init__] *)
Definition init (hdf : path) : M hdfMap :=
  m <- __attach_msi hdf ;;
  ret (HdfMap hdf m [] "" [] []).

(** The property [hdf_version]: [break] is the return from the
    loop. *)
Definition hdf_version (hdf : path) : M pyval :=
  a <- h5_attrs hdf ;;
  fl <- for_each (dkeys a)
          (fun key vers =>
             if PyStr.contains "version" (PyStr.casefold key) then
               v <- h5_attr hdf key ;;
               vers <- lift (decode_utf8 v) ;;
               ret (Return vers)
             else ret (Continue vers))
          (PStr "") ;;
  match fl with
  | Continue vers => ret vers
  | Return vers => ret vers
  end.

Definition sis_path (self : hdfMap) : string :=
  data_group ++ "/" ++ sis_group self.

Definition main_data (self : hdfMap) : pyval := PNone.

(** The first key that, case-folded, contains 'version'. *)
Definition version_key_of (a : dict pyval) : option string :=
  find (fun key => PyStr.contains "version" (PyStr.casefold key))
       (dkeys a).

End LegacyProps.

(** ** The earlier mapping of 'N5700_PS':
    [bapsflib.lapdhdf.map_controls.n5700ps] *)

Module LegacyN5700.
Import Py H5 Eff ControlTemplate.
Local Open Scope eff_scope.

(** The class extends the template of the earlier package, whose
    file (lapdhdf/map_controls/control_template.py) is not among the
    sources.  Modelled from the spec: that template is taken to be
    the one of [ControlTemplate]: the same state of the object, the
    same [sgroup_names]. *)

Section Mapper.

(** [_construct_state_values_dict] belongs to the template of the
    earlier package, which is not among the sources: a parameter.
    It returns a dictionary or None. *)
Variable construct_state_values_dict :
  mapper -> string -> list Re.regex -> result (option (dict pyval)).

(** [numpy.array(v)] and the [dtype] of an array: numpy arrays are
    no values of the model, the two are parameters. *)
Variable np_array : pyval -> pyval.
Variable dtype_of : pyval -> np_dtype.

Definition construct_dataset_name : string := "Run time list".

Definition _default_state_values_dict (self : mapper)
           (config_name : string) : result (dict pyval) :=
  rbind (cfg_get self config_name "dset paths") (fun dp =>
  rbind (cfg_get self config_name "command list") (fun cl =>
  let command :=
    [("dset paths", dp);
     ("dset field", PTuple [PStr "Command index"]);
     ("re pattern", PNone);
     ("command list", np_array cl);
     ("shape", PTuple [])] in
  rbind (getitem "command list" command) (fun arr =>
  let command := dset "cl str" arr command in
  rbind (getitem "command list" command) (fun arr' =>
  Ok [("command",
       PDict (dset "dtype" (PDtype (dtype_of arr')) command))])))).

(** The body of [for name in self.sgroup_names]: nothing is caught. *)
Definition map_config (name : string) (self : mapper) : M mapper :=
  cgroup <- h5_getitem (group self) name ;;
  ip <- h5_attr cgroup "IP address" ;;
  ip <- lift (decode_utf8 ip) ;;
  gdevice <- h5_attr cgroup "Model Number" ;;
  gdevice <- lift (decode_utf8 gdevice) ;;
  init_command <- h5_attr cgroup "Initialization commands" ;;
  init_command <- lift (decode_utf8 init_command) ;;
  cl <- h5_attr cgroup "N5700 power supply command list" ;;
  cl <- lift (decode_command_list cl) ;;
  dset <- h5_getitem (group self) construct_dataset_name ;;
  let self :=
    set_configs
      (Py.dset name
         (PDict [("IP address", ip);
                 ("device model", gdevice);
                 ("init command", init_command)])
         (configs self))
      self in
  self <- lift (cfg_set self name "command list" cl) ;;
  dname <- h5_name dset ;;
  self <- lift (cfg_set self name "dset paths" (PStr dname)) ;;
  dp <- lift (cfg_get self name "dset paths") ;;
  shp <- h5_field_shape dset "Shot number" ;;
  self <- lift (cfg_set self name "shotnum"
                  (PDict [("dset paths", dp);
                          ("dset field", PStr "Shot number");
                          ("shape", PTuple (map PInt shp));
                          ("dtype", PDtype NpInt32)])) ;;
  pstate <- lift (construct_state_values_dict
                    self name (cl_re_patterns self)) ;;
  sv <- match pstate with
        | Some d => ret d
        | None => lift (_default_state_values_dict self name)
        end ;;
  lift (cfg_set self name "state values" (PDict sv)).

Definition _build_configs (self : mapper) : M mapper :=
  names <- sgroup_names self ;;
  fl <- for_each names
          (fun name self =>
             self <- map_config name self ;; ret (Continue self))
          self ;;
  match fl with
  | Continue self => ret (set_build_successful true self)
  | Return self => ret (set_build_successful true self)
  end.

(** [hdfMap_control_n5700ps.__init__]: no command-list pattern is
    added. *)
Definition init (control_group : path) : M mapper :=
  let self := template_init control_group in
  let self := set_info "contype" (PStr "power") self in
  let self := extend_patterns [] self in
  _build_configs self.

End Mapper.

(** The entry of a configuration as the earlier build makes it,
    from the attributes [a] of the configuration group, the path
    name of the dataset, the shape of its field 'Shot number' and
    the state values. *)
Definition legacy_entry (a : dict pyval) (dname : string) (shp : shape)
           (sv : dict pyval) : dict pyval :=
  [("IP address", N5700.metadata_value a "IP address");
   ("device model", N5700.metadata_value a "Model Number");
   ("init command", N5700.metadata_value a "Initialization commands");
   ("command list", N5700.command_list_value a);
   ("dset paths", PStr dname);
   ("shotnum",
    PDict [("dset paths", PStr dname);
           ("dset field", PStr "Shot number");
           ("shape", PTuple (map PInt shp));
           ("dtype", PDtype NpInt32)]);
   ("state values", PDict sv)].

(** The four attributes a configuration group is read for. *)
Definition required_attrs : list string :=
  ["IP address"; "Model Number"; "Initialization commands";
   "N5700 power supply command list"].

End LegacyN5700.

(** * Properties *)

Module PyStrFacts.
Import PyStr.

Lemma sapp_nil_r (s : string) : s ++ "" = s.
Proof. induction s; simpl; congruence. Qed.

Lemma sapp_assoc (a b c : string) : (a ++ b) ++ c = a ++ (b ++ c).
Proof. induction a; simpl; congruence. Qed.

Lemma slength_app (a b : string) :
  String.length (a ++ b) = String.length a + String.length b.
Proof. induction a; simpl; congruence. Qed.

Lemma substring_prefix (w rest : string) :
  substring 0 (String.length w) (w ++ rest) = w.
Proof.
  induction w as [|c w IH]; simpl.
  - destruct rest; reflexivity.
  - now rewrite IH.
Qed.

Lemma consumed_app (w rest : string) : consumed (w ++ rest) rest = w.
Proof.
  unfold consumed. rewrite slength_app.
  replace (String.length w + String.length rest - String.length rest)
    with (String.length w) by lia.
  apply substring_prefix.
Qed.

Lemma consumed_all (s : string) : consumed s "" = s.
Proof.
  rewrite <- (sapp_nil_r s) at 1. apply consumed_app.
Qed.

Lemma all_chars_app p (a b : string) :
  all_chars p (a ++ b) = all_chars p a && all_chars p b.
Proof.
  induction a as [|c a IH]; simpl; [reflexivity|].
  now rewrite IH, andb_assoc.
Qed.

Lemma last_char_app (a b : string) d :
  last_char (a ++ b) d = last_char b (last_char a d).
Proof. revert d; induction a as [|c a IH]; intro d; simpl; auto. Qed.

Lemma startswith_app (p s : string) : startswith p (p ++ s) = true.
Proof.
  induction p as [|c p IH]; simpl; [reflexivity|].
  now rewrite Ascii.eqb_refl, IH.
Qed.

Lemma startswith_sound (p s : string) :
  startswith p s = true -> exists post, s = p ++ post.
Proof.
  revert s; induction p as [|c p IH]; intros s H; simpl in *.
  - now exists s.
  - destruct s as [|d s]; [discriminate|].
    apply andb_true_iff in H as [Hc Hp].
    apply Ascii.eqb_eq in Hc; subst d.
    destruct (IH _ Hp) as [post ->]. now exists post.
Qed.

(** [contains] decides the occurrence of [needle] as a substring. *)
Lemma contains_eq (needle hay : string) :
  contains needle hay
  = startswith needle hay
    || match hay with
       | EmptyString => false
       | String _ hay' => contains needle hay'
       end.
Proof. destruct hay; reflexivity. Qed.

Lemma contains_app (needle pre post : string) :
  contains needle (pre ++ needle ++ post) = true.
Proof.
  induction pre as [|c pre IH].
  - simpl. rewrite contains_eq, startswith_app. reflexivity.
  - simpl. rewrite IH. apply orb_true_r.
Qed.

Lemma contains_sound (needle hay : string) :
  contains needle hay = true ->
  exists pre post, hay = pre ++ needle ++ post.
Proof.
  induction hay as [|c hay IH]; simpl; intro H.
  - rewrite orb_false_r in H. apply startswith_sound in H as [post ->].
    now exists "", post.
  - apply orb_true_iff in H as [H|H].
    + apply startswith_sound in H as [post ->]. now exists "", post.
    + destruct (IH H) as (pre & post & ->).
      now exists (String c pre), post.
Qed.

End PyStrFacts.

Module ReFacts.
Import PyStr PyStrFacts Re.

Lemma run_Seq r1 r2 prev inp caps k :
  run (Seq r1 r2) prev inp caps k
  = run r1 prev inp caps (fun p i c => run r2 p i c k).
Proof. reflexivity. Qed.

Lemma run_Alt r1 r2 prev inp caps k :
  run (Alt r1 r2) prev inp caps k
  = match run r1 prev inp caps k with
    | Some x => Some x
    | None => run r2 prev inp caps k
    end.
Proof. reflexivity. Qed.

Lemma run_Group n r prev inp caps k :
  run (Group n r) prev inp caps k
  = run r prev inp caps
        (fun p i c => k p i (set_group n (consumed inp i) c)).
Proof. reflexivity. Qed.

Lemma run_Str s prev inp caps k :
  run (Str s) prev inp caps k
  = match match_str s prev inp with
    | Some (p, i) => k p i caps
    | None => None
    end.
Proof. reflexivity. Qed.

Lemma run_WordB prev inp caps k :
  run WordB prev inp caps k
  = if at_boundary prev inp then k prev inp caps else None.
Proof. reflexivity. Qed.

Lemma run_Star c prev inp caps k :
  run (Star c) prev inp caps k = rep (in_class c) prev inp caps k.
Proof. reflexivity. Qed.

Lemma run_Plus c prev inp caps k :
  run (Plus c) prev inp caps k
  = match inp with
    | String a inp' =>
        if in_class c a then rep (in_class c) (Some a) inp' caps k
        else None
    | EmptyString => None
    end.
Proof. reflexivity. Qed.

Lemma run_Cls c prev inp caps k :
  run (Cls c) prev inp caps k
  = match inp with
    | String a inp' =>
        if in_class c a then k (Some a) inp' caps else None
    | EmptyString => None
    end.
Proof. reflexivity. Qed.

(** *** Literal text *)

Lemma match_str_app s prev rest :
  match_str s prev (s ++ rest) = Some (last_char s prev, rest).
Proof.
  revert prev; induction s as [|c s IH]; intro prev; simpl.
  - reflexivity.
  - now rewrite Ascii.eqb_refl, IH.
Qed.

Lemma match_str_sound s prev inp p i :
  match_str s prev inp = Some (p, i) ->
  inp = s ++ i /\ p = last_char s prev.
Proof.
  revert prev inp; induction s as [|c s IH]; intros prev inp H; simpl in *.
  - inversion H; subst; auto.
  - destruct inp as [|d inp]; [discriminate|].
    destruct (Ascii.eqb c d) eqn:E; [|discriminate].
    apply Ascii.eqb_eq in E; subst d.
    destruct (IH _ _ H) as [-> ->]. auto.
Qed.

(** *** Greedy repetition *)

Lemma rep_eq p prev inp caps k :
  rep p prev inp caps k
  = match inp with
    | String c inp' =>
        if p c then
          match rep p (Some c) inp' caps k with
          | Some r => Some r
          | None => k prev inp caps
          end
        else k prev inp caps
    | EmptyString => k prev inp caps
    end.
Proof. destruct inp; reflexivity. Qed.

(** Whatever [rep] returns comes from the rest of the pattern run
    after some run of characters of the class. *)
Lemma rep_sound p prev inp caps k r :
  rep p prev inp caps k = Some r ->
  exists w rest,
    inp = w ++ rest /\ all_chars p w = true
    /\ k (last_char w prev) rest caps = Some r.
Proof.
  revert prev; induction inp as [|c inp IH]; intros prev H; simpl in H.
  - exists "", "". auto.
  - destruct (p c) eqn:Hc.
    + destruct (rep p (Some c) inp caps k) eqn:Hr.
      * inversion H; subst.
        destruct (IH _ Hr) as (w & rest & -> & Hw & Hk).
        exists (String c w), rest. simpl. rewrite Hc. auto.
      * exists "", (String c inp). auto.
    + exists "", (String c inp). auto.
Qed.

(** The longest run is tried first. *)
Lemma rep_longest p prev w rest caps k r :
  all_chars p w = true -> stops p rest = true ->
  k (last_char w prev) rest caps = Some r ->
  rep p prev (w ++ rest) caps k = Some r.
Proof.
  revert prev; induction w as [|c w IH]; intros prev Hw Hs Hk; simpl in *.
  - rewrite rep_eq. destruct rest as [|d rest]; [assumption|].
    simpl in Hs. apply negb_true_iff in Hs. now rewrite Hs.
  - apply andb_true_iff in Hw as [Hc Hw]. rewrite Hc.
    now rewrite (IH (Some c) Hw Hs Hk).
Qed.

Lemma rep_all p prev w caps k r :
  all_chars p w = true ->
  k (last_char w prev) "" caps = Some r ->
  rep p prev w caps k = Some r.
Proof.
  intros Hw Hk. rewrite <- (sapp_nil_r w). now apply rep_longest.
Qed.

(** [rep] fails when the rest of the pattern fails after every run. *)
Lemma rep_none p prev w caps k :
  (forall prev' w', all_chars p w' = true -> k prev' w' caps = None) ->
  all_chars p w = true ->
  rep p prev w caps k = None.
Proof.
  intros Hk. revert prev; induction w as [|c w IH]; intros prev Hw.
  - simpl. now apply Hk.
  - simpl. simpl in Hw. pose proof Hw as Hw'.
    apply andb_true_iff in Hw as [Hc Hw]. rewrite Hc.
    rewrite (IH _ Hw). apply Hk. simpl. now rewrite Hc.
Qed.

(** *** Search *)

Lemma search_from_eq r prev inp pos :
  search_from r prev inp pos
  = match match_at r prev inp pos with
    | Some m => Some m
    | None =>
        match inp with
        | String c inp' => search_from r (Some c) inp' (S pos)
        | EmptyString => None
        end
    end.
Proof. destruct inp; reflexivity. Qed.

Lemma search_from_sound r prev inp pos m :
  search_from r prev inp pos = Some m ->
  exists pre inp',
    inp = pre ++ inp'
    /\ match_at r (last_char pre prev) inp' (pos + String.length pre)
       = Some m.
Proof.
  revert prev pos; induction inp as [|c inp IH]; intros prev pos H;
    rewrite search_from_eq in H.
  - destruct (match_at r prev "" pos) eqn:E; [|discriminate].
    inversion H; subst. exists "", "". simpl. now rewrite Nat.add_0_r.
  - destruct (match_at r prev (String c inp) pos) eqn:E.
    + inversion H; subst. exists "", (String c inp). simpl.
      now rewrite Nat.add_0_r.
    + destruct (IH _ _ H) as (pre & inp' & -> & Hm).
      exists (String c pre), inp'. simpl.
      now rewrite <- plus_n_Sm.
Qed.

End ReFacts.
Module N5700PatternFacts.
Import PyStr PyStrFacts Re ReFacts N5700Pattern.

Lemma digit_is_word c : is_digit c = true -> is_word c = true.
Proof. unfold is_word. now intros ->. Qed.

Lemma dot_not_digit : is_digit "." = false.
Proof. reflexivity. Qed.

Lemma digits_last_word w prev :
  w <> "" -> digits w -> is_word_opt (last_char w prev) = true.
Proof.
  revert prev; induction w as [|c w IH]; intros prev Hne Hd; [easy|].
  unfold digits in Hd; simpl in Hd.
  apply andb_true_iff in Hd as [Hc Hw]. simpl.
  destruct w as [|d w]; simpl.
  - now apply digit_is_word.
  - apply (IH (Some c)); [discriminate | exact Hw].
Qed.

Lemma match_dot_digit p d w :
  is_digit d = true -> match_str "." p (String d w) = None.
Proof.
  intro H.
  change (match_str "." p (String d w))
    with (if Ascii.eqb "." d then match_str "" (Some d) w else None).
  destruct (Ascii.eqb_spec "." d) as [<-|_]; [discriminate | reflexivity].
Qed.

(** The alternation of VAL accepts each shape of literal in full. *)
Lemma val_body_complete lit prev caps k r :
  numeric_literal lit ->
  k (last_char lit prev) "" caps = Some r ->
  run val_body prev lit caps k = Some r.
Proof.
  intros Hlit Hk. unfold val_body. destruct Hlit as [i f Hi Hdi Hdf | f Hf Hdf | i Hi Hdi].
  - (* digits '.' optional digits: first alternative *)
    rewrite run_Alt, run_Seq, run_Plus.
    destruct i as [|c i]; [easy|]. simpl append.
    unfold digits in Hdi; simpl in Hdi.
    apply andb_true_iff in Hdi as [Hc Hdi]. simpl in_class. rewrite Hc.
    rewrite (rep_longest is_digit (Some c) i (String "." f) caps _ r);
      auto.
    rewrite run_Seq, run_Str. simpl match_str; cbv beta iota. rewrite run_Star.
    apply rep_all; auto.
    rewrite !last_char_app in Hk. simpl in Hk. exact Hk.
  - (* '.' digits: second alternative *)
    change ("." ++ f) with (String "." f).
    rewrite run_Alt, run_Seq, run_Plus. simpl in_class.
    rewrite dot_not_digit.
    rewrite run_Alt, run_Seq, run_Str. simpl match_str; cbv beta iota.
    rewrite run_Plus. destruct f as [|c f]; [easy|].
    unfold digits in Hdf; simpl in Hdf.
    apply andb_true_iff in Hdf as [Hc Hdf]. simpl in_class. rewrite Hc.
    rewrite (rep_all is_digit (Some c) f caps k r); auto.
  - (* bare digits: the first two alternatives fail, the third takes all *)
    rewrite run_Alt, run_Seq, run_Plus.
    destruct i as [|c i]; [easy|].
    unfold digits in Hdi; simpl in Hdi.
    apply andb_true_iff in Hdi as [Hc Hdi]. simpl in_class. rewrite Hc.
    rewrite rep_none; auto.
    2:{ intros p w Hw. rewrite run_Seq, run_Str.
        destruct w as [|d w]; [reflexivity|]. simpl in Hw.
        apply andb_true_iff in Hw as [Hd _].
        now rewrite match_dot_digit. }
    rewrite run_Alt, run_Seq, run_Str, match_dot_digit by exact Hc.
    rewrite run_Seq, run_Plus. simpl in_class. rewrite Hc.
    apply rep_all; auto.
    rewrite run_WordB. unfold at_boundary. simpl head. simpl is_word_opt at 2.
    assert (Hw : is_word_opt (last_char i (Some c)) = true).
    { destruct i as [|d i]; [simpl; now apply digit_is_word|].
      apply digits_last_word; [discriminate | exact Hdi]. }
    rewrite Hw. simpl. exact Hk.
Qed.

(** Whatever the alternation of VAL accepts is a numeric literal. *)
Lemma val_body_sound prev inp caps k r :
  run val_body prev inp caps k = Some r ->
  exists lit rest,
    inp = lit ++ rest /\ numeric_literal lit
    /\ k (last_char lit prev) rest caps = Some r.
Proof.
  unfold val_body. rewrite run_Alt.
  destruct (run (Seq (Plus ClsDigit) (Seq (Str ".") (Star ClsDigit)))
                prev inp caps k) eqn:E1.
  - intros H; inversion H; subst; clear H.
    rewrite run_Seq, run_Plus in E1.
    destruct inp as [|c inp]; [discriminate|].
    simpl in_class in E1. destruct (is_digit c) eqn:Hc; [|discriminate].
    apply rep_sound in E1 as (w & rest & -> & Hw & Hk).
    rewrite run_Seq, run_Str in Hk.
    destruct (match_str "." (last_char w (Some c)) rest) as [[p i]|] eqn:Em;
      [|discriminate].
    apply match_str_sound in Em as [-> ->].
    rewrite run_Star in Hk.
    apply rep_sound in Hk as (f & rest' & -> & Hf & Hk).
    exists (String c w ++ "." ++ f), rest'. repeat split.
    + simpl. now rewrite !sapp_assoc.
    + apply NumFrac; [discriminate | | exact Hf].
      unfold digits; simpl. now rewrite Hc.
    + simpl. simpl in Hk. rewrite !last_char_app. exact Hk.
  - clear E1. rewrite run_Alt.
    destruct (run (Seq (Str ".") (Plus ClsDigit)) prev inp caps k) eqn:E2.
    + intros H; inversion H; subst; clear H.
      rewrite run_Seq, run_Str in E2.
      destruct (match_str "." prev inp) as [[p i]|] eqn:Em; [|discriminate].
      apply match_str_sound in Em as [-> ->].
      rewrite run_Plus in E2.
      destruct i as [|c i]; [discriminate|].
      simpl in_class in E2. destruct (is_digit c) eqn:Hc; [|discriminate].
      apply rep_sound in E2 as (w & rest & -> & Hw & Hk).
      exists ("." ++ String c w), rest. repeat split.
      * apply NumDotFrac; [discriminate|].
        unfold digits; simpl. now rewrite Hc.
      * simpl. exact Hk.
    + clear E2. intros H.
      rewrite run_Seq, run_Plus in H.
      destruct inp as [|c inp]; [discriminate|].
      simpl in_class in H. destruct (is_digit c) eqn:Hc; [|discriminate].
      apply rep_sound in H as (w & rest & -> & Hw & Hk).
      rewrite run_WordB in Hk.
      destruct (at_boundary (last_char w (Some c)) rest); [|discriminate].
      exists (String c w), rest. repeat split.
      * apply NumInt; [discriminate|].
        unfold digits; simpl. now rewrite Hc.
      * simpl. exact Hk.
Qed.


Lemma volt_pattern_eq :
  volt_pattern
  = Group (Some "VOLT")
      (Seq (Group None
              (Seq WordB (Seq (Str keyword) (Cls ClsSpace))))
           (Group (Some "VAL") (Group None val_body))).
Proof. reflexivity. Qed.

Lemma run_volt_complete lit prev :
  numeric_literal lit -> is_word_opt prev = false ->
  run volt_pattern prev (keyword ++ " " ++ lit) [] accept
  = Some ("", [("VOLT", keyword ++ " " ++ lit); ("VAL", lit)]).
Proof.
  intros Hlit Hprev. rewrite volt_pattern_eq.
  rewrite run_Group, run_Seq, run_Group, run_Seq, run_WordB.
  unfold at_boundary. rewrite Hprev.
  change (is_word_opt (head (keyword ++ " " ++ lit))) with true.
  cbv beta iota delta [xorb].
  rewrite run_Seq, run_Str, match_str_app. cbv beta iota.
  rewrite run_Cls.
  change (" " ++ lit) with (String " " lit).
  change (in_class ClsSpace " ") with true. cbv beta iota.
  rewrite run_Group, run_Group.
  erewrite val_body_complete; [reflexivity | exact Hlit |].
  unfold accept, set_group.
  now rewrite !consumed_all.
Qed.

Lemma run_volt_sound prev inp rest caps :
  run volt_pattern prev inp [] accept = Some (rest, caps) ->
  exists ws lit,
    inp = keyword ++ String ws (lit ++ rest)
    /\ is_space ws = true /\ numeric_literal lit
    /\ caps = [("VOLT", keyword ++ String ws lit); ("VAL", lit)].
Proof.
  rewrite volt_pattern_eq.
  rewrite run_Group, run_Seq, run_Group, run_Seq, run_WordB.
  destruct (at_boundary prev inp); [|discriminate].
  rewrite run_Seq, run_Str.
  destruct (match_str keyword prev inp) as [[p i]|] eqn:Em; [|discriminate].
  apply match_str_sound in Em as [-> ->].
  rewrite run_Cls. destruct i as [|ws i]; [discriminate|].
  simpl in_class. destruct (is_space ws) eqn:Hws; [|discriminate].
  rewrite run_Group, run_Group. intro H.
  apply val_body_sound in H as (lit & rest' & -> & Hlit & Hk).
  unfold accept, set_group in Hk.
  rewrite consumed_app in Hk.
  replace (keyword ++ String ws (lit ++ rest'))
    with ((keyword ++ String ws lit) ++ rest') in Hk
    by (rewrite sapp_assoc; reflexivity).
  rewrite consumed_app in Hk.
  injection Hk as <- <-.
  exists ws, lit. repeat split; auto.
Qed.

Lemma search_volt_sound s m :
  search volt_pattern s = Some m ->
  exists pre ws lit post,
    s = pre ++ keyword ++ String ws (lit ++ post)
    /\ is_space ws = true /\ numeric_literal lit
    /\ m_text m = keyword ++ String ws lit
    /\ group m "VAL" = Some lit.
Proof.
  intro H. apply search_from_sound in H as (pre & inp & -> & H).
  unfold match_at in H.
  destruct (run volt_pattern (last_char pre None) inp [] accept)
    as [[rest caps]|] eqn:E; [|discriminate].
  injection H as <-.
  apply run_volt_sound in E as (ws & lit & -> & Hws & Hlit & ->).
  exists pre, ws, lit, rest. repeat split; auto.
  cbn [m_text].
  replace (keyword ++ String ws (lit ++ rest))
    with ((keyword ++ String ws lit) ++ rest)
    by (rewrite sapp_assoc; reflexivity).
  apply consumed_app.
Qed.

(** C1, as the claim words its second half: a string without a
    fragment 'SOURCE:VOLTAGE:LEVEL <number>' (one space before the
    number) would never match.  The command with a tab between the
    keyword and the number has no such fragment, and matches. *)
Lemma volt_pattern_tab_counterexample :
  (~ exists pre lit post,
       numeric_literal lit
       /\ tab_command = pre ++ (keyword ++ " ") ++ lit ++ post)
  /\ exists m, search volt_pattern tab_command = Some m
               /\ group m "VAL" = Some "5".
Proof.
  split.
  - intros (pre & lit & post & _ & E).
    assert (H : contains " " tab_command = true).
    { rewrite E.
      replace (pre ++ (keyword ++ " ") ++ lit ++ post)
        with ((pre ++ keyword) ++ " " ++ (lit ++ post))
        by (now rewrite !sapp_assoc).
      apply contains_app. }
    vm_compute in H. discriminate.
  - eexists. split; vm_compute; reflexivity.
Qed.

(** C1 (amended): on 'SOURCE:VOLTAGE:LEVEL ' followed by a decimal
    numeric literal the pattern matches the whole command and VAL is
    that literal; every match of the pattern lies on the keyword, one
    whitespace character and a numeric literal, which VAL captures;
    so a string with no fragment keyword, whitespace character,
    number is not matched. *)
Theorem volt_pattern_matches_voltage_commands :
  (forall lit,
      numeric_literal lit ->
      exists m,
        search volt_pattern (keyword ++ " " ++ lit) = Some m
        /\ m_start m = 0
        /\ m_text m = keyword ++ " " ++ lit
        /\ group m "VAL" = Some lit)
  /\ (forall s m,
        search volt_pattern s = Some m ->
        exists pre ws lit post,
          s = pre ++ keyword ++ String ws (lit ++ post)
          /\ is_space ws = true /\ numeric_literal lit
          /\ group m "VAL" = Some lit)
  /\ (forall s,
        (~ exists pre ws lit post,
             is_space ws = true /\ numeric_literal lit
             /\ s = pre ++ keyword ++ String ws (lit ++ post)) ->
        search volt_pattern s = None).
Proof.
  split; [|split].
  - intros lit Hlit. unfold search. rewrite search_from_eq.
    unfold match_at.
    rewrite (run_volt_complete lit None Hlit eq_refl).
    eexists. split; [reflexivity|]. repeat split.
    cbn [m_text]. apply consumed_all.
  - intros s m H.
    destruct (search_volt_sound s m H)
      as (pre & ws & lit & post & E & Hws & Hlit & _ & Hg).
    now exists pre, ws, lit, post.
  - intros s Hno. destruct (search volt_pattern s) as [m|] eqn:E;
      [|reflexivity].
    exfalso. apply Hno.
    destruct (search_volt_sound s m E)
      as (pre & ws & lit & post & Es & Hws & Hlit & _).
    now exists pre, ws, lit, post.
Qed.

Lemma volt_pattern_matches_voltage_commands_witness :
  (exists m,
      search volt_pattern "SOURCE:VOLTAGE:LEVEL 12.5" = Some m
      /\ m_start m = 0
      /\ m_text m = "SOURCE:VOLTAGE:LEVEL 12.5"
      /\ group m "VAL" = Some "12.5")
  /\ search volt_pattern "OUTPUT ON" = None.
Proof.
  split.
  - apply (proj1 volt_pattern_matches_voltage_commands "12.5").
    apply (NumFrac "12" "5"); [discriminate | reflexivity | reflexivity].
  - apply (proj2 (proj2 volt_pattern_matches_voltage_commands)).
    intros (pre & ws & lit & post & _ & _ & E).
    assert (H : contains keyword "OUTPUT ON" = true)
      by (rewrite E; apply contains_app).
    discriminate H.
Defined.

End N5700PatternFacts.

(** ** Effects *)

Module EffFacts.
Import Py H5 Eff.

Lemma frame_ret {A} (a : A) : frame (ret a).
Proof.
  intros w r w' H. inversion H; subst. repeat split.
  exists []. now rewrite app_nil_r.
Qed.

Lemma frame_raise {A} e : frame (@raise A e).
Proof.
  intros w r w' H. inversion H; subst. repeat split.
  exists []. now rewrite app_nil_r.
Qed.

Lemma frame_lift {A} (x : result A) : frame (lift x).
Proof.
  intros w r w' H. inversion H; subst. repeat split.
  exists []. now rewrite app_nil_r.
Qed.

Lemma frame_read {A} (g : file -> result A) : frame (read g).
Proof.
  intros w r w' H. inversion H; subst. repeat split.
  exists []. now rewrite app_nil_r.
Qed.

Lemma frame_warn msg : frame (warn msg).
Proof.
  intros w r w' H. inversion H; subst. simpl. repeat split. eauto.
Qed.

(** A write is not framed: the property is not one of every
    computation. *)
Lemma h5_set_attr_not_frame :
  ~ frame (h5_set_attr [] "Description" (PBytes "changed")).
Proof.
  intro H.
  destruct (H (World (File "f" (Group [] [])) FilterDefault [])
              _ _ eq_refl) as (F & _).
  discriminate F.
Qed.

Lemma frame_bind {A B} (m : M A) (k : A -> M B) :
  frame m -> (forall a, frame (k a)) -> frame (bind m k).
Proof.
  intros Hm Hk w r w' H. unfold bind in H.
  destruct (m w) as [[a|e] w1] eqn:E.
  - destruct (Hm _ _ _ E) as (F1 & G1 & ws1 & L1).
    destruct (Hk a _ _ _ H) as (F2 & G2 & ws2 & L2).
    repeat split; try congruence.
    exists (ws1 ++ ws2)%list. now rewrite L2, L1, app_assoc.
  - inversion H; subst. exact (Hm _ _ _ E).
Qed.

Lemma frame_try_except {A} (m h : M A) e :
  frame m -> frame h -> frame (try_except m e h).
Proof.
  intros Hm Hh w r w' H. unfold try_except in H.
  destruct (m w) as [[a|e'] w1] eqn:E.
  - inversion H; subst. exact (Hm _ _ _ E).
  - destruct (Hm _ _ _ E) as (F1 & G1 & ws1 & L1).
    destruct (exn_eqb e' e).
    + destruct (Hh _ _ _ H) as (F2 & G2 & ws2 & L2).
      repeat split; try congruence.
      exists (ws1 ++ ws2)%list. now rewrite L2, L1, app_assoc.
    + inversion H; subst. repeat split; eauto.
Qed.

Lemma frame_with_filter {A} x (m : M A) :
  frame m -> frame (with_filter x m).
Proof.
  intros Hm w r w' H. unfold with_filter in H.
  destruct (m (World (w_file w) x (w_warnings w))) as [r1 w1] eqn:E.
  inversion H; subst; clear H.
  destruct (Hm _ _ _ E) as (F1 & G1 & ws1 & L1). simpl in *.
  repeat split; eauto.
Qed.

Lemma frame_for_each {X S} (body : X -> S -> M (flow S)) xs s :
  (forall x s, frame (body x s)) -> frame (for_each xs body s).
Proof.
  intro Hb. revert s; induction xs as [|x xs IH]; intro s; simpl.
  - apply frame_ret.
  - apply frame_bind; [apply Hb|].
    intros [s'|s']; [apply IH | apply frame_ret].
Qed.

Lemma frame_filterM {X} (p : X -> M bool) xs :
  (forall x, frame (p x)) -> frame (filterM p xs).
Proof.
  intro Hp. induction xs as [|x xs IH]; simpl.
  - apply frame_ret.
  - apply frame_bind; [apply Hp|]. intro b.
    apply frame_bind; [apply IH|]. intro r. apply frame_ret.
Qed.

Lemma frame_if {A} (b : bool) (m1 m2 : M A) :
  frame m1 -> frame m2 -> frame (if b then m1 else m2).
Proof. now destruct b. Qed.

Lemma frame_h5_contains g k : frame (h5_contains g k).
Proof. apply frame_read. Qed.
Lemma frame_h5_getitem g k : frame (h5_getitem g k).
Proof. apply frame_read. Qed.
Lemma frame_h5_keys g : frame (h5_keys g).
Proof. apply frame_read. Qed.
Lemma frame_h5_is_group g : frame (h5_is_group g).
Proof. apply frame_read. Qed.
Lemma frame_h5_attrs g : frame (h5_attrs g).
Proof. apply frame_read. Qed.
Lemma frame_h5_name g : frame (h5_name g).
Proof. apply frame_read. Qed.
Lemma frame_h5_field_shape g k : frame (h5_field_shape g k).
Proof. apply frame_read. Qed.
Lemma frame_h5_filename : frame h5_filename.
Proof. apply frame_read. Qed.

Lemma frame_h5_attr g k : frame (h5_attr g k).
Proof.
  apply frame_bind; [apply frame_h5_attrs | intro; apply frame_lift].
Qed.

Lemma frame_h5_has_attr g k : frame (h5_has_attr g k).
Proof.
  apply frame_bind; [apply frame_h5_attrs | intro; apply frame_ret].
Qed.

Create HintDb frame discriminated.
#[export] Hint Resolve frame_ret frame_raise frame_lift frame_read
  frame_warn frame_h5_contains frame_h5_getitem frame_h5_keys
  frame_h5_is_group frame_h5_attrs frame_h5_name frame_h5_field_shape
  frame_h5_filename frame_h5_attr frame_h5_has_attr : frame.

(** Proves [frame m] for a computation built from the combinators. *)
Ltac frame_tac :=
  repeat first
    [ progress auto with frame
    | apply frame_bind; [|intro]
    | apply frame_try_except
    | apply frame_with_filter
    | apply frame_for_each; intros
    | apply frame_filterM; intros
    | apply frame_if
    | match goal with
      | |- frame (match ?x with _ => _ end) => destruct x
      end ].

(** *** Inversion of a run *)

Lemma bind_ok {A B} (m : M A) (k : A -> M B) w b w' :
  bind m k w = (Ok b, w') ->
  exists a w1, m w = (Ok a, w1) /\ k a w1 = (Ok b, w').
Proof.
  unfold bind. destruct (m w) as [[a|e] w1]; [eauto | discriminate].
Qed.

Lemma bind_run {A B} (m : M A) (k : A -> M B) w a w1 :
  m w = (Ok a, w1) -> bind m k w = k a w1.
Proof. unfold bind. now intros ->. Qed.

Lemma bind_run_raise {A B} (m : M A) (k : A -> M B) w e w1 :
  m w = (Raise e, w1) -> bind m k w = (Raise e, w1).
Proof. unfold bind. now intros ->. Qed.

Lemma read_run {A} (g : file -> result A) w :
  read g w = (g (w_file w), w).
Proof. reflexivity. Qed.

Lemma with_filter_ok {A} x (m : M A) w a w' :
  with_filter x m w = (Ok a, w') ->
  exists w1, m (World (w_file w) x (w_warnings w)) = (Ok a, w1)
             /\ w' = World (w_file w1) (w_filter w) (w_warnings w1).
Proof.
  unfold with_filter.
  destruct (m (World (w_file w) x (w_warnings w))) as [r w1].
  intro H; inversion H; subst. eauto.
Qed.

End EffFacts.

(** ** Dictionaries *)

Module PyFacts.
Import Py.

Lemma dget_dset_same {V} k (v : V) d : dget k (dset k v d) = Some v.
Proof.
  induction d as [|[k' v'] d IH]; simpl.
  - now rewrite String.eqb_refl.
  - destruct (String.eqb_spec k k') as [->|Hne]; simpl.
    + now rewrite String.eqb_refl.
    + destruct (String.eqb_spec k k'); [contradiction | exact IH].
Qed.

Lemma dget_dset_other {V} k k' (v : V) d :
  k <> k' -> dget k (dset k' v d) = dget k d.
Proof.
  intro Hne. induction d as [|[k2 v2] d IH]; simpl.
  - destruct (String.eqb_spec k k'); [contradiction | reflexivity].
  - destruct (String.eqb_spec k' k2) as [->|Hne2]; simpl.
    + destruct (String.eqb_spec k k2); [contradiction | reflexivity].
    + destruct (String.eqb_spec k k2); [reflexivity | exact IH].
Qed.

Lemma dset_dset_same {V} k (v v' : V) d :
  dset k v (dset k v' d) = dset k v d.
Proof.
  induction d as [|[k' v2] d IH]; simpl.
  - now rewrite String.eqb_refl.
  - destruct (String.eqb_spec k k') as [->|Hne]; simpl.
    + now rewrite String.eqb_refl.
    + destruct (String.eqb_spec k k'); [contradiction|]. now rewrite IH.
Qed.

Lemma dmem_dset {V} k k' (v : V) d :
  dmem k (dset k' v d) = String.eqb k k' || dmem k d.
Proof.
  unfold dmem. destruct (String.eqb_spec k k') as [->|Hne].
  - now rewrite dget_dset_same.
  - now rewrite dget_dset_other.
Qed.

Lemma decode_utf8_not_KeyError v : decode_utf8 v <> Raise KeyError.
Proof.
  destruct v; simpl; try discriminate.
  destruct (PyStr.utf8_decode b); discriminate.
Qed.

Lemma decode_command_list_not_KeyError v :
  decode_command_list v <> Raise KeyError.
Proof.
  unfold decode_command_list.
  destruct (decode_utf8 v) as [[]|e] eqn:E; try discriminate.
  intro H. injection H as ->. now apply (decode_utf8_not_KeyError v).
Qed.

End PyFacts.

(** ** Values of computations *)

Module ComputesFacts.
Import Py H5 Eff EffFacts.

Lemma computes_eq {A} (m : M A) f r r' :
  computes m f r -> r = r' -> computes m f r'.
Proof. now intros H <-. Qed.

Lemma computes_ret {A} (a : A) f : computes (ret a) f (Ok a).
Proof. intros w F. exists w. auto. Qed.

Lemma computes_raise {A} e f : computes (@raise A e) f (Raise e).
Proof. intros w F. exists w. auto. Qed.

Lemma computes_lift {A} (r : result A) f : computes (lift r) f r.
Proof. intros w F. exists w. auto. Qed.

Lemma computes_read {A} (g : file -> result A) f : computes (read g) f (g f).
Proof. intros w F. exists w. rewrite read_run, F. auto. Qed.

Lemma computes_warn msg f : computes (warn msg) f (Ok tt).
Proof. intros w F. eexists. split; [reflexivity | exact F]. Qed.

Lemma computes_bind {A B} (m : M A) (k : A -> M B) f r g :
  computes m f r -> (forall a, r = Ok a -> computes (k a) f (g a)) ->
  computes (bind m k) f (rbind r g).
Proof.
  intros Hm Hk w F. destruct (Hm w F) as (w1 & E & F1).
  unfold bind. rewrite E. destruct r as [a|e]; simpl.
  - exact (Hk a eq_refl w1 F1).
  - exists w1. auto.
Qed.

Lemma computes_try_except {A} (m h : M A) e f r rh :
  computes m f r -> computes h f rh ->
  computes (try_except m e h) f (try_value r e rh).
Proof.
  intros Hm Hh w F. destruct (Hm w F) as (w1 & E & F1).
  unfold try_except. rewrite E. destruct r as [a|e']; simpl.
  - exists w1. auto.
  - destruct (exn_eqb e' e); [exact (Hh w1 F1) | exists w1; auto].
Qed.

Lemma computes_with_filter {A} x (m : M A) f r :
  computes m f r -> computes (with_filter x m) f r.
Proof.
  intros Hm w F.
  destruct (Hm (World (w_file w) x (w_warnings w)) F) as (w1 & E & F1).
  unfold with_filter. rewrite E. eexists. split; [reflexivity | exact F1].
Qed.

Lemma computes_for_each {X S} (body : X -> S -> M (flow S)) pbody f xs s :
  (forall x s, computes (body x s) f (pbody x s)) ->
  computes (for_each xs body s) f (for_each_value xs pbody s).
Proof.
  intro Hb. revert s; induction xs as [|x xs IH]; intro s; simpl.
  - apply computes_ret.
  - apply computes_bind; [apply Hb|].
    intros [s'|s'] _; [apply IH | apply computes_ret].
Qed.

(** The same for a body that computes [pbody] on the states of an
    invariant that the body keeps. *)
Lemma computes_for_each_inv {X S} (I : S -> Prop)
      (body : X -> S -> M (flow S)) pbody f xs s :
  (forall x s, I s -> computes (body x s) f (pbody x s)) ->
  (forall x s s', I s -> pbody x s = Ok (Continue s') -> I s') ->
  I s ->
  computes (for_each xs body s) f (for_each_value xs pbody s).
Proof.
  intros Hb Hi. revert s; induction xs as [|x xs IH]; intros s Hs; simpl.
  - apply computes_ret.
  - apply computes_bind; [now apply Hb|].
    intros [s'|s'] E; [|apply computes_ret].
    apply IH. exact (Hi x s s' Hs E).
Qed.

Lemma computes_filterM {X} (p : X -> M bool) q f xs :
  (forall x, In x xs -> computes (p x) f (Ok (q x))) ->
  computes (filterM p xs) f (Ok (filter q xs)).
Proof.
  induction xs as [|x xs IH]; intro Hp; simpl.
  - apply computes_ret.
  - eapply computes_eq.
    + apply computes_bind; [apply Hp; now left|]. intros b Hb.
      apply computes_bind; [apply IH; intros; apply Hp; now right|].
      intros r Hr. apply computes_ret.
    + simpl. destruct (q x); reflexivity.
Qed.

(** *** Reading the file *)

Lemma lookup_In_keys k ms :
  In k (map fst ms) -> exists n, lookup k ms = Some n.
Proof.
  induction ms as [|[k' n'] ms IH]; simpl; [easy|].
  destruct (String.eqb_spec k k') as [->|Hne]; [eauto|].
  intros [E|Hin]; [congruence | auto].
Qed.

Lemma resolve_snoc n gp a ms k :
  resolve n gp = Some (Group a ms) ->
  resolve n (gp ++ [k])%list = lookup k ms.
Proof.
  revert n; induction gp as [|g gp IH]; intros n H; simpl in *.
  - inversion H; subst. destruct (lookup k ms); reflexivity.
  - destruct n as [a' ms'|]; [|discriminate].
    destruct (lookup g ms') as [n'|]; [|discriminate]. auto.
Qed.

Section Reads.
Variable f : file.

Lemma computes_h5_getitem g a ms k :
  resolve (root f) g = Some (Group a ms) ->
  computes (h5_getitem g k) f
           (match lookup k ms with
            | Some _ => Ok (g ++ [k])%list
            | None => Raise KeyError
            end).
Proof.
  intro Hr. eapply computes_eq; [apply computes_read|].
  unfold node_at. now rewrite Hr.
Qed.

Lemma computes_h5_keys g a ms :
  resolve (root f) g = Some (Group a ms) ->
  computes (h5_keys g) f (Ok (map fst ms)).
Proof.
  intro Hr. eapply computes_eq; [apply computes_read|].
  unfold node_at. now rewrite Hr.
Qed.

Lemma computes_h5_is_group p n :
  resolve (root f) p = Some n ->
  computes (h5_is_group p) f (Ok (is_group n)).
Proof.
  intro Hr. eapply computes_eq; [apply computes_read|].
  unfold node_at. now rewrite Hr.
Qed.

Lemma computes_h5_attr p n k :
  resolve (root f) p = Some n ->
  computes (h5_attr p k) f (getitem k (node_attrs n)).
Proof.
  intro Hr. eapply computes_eq.
  - apply computes_bind; [apply computes_read|].
    intros a Ha. apply computes_lift.
  - unfold node_at. now rewrite Hr.
Qed.

Lemma computes_h5_name p n :
  resolve (root f) p = Some n ->
  computes (h5_name p) f (Ok (name_of p)).
Proof.
  intro Hr. eapply computes_eq; [apply computes_read|].
  unfold node_at. now rewrite Hr.
Qed.

End Reads.

End ComputesFacts.

(** ** The earlier mapping *)

Module LegacyFacts.
Import Py H5 Eff EffFacts PyStr PyStrFacts.

Lemma dget_In_keys {V} (k : string) (d : dict V) v :
  dget k d = Some v -> In k (dkeys d).
Proof.
  induction d as [|[k' v'] d IH]; simpl; [discriminate|].
  destruct (String.eqb_spec k k') as [->|_]; auto.
Qed.

Lemma scan_lapd_In key keys :
  In key keys -> contains "lapd" (casefold key) = true ->
  Legacy.scan_lapd keys = true.
Proof.
  induction keys as [|k keys IH]; simpl; [easy|].
  intros [->|Hin] Hc.
  - now rewrite Hc.
  - destruct (contains "lapd" (casefold k)); auto.
Qed.

Lemma for_each_append_keys keys poss found w :
  for_each keys
    (fun key obj =>
       ret (Continue
              (Legacy.HdfMapMsi (Legacy.possible_diagnostic_groups obj)
                 (Legacy.found_diagnostics obj ++ [key])%list)))
    (Legacy.HdfMapMsi poss found) w
  = (Ok (Continue (Legacy.HdfMapMsi poss (found ++ keys)%list)), w).
Proof.
  revert found; induction keys as [|k keys IH]; intro found; simpl.
  - now rewrite app_nil_r.
  - unfold bind, ret at 1. simpl. rewrite IH.
    now rewrite <- app_assoc.
Qed.

(** [found_diagnostics] is the list of all keys of the MSI group. *)
Lemma hdfMap_msi_new_run msi_group w a ms :
  resolve (root (w_file w)) msi_group = Some (Group a ms) ->
  Legacy.hdfMap_msi_new msi_group w
  = (Ok (Legacy.HdfMapMsi
           ["Discharge"; "Gas pressure"; "Heater";
            "Interferometer array"; "Magnetic field"]
           (map fst ms)), w).
Proof.
  intro H. unfold Legacy.hdfMap_msi_new.
  erewrite bind_run.
  2:{ unfold h5_keys. rewrite read_run. unfold node_at. rewrite H.
      reflexivity. }
  erewrite bind_run by apply for_each_append_keys.
  reflexivity.
Qed.

End LegacyFacts.

Module LegacyClaims.
Import Py H5 Eff EffFacts PyStr PyStrFacts LegacyFacts Samples.

(** C6, at a file the code can receive: the MSI group of the sample
    file has the subgroup 'Langmuir probe', which is not a known
    diagnostic, and [hdfMap_msi.__new__] records it among the found
    diagnostics: the list of known names is built and never used. *)
Theorem hdfMap_msi_records_unknown_subgroup :
  exists obj w',
    Legacy.hdfMap_msi_new ["MSI"] (start lapd_file) = (Ok obj, w')
    /\ str_in_list "Langmuir probe"
         (Legacy.possible_diagnostic_groups obj) = false
    /\ In "Langmuir probe" (Legacy.found_diagnostics obj).
Proof.
  eexists. eexists. split; [reflexivity|].
  split; [reflexivity | simpl; auto].
Qed.

(** C8, as stated, fails: on a file whose only attribute is
    'Created by LaPD' the earlier predicate answers True and the
    present one False. *)
Lemma is_lapd_hdf_predicates_differ :
  fst (Legacy.is_lapd_hdf [] (start other_lapd_file)) = Ok true
  /\ fst (HdfMap.is_lapd_hdf
            (@HdfMap.HdfMap unit unit unit [] [] None None None None)
            (start other_lapd_file)) = Ok false.
Proof. split; reflexivity. Qed.

(** C8 (amended): the present predicate implies the earlier one:
    whenever the attribute 'LaPD HDF5 software version' is present,
    some attribute key contains 'lapd' once case-folded. *)
Theorem is_lapd_hdf_implies_legacy
        {MSIMap DigiMap ControlMap : Type}
        (self : HdfMap.hdfMap MSIMap DigiMap ControlMap) (w : world) :
  fst (HdfMap.is_lapd_hdf self w) = Ok true ->
  fst (Legacy.is_lapd_hdf (HdfMap.hdf_obj self) w) = Ok true.
Proof.
  unfold HdfMap.is_lapd_hdf, Legacy.is_lapd_hdf, h5_has_attr, bind.
  destruct (h5_attrs (HdfMap.hdf_obj self) w) as [[a|e] w1];
    simpl; [|discriminate].
  intro H. injection H as H. f_equal.
  unfold dmem in H.
  destruct (dget HdfMap.version_key a) as [v|] eqn:E; [|discriminate].
  apply (scan_lapd_In HdfMap.version_key).
  - eapply dget_In_keys; eassumption.
  - reflexivity.
Qed.

Lemma is_lapd_hdf_implies_legacy_witness :
  fst (Legacy.is_lapd_hdf [] (start lapd_file)) = Ok true.
Proof.
  apply (is_lapd_hdf_implies_legacy
           (@HdfMap.HdfMap unit unit unit [] [] None None None None)
           (start lapd_file)).
  reflexivity.
Defined.

End LegacyClaims.

(** ** The file mapping *)

Module HdfMapFacts.
Import Py PyFacts H5 Eff EffFacts HdfMap.

Section Facts.
Context {MSIMap DigiMap ControlMap : Type}.
Variable HDFMapMSI : constructor (dict MSIMap).
Variable hdfMap_digitizers : constructor (dict DigiMap).
Variable HDFMapControls : constructor (dict ControlMap).

Local Abbreviation hdfMap := (HdfMap.hdfMap MSIMap DigiMap ControlMap).
Local Abbreviation init :=
  (HdfMap.init HDFMapMSI hdfMap_digitizers HDFMapControls).

Lemma frame_construct {A} (c : constructor A) g :
  frame (construct c g).
Proof.
  intros w r w' H. unfold construct in H.
  destruct (c (w_file w) g) as [r1 msgs].
  inversion H; subst. simpl. repeat split. eauto.
Qed.

Lemma frame_attribute {A} (a : option A) : frame (attribute a).
Proof. destruct a; simpl; auto with frame. Qed.

Lemma frame_has_group (self : hdfMap) gname :
  frame (has_group self gname).
Proof. unfold has_group. frame_tac. Qed.

Lemma frame_populate (self : hdfMap) gname attrs :
  frame (populate self gname attrs).
Proof. unfold populate. frame_tac. Qed.

Lemma frame_attach_msi (self : hdfMap) :
  frame (__attach_msi HDFMapMSI self).
Proof.
  unfold __attach_msi, has_msi_group.
  apply frame_bind; [apply frame_has_group|]. intros [|]; frame_tac.
  apply frame_construct.
Qed.

Lemma frame_attach_digitizers (self : hdfMap) :
  frame (__attach_digitizers hdfMap_digitizers self).
Proof.
  unfold __attach_digitizers, has_data_group.
  apply frame_bind; [apply frame_has_group|]. intros [|]; frame_tac.
  apply frame_construct.
Qed.

Lemma frame_attach_controls (self : hdfMap) :
  frame (__attach_controls HDFMapControls self).
Proof.
  unfold __attach_controls, has_data_group.
  apply frame_bind; [apply frame_has_group|]. intros [|]; frame_tac.
  apply frame_construct.
Qed.

Lemma frame_scan_unknowns g knowns acc :
  frame g -> frame (scan_unknowns g knowns acc).
Proof. intro Hg. unfold scan_unknowns. frame_tac. Qed.

Lemma frame_attach_unknowns (self : hdfMap) :
  frame (__attach_unknowns self).
Proof.
  unfold __attach_unknowns, has_msi_group, has_data_group.
  apply frame_bind; [apply frame_scan_unknowns; auto with frame|].
  intro u. apply frame_bind; [apply frame_has_group|]. intro b.
  apply frame_bind.
  { destruct b; [|auto with frame].
    apply frame_bind; [apply frame_attribute|]. intro.
    apply frame_scan_unknowns; auto with frame. }
  intro u'. apply frame_bind; [apply frame_has_group|]. intro b'.
  apply frame_bind; [|auto with frame].
  destruct b'; [|auto with frame].
  apply frame_bind; [apply frame_attribute|]. intro.
  apply frame_bind; [apply frame_attribute|]. intro.
  apply frame_scan_unknowns; auto with frame.
Qed.

Lemma frame_init hdf silent : frame (init hdf silent).
Proof.
  unfold HdfMap.init, is_lapd_hdf, has_msi_group, has_data_group.
  apply frame_bind; [auto with frame|]. intros [|]; simpl negb;
    cbv iota; [|frame_tac].
  apply frame_bind; [apply frame_has_group|]. intro b.
  apply frame_bind.
  { destruct b; [apply frame_populate | auto with frame]. }
  intro attrs. apply frame_bind; [apply frame_has_group|]. intro b'.
  apply frame_bind.
  { destruct b'; [apply frame_populate | auto with frame]. }
  intro attrs'. apply frame_with_filter.
  apply frame_bind; [apply frame_attach_msi|]. intro.
  apply frame_bind; [apply frame_attach_digitizers|]. intro.
  apply frame_bind; [apply frame_attach_controls|]. intro.
  apply frame_attach_unknowns.
Qed.

(** C7: constructing a [hdfMap] leaves the open file as it is:
    whatever the file, the flag [silent] and the outcome, the file
    after the call is the file before it.  The three collections
    of the other modules come in as constructors that read the
    file. *)
Theorem hdfMap_init_leaves_file_unchanged hdf silent w :
  w_file (snd (init hdf silent w)) = w_file w.
Proof.
  destruct (init hdf silent w) as [r w'] eqn:E.
  exact (proj1 (frame_init hdf silent w r w' E)).
Qed.

(** *** What the properties and the attach methods return *)

Lemma warned_frame {A} (m : M A) w r w' msg :
  frame m -> m w = (r, w') -> warned w msg -> warned w' msg.
Proof.
  intros Hm E [flt Hin]. destruct (Hm _ _ _ E) as (_ & _ & ws & L).
  exists flt. rewrite L. apply in_or_app. now left.
Qed.

Lemma has_group_run (self : hdfMap) gname w :
  has_group self gname w
  = match resolve (root (w_file w)) (hdf_obj self) with
    | Some (Group _ ms) =>
        match lookup gname ms with
        | Some _ => (Ok true, w)
        | None =>
            (Ok false,
             World (w_file w) (w_filter w)
                   (w_warnings w
                    ++ [Warning (w_filter w)
                                (no_group_warning (w_file w) gname)]))
        end
    | Some (Dataset _ _) => (Raise TypeError, w)
    | None => (Raise ValueError, w)
    end.
Proof.
  unfold has_group, h5_contains, bind. rewrite read_run.
  unfold node_at.
  destruct (resolve (root (w_file w)) (hdf_obj self)) as [[a ms|a fs]|];
    try reflexivity.
  destruct (lookup gname ms); reflexivity.
Qed.

Lemma has_group_ok (self : hdfMap) gname w b w' :
  has_group self gname w = (Ok b, w') ->
  b = present (w_file w) (hdf_obj self) gname
  /\ (b = false -> warned w' (no_group_warning (w_file w) gname)).
Proof.
  rewrite has_group_run. unfold present.
  destruct (resolve (root (w_file w)) (hdf_obj self)) as [[a ms|a fs]|];
    try discriminate.
  destruct (lookup gname ms); intro H; inversion H; subst; clear H.
  - split; [reflexivity | discriminate].
  - split; [reflexivity|]. intros _. eexists. simpl.
    apply in_or_app. right. left. reflexivity.
Qed.

Lemma h5_getitem_ok g k w p w' :
  h5_getitem g k w = (Ok p, w') -> p = (g ++ [k])%list /\ w' = w.
Proof.
  unfold h5_getitem. rewrite read_run.
  destruct (node_at g (w_file w)) as [[a ms|a fs]|e]; try discriminate.
  destruct (lookup k ms); [|discriminate].
  intro H; inversion H; auto.
Qed.

Lemma construct_ok {A} (c : constructor A) g w a w' :
  construct c g w = (Ok a, w') ->
  exists msgs, c (w_file w) g = (Ok a, msgs).
Proof.
  unfold construct. destruct (c (w_file w) g) as [r msgs].
  intro H; inversion H; subst. eauto.
Qed.

Ltac inv_bind H :=
  let a := fresh "a" in
  let w := fresh "w" in
  let E := fresh "E" in
  apply bind_ok in H as (a & w & E & H).

Ltac inv_ret H := unfold ret in H; inversion H; subst; clear H.

Lemma attach_msi_ok (self s' : hdfMap) w w' :
  __attach_msi HDFMapMSI self w = (Ok s', w') ->
  hdf_obj s' = hdf_obj self /\ _attrs s' = _attrs self
  /\ digitizers s' = digitizers self /\ controls s' = controls self
  /\ unknowns s' = unknowns self
  /\ if present (w_file w) (hdf_obj self) _MSI_GNAME
     then exists d msgs,
         HDFMapMSI (w_file w) (hdf_obj self ++ [_MSI_GNAME])%list
         = (Ok d, msgs)
         /\ msi s' = Some d
     else msi s' = Some []
          /\ warned w' (no_group_warning (w_file w) _MSI_GNAME).
Proof.
  unfold __attach_msi, has_msi_group. intro H. inv_bind H.
  pose proof (frame_has_group self _MSI_GNAME _ _ _ E) as (F & _).
  apply has_group_ok in E as [-> Hw].
  destruct (present (w_file w) (hdf_obj self) _MSI_GNAME).
  - inv_bind H. apply h5_getitem_ok in E as [-> ->].
    inv_bind H. apply construct_ok in E as [msgs E]. inv_ret H.
    simpl. rewrite F in E. repeat split; eauto.
  - inv_ret H. simpl. repeat split; auto.
Qed.

Lemma attach_digitizers_ok (self s' : hdfMap) w w' :
  __attach_digitizers hdfMap_digitizers self w = (Ok s', w') ->
  hdf_obj s' = hdf_obj self /\ _attrs s' = _attrs self
  /\ msi s' = msi self /\ controls s' = controls self
  /\ unknowns s' = unknowns self
  /\ if present (w_file w) (hdf_obj self) _DATA_GNAME
     then exists d msgs,
         hdfMap_digitizers (w_file w)
                           (hdf_obj self ++ [_DATA_GNAME])%list
         = (Ok d, msgs)
         /\ digitizers s' = Some d
     else digitizers s' = Some []
          /\ warned w' (no_group_warning (w_file w) _DATA_GNAME).
Proof.
  unfold __attach_digitizers, has_data_group. intro H. inv_bind H.
  pose proof (frame_has_group self _DATA_GNAME _ _ _ E) as (F & _).
  apply has_group_ok in E as [-> Hw].
  destruct (present (w_file w) (hdf_obj self) _DATA_GNAME).
  - inv_bind H. apply h5_getitem_ok in E as [-> ->].
    inv_bind H. apply construct_ok in E as [msgs E]. inv_ret H.
    simpl. rewrite F in E. repeat split; eauto.
  - inv_ret H. simpl. repeat split; auto.
Qed.

Lemma attach_controls_ok (self s' : hdfMap) w w' :
  __attach_controls HDFMapControls self w = (Ok s', w') ->
  hdf_obj s' = hdf_obj self /\ _attrs s' = _attrs self
  /\ msi s' = msi self /\ digitizers s' = digitizers self
  /\ unknowns s' = unknowns self
  /\ if present (w_file w) (hdf_obj self) _DATA_GNAME
     then exists d msgs,
         HDFMapControls (w_file w)
                        (hdf_obj self ++ [_DATA_GNAME])%list
         = (Ok d, msgs)
         /\ controls s' = Some d
     else controls s' = Some []
          /\ warned w' (no_group_warning (w_file w) _DATA_GNAME).
Proof.
  unfold __attach_controls, has_data_group. intro H. inv_bind H.
  pose proof (frame_has_group self _DATA_GNAME _ _ _ E) as (F & _).
  apply has_group_ok in E as [-> Hw].
  destruct (present (w_file w) (hdf_obj self) _DATA_GNAME).
  - inv_bind H. apply h5_getitem_ok in E as [-> ->].
    inv_bind H. apply construct_ok in E as [msgs E]. inv_ret H.
    simpl. rewrite F in E. repeat split; eauto.
  - inv_ret H. simpl. repeat split; auto.
Qed.

Lemma attach_unknowns_ok (self s' : hdfMap) w w' :
  __attach_unknowns self w = (Ok s', w') ->
  hdf_obj s' = hdf_obj self /\ _attrs s' = _attrs self
  /\ msi s' = msi self /\ digitizers s' = digitizers self
  /\ controls s' = controls self.
Proof.
  unfold __attach_unknowns. intro H.
  do 5 inv_bind H. inv_ret H. simpl. auto.
Qed.

Lemma h5_has_attr_ok p k w b w' :
  h5_has_attr p k w = (Ok b, w') ->
  w' = w /\ b = dmem k (attrs_at (w_file w) p)
  /\ exists n, resolve (root (w_file w)) p = Some n.
Proof.
  unfold h5_has_attr, h5_attrs, bind. rewrite read_run.
  unfold node_at, attrs_at.
  destruct (resolve (root (w_file w)) p) as [n|]; [|discriminate].
  intro H; inversion H; subst. eauto.
Qed.

(** What a successful construction has established. *)
Lemma init_ok hdf silent w m w' :
  init hdf silent w = (Ok m, w') ->
  dmem version_key (attrs_at (w_file w) hdf) = true
  /\ hdf_obj m = hdf
  /\ (if present (w_file w) hdf _MSI_GNAME
      then exists d msgs,
          HDFMapMSI (w_file w) (hdf ++ [_MSI_GNAME])%list = (Ok d, msgs)
          /\ msi m = Some d
      else msi m = Some []
           /\ warned w' (no_group_warning (w_file w) _MSI_GNAME))
  /\ (if present (w_file w) hdf _DATA_GNAME
      then exists d c msgs msgs',
          hdfMap_digitizers (w_file w) (hdf ++ [_DATA_GNAME])%list
          = (Ok d, msgs)
          /\ HDFMapControls (w_file w) (hdf ++ [_DATA_GNAME])%list
             = (Ok c, msgs')
          /\ digitizers m = Some d /\ controls m = Some c
      else digitizers m = Some [] /\ controls m = Some []
           /\ warned w' (no_group_warning (w_file w) _DATA_GNAME)).
Proof.
  unfold HdfMap.init. intro H. inv_bind H.
  apply h5_has_attr_ok in E as (-> & -> & _). cbn [hdf_obj] in *.
  destruct (dmem version_key (attrs_at (w_file w) hdf)) eqn:Hv;
    simpl negb in H; cbv iota in H.
  2:{ inv_bind H. discriminate. }
  split; [reflexivity|].
  inv_bind H. rename E into Emsi, w0 into w1.
  inv_bind H. rename E into Epop1, w0 into w2.
  inv_bind H. rename E into Edata, w0 into w3.
  inv_bind H. rename E into Epop2, w0 into w4.
  apply with_filter_ok in H as (w5 & H & ->).
  inv_bind H. rename E into Eam, a3 into s1, w0 into w6.
  inv_bind H. rename E into Ead, a3 into s2, w0 into w7.
  inv_bind H. rename E into Eac, a3 into s3, w0 into w8.
  (* the file is the same all along *)
  pose proof (frame_has_group _ _ _ _ _ Emsi) as (F1 & _).
  assert (F2 : w_file w2 = w_file w1).
  { destruct a; [apply (frame_populate _ _ _ _ _ _ Epop1)
                | now inversion Epop1]. }
  pose proof (frame_has_group _ _ _ _ _ Edata) as (F3 & _).
  assert (F4 : w_file w4 = w_file w3).
  { destruct a1; [apply (frame_populate _ _ _ _ _ _ Epop2)
                 | now inversion Epop2]. }
  pose proof (frame_attach_msi _ _ _ _ Eam) as (F6 & _).
  pose proof (frame_attach_digitizers _ _ _ _ Ead) as (F7 & _).
  pose proof (frame_attach_controls _ _ _ _ Eac) as (F8 & _).
  simpl in F6.
  assert (Fa : w_file w4 = w_file w) by congruence.
  (* the attach methods *)
  pose proof (attach_msi_ok _ _ _ _ Eam) as (O1 & _ & _ & _ & _ & Pm).
  pose proof (attach_digitizers_ok _ _ _ _ Ead)
    as (O2 & _ & M2 & _ & _ & Pd).
  pose proof (attach_controls_ok _ _ _ _ Eac)
    as (O3 & _ & M3 & D3 & _ & Pc).
  pose proof (attach_unknowns_ok _ _ _ _ H) as (O4 & _ & M4 & D4 & C4).
  simpl in O1, Pm. rewrite O1 in O2, Pd. rewrite O2 in O3, Pc.
  rewrite F6 in Pd. rewrite F7, F6 in Pc. simpl in Pd, Pc.
  rewrite Fa in Pm, Pd, Pc.
  (* a warning of an attach method stays in the log *)
  assert (Wc : forall msg, warned w8 msg ->
               warned (World (w_file w5) (w_filter w) (w_warnings w5))
                      msg).
  { intros msg Hw.
    destruct (warned_frame _ _ _ _ msg (frame_attach_unknowns s3) H Hw)
      as [flt Hin].
    now exists flt. }
  assert (Wd : forall msg, warned w7 msg -> warned w8 msg).
  { intros msg.
    apply (warned_frame _ _ _ _ msg (frame_attach_controls s2) Eac). }
  assert (Wm : forall msg, warned w6 msg -> warned w7 msg).
  { intros msg.
    apply (warned_frame _ _ _ _ msg (frame_attach_digitizers s1) Ead). }
  split; [congruence|]. split.
  - destruct (present (w_file w) hdf _MSI_GNAME).
    + destruct Pm as (d & msgs & Ec & Hm). exists d, msgs.
      split; [exact Ec | congruence].
    + destruct Pm as [Hm Hw]. split; [congruence|].
      apply Wc, Wd, Wm, Hw.
  - destruct (present (w_file w) hdf _DATA_GNAME).
    + destruct Pd as (d & msgs & Ed & Hd).
      destruct Pc as (c & msgs' & Ec & Hc).
      exists d, c, msgs, msgs'. repeat split; congruence.
    + destruct Pd as [Hd _]. destruct Pc as [Hc Hw].
      repeat split; try congruence. apply Wc, Hw.
Qed.

Lemma has_group_absent (self : hdfMap) gname w a ms :
  resolve (root (w_file w)) (hdf_obj self) = Some (Group a ms) ->
  lookup gname ms = None ->
  has_group self gname w
  = (Ok false,
     World (w_file w) (w_filter w)
           (w_warnings w
            ++ [Warning (w_filter w)
                        (no_group_warning (w_file w) gname)])).
Proof. intros Hr Hl. now rewrite has_group_run, Hr, Hl. Qed.

Lemma warned_last (f : file) flt ws msg :
  warned (World f flt (ws ++ [Warning flt msg])) msg.
Proof. exists flt. simpl. apply in_or_app. right. now left. Qed.

(** An absent group makes the attach methods warn and attach an
    empty dictionary; they do not raise. *)
Lemma attach_msi_absent (self : hdfMap) w a ms :
  resolve (root (w_file w)) (hdf_obj self) = Some (Group a ms) ->
  lookup _MSI_GNAME ms = None ->
  exists s' w',
    __attach_msi HDFMapMSI self w = (Ok s', w')
    /\ msi s' = Some []
    /\ warned w' (no_group_warning (w_file w) _MSI_GNAME).
Proof.
  intros Hr Hl. unfold __attach_msi, has_msi_group.
  erewrite bind_run by (eapply has_group_absent; eassumption).
  do 2 eexists. split; [reflexivity|]. split; [reflexivity|].
  apply warned_last.
Qed.

Lemma attach_digitizers_absent (self : hdfMap) w a ms :
  resolve (root (w_file w)) (hdf_obj self) = Some (Group a ms) ->
  lookup _DATA_GNAME ms = None ->
  exists s' w',
    __attach_digitizers hdfMap_digitizers self w = (Ok s', w')
    /\ digitizers s' = Some []
    /\ warned w' (no_group_warning (w_file w) _DATA_GNAME).
Proof.
  intros Hr Hl. unfold __attach_digitizers, has_data_group.
  erewrite bind_run by (eapply has_group_absent; eassumption).
  do 2 eexists. split; [reflexivity|]. split; [reflexivity|].
  apply warned_last.
Qed.

Lemma attach_controls_absent (self : hdfMap) w a ms :
  resolve (root (w_file w)) (hdf_obj self) = Some (Group a ms) ->
  lookup _DATA_GNAME ms = None ->
  exists s' w',
    __attach_controls HDFMapControls self w = (Ok s', w')
    /\ controls s' = Some []
    /\ warned w' (no_group_warning (w_file w) _DATA_GNAME).
Proof.
  intros Hr Hl. unfold __attach_controls, has_data_group.
  erewrite bind_run by (eapply has_group_absent; eassumption).
  do 2 eexists. split; [reflexivity|]. split; [reflexivity|].
  apply warned_last.
Qed.

(** C3: on a constructed [hdfMap] the attribute [msi] is the
    dictionary made by [HDFMapMSI] on the group 'MSI' when the file
    has a member of that name and the empty dictionary otherwise;
    [digitizers] and [controls] are the dictionaries made by
    [hdfMap_digitizers] and [HDFMapControls] on the group
    'Raw data + config' when the file has it and empty
    dictionaries otherwise; the absence of a group leaves a
    warning in the log, and an attach method on a file without its
    group returns, with the empty dictionary, instead of
    raising. *)
Theorem hdfMap_attaches_by_group_presence :
  (forall hdf silent w m w',
      init hdf silent w = (Ok m, w') ->
      (if present (w_file w) hdf _MSI_GNAME
       then exists d msgs,
           HDFMapMSI (w_file w) (hdf ++ [_MSI_GNAME])%list
           = (Ok d, msgs)
           /\ msi m = Some d
       else msi m = Some []
            /\ warned w' (no_group_warning (w_file w) _MSI_GNAME))
      /\ (if present (w_file w) hdf _DATA_GNAME
          then exists d c msgs msgs',
              hdfMap_digitizers (w_file w) (hdf ++ [_DATA_GNAME])%list
              = (Ok d, msgs)
              /\ HDFMapControls (w_file w) (hdf ++ [_DATA_GNAME])%list
                 = (Ok c, msgs')
              /\ digitizers m = Some d /\ controls m = Some c
          else digitizers m = Some [] /\ controls m = Some []
               /\ warned w'
                    (no_group_warning (w_file w) _DATA_GNAME)))
  /\ (forall (self : hdfMap) w a ms,
         resolve (root (w_file w)) (hdf_obj self) = Some (Group a ms) ->
         (lookup _MSI_GNAME ms = None ->
          exists s' w',
            __attach_msi HDFMapMSI self w = (Ok s', w')
            /\ msi s' = Some []
            /\ warned w' (no_group_warning (w_file w) _MSI_GNAME))
         /\ (lookup _DATA_GNAME ms = None ->
             (exists s' w',
                 __attach_digitizers hdfMap_digitizers self w
                 = (Ok s', w')
                 /\ digitizers s' = Some []
                 /\ warned w'
                      (no_group_warning (w_file w) _DATA_GNAME))
             /\ (exists s' w',
                    __attach_controls HDFMapControls self w
                    = (Ok s', w')
                    /\ controls s' = Some []
                    /\ warned w'
                         (no_group_warning (w_file w) _DATA_GNAME)))).
Proof.
  split.
  - intros hdf silent w m w' H.
    destruct (init_ok hdf silent w m w' H) as (_ & _ & Hm & Hd).
    split; assumption.
  - intros self w a ms Hr. split; [|split].
    + now apply attach_msi_absent with (a := a) (ms := ms).
    + now apply attach_digitizers_absent with (a := a) (ms := ms).
    + now apply attach_controls_absent with (a := a) (ms := ms).
Qed.

Lemma h5_attr_run p k w n :
  resolve (root (w_file w)) p = Some n ->
  h5_attr p k w = (getitem k (node_attrs n), w).
Proof.
  intro Hr. unfold h5_attr, h5_attrs, bind. rewrite read_run.
  unfold node_at. rewrite Hr. reflexivity.
Qed.

Lemma h5_has_attr_run p k w n :
  resolve (root (w_file w)) p = Some n ->
  h5_has_attr p k w = (Ok (dmem k (node_attrs n)), w).
Proof.
  intro Hr. unfold h5_has_attr, h5_attrs, bind. rewrite read_run.
  unfold node_at. rewrite Hr. reflexivity.
Qed.

(** C9 (amended): a constructed [hdfMap] satisfies [is_lapd_hdf]:
    the attribute 'LaPD HDF5 software version' is in the file, so
    the lookup in [hdf_version] does not raise KeyError and the
    property is the decoding of the attribute: the decoded string
    when the attribute is a UTF-8 byte string. *)
Theorem hdf_version_of_constructed hdf silent w m w' :
  init hdf silent w = (Ok m, w') ->
  forall w2,
    w_file w2 = w_file w ->
    is_lapd_hdf m w2 = (Ok true, w2)
    /\ exists v,
        dget version_key (attrs_at (w_file w) hdf) = Some v
        /\ hdf_version m w2 = (decode_utf8 v, w2)
        /\ fst (hdf_version m w2) <> Raise KeyError
        /\ (forall b s,
               v = PBytes b -> PyStr.utf8_decode b = Some s ->
               hdf_version m w2 = (Ok (PStr s), w2)).
Proof.
  intros H w2 F.
  destruct (init_ok hdf silent w m w' H) as (Hv & Ho & _).
  unfold attrs_at in *.
  destruct (resolve (root (w_file w)) hdf) as [n|] eqn:Hr;
    [|discriminate].
  rewrite <- F in Hr. unfold is_lapd_hdf, hdf_version. rewrite Ho.
  rewrite (h5_has_attr_run _ _ _ _ Hr), Hv. split; [reflexivity|].
  unfold dmem in Hv.
  destruct (dget version_key (node_attrs n)) as [v|] eqn:Ev;
    [|discriminate].
  exists v. split; [reflexivity|].
  assert (Hrun : (bind (h5_attr hdf version_key)
                       (fun v => lift (decode_utf8 v))) w2
                 = (decode_utf8 v, w2)).
  { unfold bind. rewrite (h5_attr_run _ _ _ _ Hr).
    unfold getitem. rewrite Ev. reflexivity. }
  split; [exact Hrun|]. split.
  - rewrite Hrun. apply decode_utf8_not_KeyError.
  - intros b s -> Hs. rewrite Hrun. simpl. now rewrite Hs.
Qed.

Lemma first_candidate_eq (d : dict DigiMap) :
  first_candidate possible_candidates d
  = match dget "SIS 3301" d with
    | Some x => Some x
    | None => dget "SIS crate" d
    end.
Proof.
  unfold possible_candidates, first_candidate, dmem.
  destruct (dget "SIS 3301" d); [reflexivity|].
  destruct (dget "SIS crate" d); reflexivity.
Qed.

(** C10: on a constructed [hdfMap], [main_digitizer] is the
    mapping of 'SIS 3301' whenever that digitizer is among the
    digitizers, else the mapping of 'SIS crate' if that one is,
    else None. *)
Theorem main_digitizer_priority hdf silent w m w' :
  init hdf silent w = (Ok m, w') ->
  exists d,
    digitizers m = Some d
    /\ forall w2,
      exists r,
        main_digitizer m w2 = (Ok r, w2)
        /\ (forall x, dget "SIS 3301" d = Some x -> r = Some x)
        /\ (forall y,
               dget "SIS 3301" d = None ->
               dget "SIS crate" d = Some y -> r = Some y)
        /\ (dget "SIS 3301" d = None ->
            dget "SIS crate" d = None -> r = None)
        /\ (forall z,
               r = Some z ->
               dget "SIS 3301" d = Some z
               \/ dget "SIS crate" d = Some z).
Proof.
  intro H. destruct (init_ok hdf silent w m w' H) as (_ & _ & _ & Hd).
  assert (Hs : exists d, digitizers m = Some d).
  { destruct (present (w_file w) hdf _DATA_GNAME).
    - destruct Hd as (d & _ & _ & _ & _ & _ & Hd & _). eauto.
    - destruct Hd as (Hd & _). eauto. }
  destruct Hs as [d Hd']. exists d. split; [exact Hd'|].
  intro w2. unfold main_digitizer. rewrite Hd'. simpl attribute.
  eexists. split; [reflexivity|].
  rewrite first_candidate_eq.
  destruct (dget "SIS 3301" d) as [x|];
    [|destruct (dget "SIS crate" d) as [y|]];
    repeat split; intros; try congruence; auto.
Qed.

End Facts.
End HdfMapFacts.

Module HdfMapClaims.
Import Py H5 Eff HdfMap HdfMapFacts Samples.

Local Abbreviation sample_init :=
  (HdfMap.init (known_collection msi_names)
               (known_collection digitizer_names)
               (known_collection control_names)).

Lemma hdfMap_attaches_by_group_presence_witness :
  (exists m w',
      sample_init [] true (start bare_file) = (Ok m, w')
      /\ msi m = Some [] /\ digitizers m = Some []
      /\ controls m = Some []
      /\ warned w' "No MSI group found in bare.hdf5"
      /\ warned w' "No Raw data + config group found in bare.hdf5")
  /\ (exists m w',
         sample_init [] false (start lapd_file) = (Ok m, w')
         /\ msi m = Some [("Discharge", tt)]
         /\ digitizers m = Some [("SIS crate", tt)]
         /\ controls m = Some [("N5700_PS", tt)]).
Proof.
  split.
  - destruct (sample_init [] true (start bare_file)) as [[m|e] w'] eqn:E;
      [|vm_compute in E; discriminate].
    exists m, w'. split; [reflexivity|].
    destruct (proj1 (hdfMap_attaches_by_group_presence
                       (known_collection msi_names)
                       (known_collection digitizer_names)
                       (known_collection control_names))
                    [] true (start bare_file) m w' E)
      as [(Hm & Wm) (Hd & Hc & Wd)].
    repeat split; assumption.
  - destruct (sample_init [] false (start lapd_file)) as [[m|e] w'] eqn:E;
      [|vm_compute in E; discriminate].
    exists m, w'. split; [reflexivity|].
    destruct (proj1 (hdfMap_attaches_by_group_presence
                       (known_collection msi_names)
                       (known_collection digitizer_names)
                       (known_collection control_names))
                    [] false (start lapd_file) m w' E)
      as [(d & msgs & Em & Hm) (dd & c & ms1 & ms2 & Ed & Ec & Hd & Hc)].
    vm_compute in Em, Ed, Ec.
    injection Em as <- _. injection Ed as <- _. injection Ec as <- _.
    repeat split; assumption.
Defined.

(** C9, as stated, fails: the file whose version attribute is the
    byte 0xFF is accepted by the constructor, and [hdf_version]
    raises UnicodeDecodeError on the constructed object. *)
Lemma hdf_version_raises_on_odd_version :
  exists m w',
    sample_init [] false (start odd_version_file) = (Ok m, w')
    /\ fst (hdf_version m w') = Raise UnicodeDecodeError.
Proof. do 2 eexists. split; vm_compute; reflexivity. Qed.

Lemma hdf_version_of_constructed_witness :
  exists m w',
    sample_init [] false (start lapd_file) = (Ok m, w')
    /\ is_lapd_hdf m w' = (Ok true, w')
    /\ hdf_version m w' = (Ok (PStr "1.2"), w').
Proof.
  destruct (sample_init [] false (start lapd_file)) as [[m|e] w'] eqn:E;
    [|vm_compute in E; discriminate].
  exists m, w'. split; [reflexivity|].
  assert (F : w_file w' = w_file (start lapd_file)).
  { exact (proj1 (frame_init _ _ _ [] false _ _ _ E)). }
  destruct (hdf_version_of_constructed
              (known_collection msi_names)
              (known_collection digitizer_names)
              (known_collection control_names)
              [] false (start lapd_file) m w' E w' F)
    as (Hl & v & Ev & _ & _ & Hdec).
  split; [exact Hl|].
  vm_compute in Ev. injection Ev as <-.
  apply (Hdec "1.2" "1.2"); reflexivity.
Defined.

Lemma main_digitizer_priority_witness :
  exists m w',
    sample_init [] false (start lapd_file) = (Ok m, w')
    /\ main_digitizer m w' = (Ok (Some tt), w').
Proof.
  destruct (sample_init [] false (start lapd_file)) as [[m|e] w'] eqn:E;
    [|vm_compute in E; discriminate].
  exists m, w'. split; [reflexivity|].
  destruct (main_digitizer_priority
              (known_collection msi_names)
              (known_collection digitizer_names)
              (known_collection control_names)
              [] false (start lapd_file) m w' E)
    as (d & Hd & Hmain).
  destruct (Hmain w') as (r & Hr & _ & Hcrate & _).
  rewrite Hr.
  assert (Ed : d = [("SIS crate", tt)]).
  { vm_compute in E. injection E as <- _. simpl in Hd. congruence. }
  subst d. now rewrite (Hcrate tt eq_refl eq_refl).
Defined.

End HdfMapClaims.

(** ** Control device 'N5700_PS': the methods compute the values *)

Module N5700Facts.
Import Py PyFacts H5 Eff EffFacts ComputesFacts ControlTemplate N5700.

Lemma cfg_set_with_entry self name c key val :
  cfg_set (with_entry self name c) name key val
  = Ok (with_entry self name (dset key val c)).
Proof.
  unfold cfg_set, with_entry. simpl configs.
  rewrite dget_dset_same, dset_dset_same. reflexivity.
Qed.

Lemma cfg_get_with_entry self name c key :
  cfg_get (with_entry self name c) name key = getitem key c.
Proof.
  unfold cfg_get, with_entry. simpl configs.
  now rewrite dget_dset_same.
Qed.

Section Refinement.
Variable construct :
  mapper -> string -> list Re.regex -> result (dict pyval).
Variable f : file.

Lemma computes_map_attr name cong n pair self c :
  resolve (root f) cong = Some n ->
  computes (map_attr name cong pair (with_entry self name c)) f
           (entry_flow self name (fill_attr (node_attrs n) pair c)).
Proof.
  intro Hr. unfold map_attr. eapply computes_eq.
  - apply computes_try_except.
    + apply computes_bind; [apply (computes_h5_attr f _ _ _ Hr)|].
      intros val _. apply computes_bind; [apply computes_lift|].
      intros val' _. apply computes_bind; [apply computes_lift|].
      intros self' _. apply computes_ret.
    + apply computes_bind; [apply computes_lift|]. intros self' _.
      instantiate (1 := fun self' =>
        if negb (String.eqb (fst pair) "command list")
        then Ok (Continue self')
        else Ok (Return (set_build_successful false self'))).
      simpl. destruct (negb (String.eqb (fst pair) "command list")).
      * eapply computes_eq;
          [apply computes_bind;
           [apply computes_warn | intros; apply computes_ret]|].
        reflexivity.
      * eapply computes_eq;
          [apply computes_bind;
           [apply computes_warn | intros; apply computes_ret]|].
        reflexivity.
  - unfold fill_attr, getitem.
    destruct (dget (snd pair) (node_attrs n)) as [v|]; simpl.
    + destruct (String.eqb (fst pair) "command list").
      * destruct (decode_command_list v) as [val|e] eqn:E; simpl.
        -- now rewrite cfg_set_with_entry.
        -- destruct e; try reflexivity.
           now apply decode_command_list_not_KeyError in E.
      * destruct (decode_utf8 v) as [val|e] eqn:E; simpl.
        -- now rewrite cfg_set_with_entry.
        -- destruct e; try reflexivity.
           now apply decode_utf8_not_KeyError in E.
    + rewrite cfg_set_with_entry. simpl.
      destruct (negb (String.eqb (fst pair) "command list")); reflexivity.
Qed.

Lemma computes_map_attrs name cong n ps self c :
  resolve (root f) cong = Some n ->
  computes (for_each ps (map_attr name cong) (with_entry self name c)) f
           (entry_flow self name (fill_attrs (node_attrs n) ps c)).
Proof.
  intro Hr. revert c; induction ps as [|pair ps IH]; intro c; simpl.
  - apply computes_ret.
  - eapply computes_eq.
    + apply computes_bind; [apply (computes_map_attr _ _ _ _ _ _ Hr)|].
      intros fl Hfl.
      instantiate (1 := fun fl =>
        match fl with
        | Continue s =>
            match fill_attr (node_attrs n) pair c with
            | Ok (Continue c') =>
                entry_flow self name (fill_attrs (node_attrs n) ps c')
            | _ => Ok (Continue s)
            end
        | Return s => Ok (Return s)
        end).
      simpl. destruct fl as [s|s]; [|apply computes_ret].
      destruct (fill_attr (node_attrs n) pair c) as [[c'|c']|e];
        simpl in Hfl; try discriminate.
      injection Hfl as <-. apply IH.
    + unfold fill_attrs. simpl.
      destruct (fill_attr (node_attrs n) pair c) as [[c'|c']|e];
        reflexivity.
Qed.

Lemma computes_h5_field_shape p n fld :
  resolve (root f) p = Some n ->
  computes (h5_field_shape p fld) f (field_shape n fld).
Proof.
  intro Hr. eapply computes_eq; [apply computes_read|].
  unfold node_at. rewrite Hr. destruct n; reflexivity.
Qed.

Lemma try_value_caught (r : result (dict pyval)) :
  try_value r KeyError (Ok []) = caught_state_values r.
Proof. destruct r as [d|[]]; reflexivity. Qed.

Lemma computes_define_dataset_values name dset dn self c :
  resolve (root f) dset = Some dn ->
  dset = (group self ++ [construct_dataset_name])%list ->
  computes (define_dataset_values construct name dset
                                  (with_entry self name c)) f
           (rbind (finish_config construct self name dn c)
                  (fun self' => Ok (Continue self'))).
Proof.
  intros Hr Hd. unfold define_dataset_values. eapply computes_eq.
  - apply computes_bind; [apply (computes_h5_name f _ _ Hr)|].
    intros dname _. apply computes_bind; [apply computes_lift|].
    intros s1 _. apply computes_bind; [apply computes_lift|].
    intros dp _.
    apply computes_bind; [apply (computes_h5_field_shape _ _ _ Hr)|].
    intros shp _. apply computes_bind; [apply computes_lift|].
    intros s2 _. apply computes_bind.
    { apply computes_with_filter. apply computes_try_except;
        [apply computes_lift | apply computes_ret]. }
    intros sv_dict _. apply computes_bind.
    { instantiate (1 := match sv_dict with
                        | _ :: _ => Ok sv_dict
                        | [] => _default_state_values_dict s2 name
                        end).
      destruct sv_dict; [apply computes_lift | apply computes_ret]. }
    intros sv _. apply computes_bind; [apply computes_lift|].
    intros s3 _. apply computes_ret.
  - unfold finish_config. subst dset. simpl.
    rewrite cfg_set_with_entry. simpl.
    rewrite cfg_get_with_entry.
    destruct (getitem "dset paths"
                (dset "dset paths"
                   (PStr (name_of (group self
                                   ++ [construct_dataset_name])%list))
                   c)) as [dp|e]; simpl; [|reflexivity].
    destruct (field_shape dn "Shot number") as [shp|e]; simpl;
      [|reflexivity].
    rewrite cfg_set_with_entry. simpl.
    rewrite try_value_caught. unfold shotnum_entry.
    match goal with
    | |- context [caught_state_values ?x] =>
        destruct (caught_state_values x) as [sv_dict|e]
    end; simpl; [|reflexivity].
    match goal with
    | |- rbind ?x _ = _ => destruct x as [sv|e]
    end; simpl; [|reflexivity].
    now rewrite cfg_set_with_entry.
Qed.

Lemma computes_map_config self a ms name :
  resolve (root f) (group self) = Some (Group a ms) ->
  computes (map_config construct name self) f
           (config_step construct ms name self).
Proof.
  intro Hr. unfold map_config, config_step.
  pose proof (resolve_snoc _ _ _ _ name Hr) as Hcong.
  pose proof (resolve_snoc _ _ _ _ construct_dataset_name Hr) as Hds.
  destruct (lookup name ms) as [cong|] eqn:Ec.
  2:{ eapply computes_eq.
      - apply computes_bind with (g := fun _ => Raise KeyError);
          [apply (computes_h5_getitem f _ _ _ name Hr)|].
        intros p Hp. rewrite Ec in Hp. discriminate.
      - rewrite Ec. reflexivity. }
  eapply computes_eq.
  - apply computes_bind; [apply (computes_h5_getitem f _ _ _ name Hr)|].
    intros p Hp.
    apply computes_bind.
    { apply computes_try_except.
      - apply computes_bind;
          [apply (computes_h5_getitem f _ _ _ construct_dataset_name Hr)|].
        intros d _. apply computes_ret.
      - apply computes_bind; [apply computes_warn|].
        intros. apply computes_ret. }
    intros found Hfound.
    instantiate (1 := fun _ =>
      match lookup construct_dataset_name ms with
      | None => Ok (Return (set_build_successful false self))
      | Some dset =>
          match fill_attrs (node_attrs cong) pairs [] with
          | Ok (Continue c) =>
              rbind (finish_config construct self name dset c)
                    (fun self' => Ok (Continue self'))
          | Ok (Return c) =>
              Ok (Return (set_build_successful false
                            (with_entry self name c)))
          | Raise e => Raise e
          end
      end).
    cbv beta. rewrite Ec in Hp. injection Hp as <-.
    destruct (lookup construct_dataset_name ms) as [dn|] eqn:Ed;
      simpl in Hfound.
    + injection Hfound as <-.
      change (set_configs (dset name (PDict []) (configs self)) self)
        with (with_entry self name []).
      eapply computes_eq.
      * apply computes_bind;
          [apply (computes_map_attrs name _ cong pairs self []);
           now rewrite Hcong|].
        intros fl Hfl.
        instantiate (1 := fun fl =>
          match fl with
          | Return s => Ok (Return s)
          | Continue _ =>
              match fill_attrs (node_attrs cong) pairs [] with
              | Ok (Continue c) =>
                  rbind (finish_config construct self name dn c)
                        (fun self' => Ok (Continue self'))
              | _ => Ok (Return self)
              end
          end).
        cbv beta. destruct fl as [s|s]; [|apply computes_ret].
        destruct (fill_attrs (node_attrs cong) pairs []) as [[c|c]|e];
          simpl in Hfl; try discriminate.
        injection Hfl as <-.
        apply computes_define_dataset_values; [|reflexivity].
        now rewrite Hds.
      * destruct (fill_attrs (node_attrs cong) pairs []) as [[c|c]|e];
          reflexivity.
    + injection Hfound as <-. apply computes_ret.
  - rewrite Ec. simpl.
    destruct (lookup construct_dataset_name ms); reflexivity.
Qed.

Lemma finish_config_group self name dn c s' :
  finish_config construct self name dn c = Ok s' -> group s' = group self.
Proof.
  unfold finish_config.
  repeat match goal with
         | |- rbind ?x _ = _ -> _ => destruct x; simpl; [|discriminate]
         end.
  intro H. injection H as <-. reflexivity.
Qed.

Lemma config_step_group ms name s s' :
  config_step construct ms name s = Ok (Continue s') -> group s' = group s.
Proof.
  unfold config_step.
  destruct (lookup name ms) as [cong|]; [|discriminate].
  destruct (lookup construct_dataset_name ms) as [dn|]; [|discriminate].
  destruct (fill_attrs (node_attrs cong) pairs []) as [[c|c]|e];
    try discriminate.
  destruct (finish_config construct s name dn c) as [s2|e] eqn:E;
    simpl; [|discriminate].
  intro H. injection H as <-. exact (finish_config_group _ _ _ _ _ E).
Qed.

(** [sgroup_names] is the list of the members that are groups. *)
Lemma computes_sgroup_names self a ms :
  resolve (root f) (group self) = Some (Group a ms) ->
  computes (sgroup_names self) f (Ok (subgroup_names ms)).
Proof.
  intro Hr. unfold sgroup_names, subgroup_names. eapply computes_eq.
  - apply computes_bind
      with (g := fun keys =>
                   Ok (filter (fun k => match lookup k ms with
                                        | Some n => is_group n
                                        | None => false
                                        end) keys));
      [apply (computes_h5_keys f _ _ _ Hr)|].
    intros keys Hk. injection Hk as <-.
    apply computes_filterM with
      (q := fun k => match lookup k ms with
                     | Some n => is_group n
                     | None => false
                     end).
    intros k Hin. destruct (lookup_In_keys _ _ Hin) as [n Hn].
    eapply computes_eq.
    + apply computes_bind with (g := fun _ => Ok (is_group n));
        [apply (computes_h5_getitem f _ _ _ k Hr)|].
      intros p Hp. rewrite Hn in Hp. injection Hp as <-.
      apply (computes_h5_is_group f _ n).
      now rewrite (resolve_snoc _ _ _ _ k Hr).
    + rewrite Hn. reflexivity.
  - reflexivity.
Qed.

(** [_build_configs] returns [build_configs_value]. *)
Lemma computes_build_configs self a ms :
  resolve (root f) (group self) = Some (Group a ms) ->
  computes (_build_configs construct self) f
           (build_configs_value construct ms self).
Proof.
  intro Hr. unfold _build_configs, build_configs_value.
  assert (Hr' : resolve (root f) (group (set_build_successful true self))
                = Some (Group a ms)) by exact Hr.
  eapply computes_eq.
  - apply computes_bind; [apply (computes_sgroup_names _ _ _ Hr')|].
    intros names Hn.
    instantiate (1 := fun _ =>
      if Nat.eqb (List.length (subgroup_names ms)) 0
      then Ok (set_build_successful false (set_build_successful true self))
      else
        match config_loop construct ms (subgroup_names ms)
                          (set_build_successful true self) with
        | Ok (Continue self') => Ok self'
        | Ok (Return self') => Ok self'
        | Raise e => Raise e
        end).
    cbv beta. injection Hn as <-.
    destruct (Nat.eqb (List.length (subgroup_names ms)) 0).
    + eapply computes_eq;
        [apply computes_bind;
         [apply computes_warn | intros; apply computes_ret]|].
      reflexivity.
    + eapply computes_eq.
      * apply computes_bind
          with (g := fun names =>
                       rbind (for_each_value names
                                (config_step construct ms)
                                (set_build_successful true self))
                             (fun fl => match fl with
                                        | Continue s => Ok s
                                        | Return s => Ok s
                                        end));
          [apply (computes_sgroup_names _ _ _ Hr')|].
        intros names Hn. injection Hn as <-.
        apply computes_bind.
        { apply computes_for_each_inv
            with (I := fun s => group s = group self)
                 (pbody := config_step construct ms).
          - intros name s Hs. apply computes_map_config with (a := a).
            now rewrite Hs.
          - intros name s s' Hs E. rewrite <- Hs.
            exact (config_step_group _ _ _ _ E).
          - reflexivity. }
        intros fl _. destruct fl; apply computes_ret.
      * simpl. unfold config_loop.
        destruct (for_each_value (subgroup_names ms)
                    (config_step construct ms)
                    (set_build_successful true self)) as [[s|s]|e];
          reflexivity.
  - reflexivity.
Qed.


(** *** The values, step by step *)

Lemma decode_utf8_str v r : decode_utf8 v = Ok r -> exists s, r = PStr s.
Proof.
  destruct v; simpl; try discriminate.
  destruct (PyStr.utf8_decode b); [|discriminate].
  intro H; injection H as <-. eauto.
Qed.

Lemma decode_command_list_ok v s :
  decode_utf8 v = Ok (PStr s) ->
  decode_command_list v
  = Ok (PTuple (map (fun cls => PStr (PyStr.strip cls))
                    (PyStr.splitlines s))).
Proof. unfold decode_command_list. now intros ->. Qed.

Lemma decode_command_list_raise v e :
  decode_utf8 v = Raise e -> decode_command_list v = Raise e.
Proof. unfold decode_command_list. now intros ->. Qed.

(** The loop over [pairs]: it goes through when the command list is
    there, returns when it is not, and raises only on an attribute
    that does not decode. *)
Lemma fill_attrs_cases a :
  match fill_attrs a pairs [] with
  | Ok (Continue c) =>
      dmem command_list_attr a = true /\ attrs_decodable a = true
      /\ c = metadata_entries a
  | Ok (Return c) => dmem command_list_attr a = false
  | Raise e => attrs_decodable a = false
  end.
Proof.
  unfold fill_attrs, pairs, attrs_decodable, decodable, metadata_entries,
    metadata_value, command_list_value, command_list_attr, dmem, fill_attr.
  simpl.
  destruct (dget "IP address" a) as [v1|];
    [destruct (decode_utf8 v1) as [r1|e1] eqn:E1|]; simpl; auto.
  all: destruct (dget "Model Number" a) as [v2|];
    [destruct (decode_utf8 v2) as [r2|e2] eqn:E2|]; simpl; auto.
  all: destruct (dget "Initialization commands" a) as [v3|];
    [destruct (decode_utf8 v3) as [r3|e3] eqn:E3|]; simpl; auto.
  all: destruct (dget "N5700 power supply command list" a) as [v4|];
    [destruct (decode_utf8 v4) as [r4|e4] eqn:E4|]; simpl; auto.
  all: try (destruct (decode_utf8_str _ _ E4) as [s4 ->];
            rewrite (decode_command_list_ok _ _ E4); simpl; auto).
  all: try (rewrite (decode_command_list_raise _ _ E4); simpl; auto).
Qed.

Lemma default_state_values_eq self name a dname shp :
  _default_state_values_dict (with_entry self name (base_entry a dname shp))
                             name
  = Ok (default_state_values dname (command_list_value a)).
Proof.
  unfold _default_state_values_dict.
  rewrite !cfg_get_with_entry. reflexivity.
Qed.

Lemma finish_config_eq self name dn a :
  finish_config construct self name dn (metadata_entries a)
  = match field_shape dn "Shot number" with
    | Ok shp =>
        let dname := name_of (group self ++ [construct_dataset_name])%list in
        match caught_state_values
                (construct (with_entry self name (base_entry a dname shp))
                           name (cl_re_patterns self)) with
        | Ok _ => Ok (with_entry self name (full_entry construct self name a dname shp))
        | Raise e => Raise e
        end
    | Raise e => Raise e
    end.
Proof.
  unfold finish_config.
  change (getitem "dset paths"
            (dset "dset paths"
               (PStr (name_of (group self ++ [construct_dataset_name])%list))
               (metadata_entries a)))
    with (@Ok pyval
            (PStr (name_of (group self ++ [construct_dataset_name])%list))).
  cbn [rbind].
  destruct (field_shape dn "Shot number") as [shp|e]; cbn [rbind];
    [|reflexivity].
  set (dname := name_of (group self ++ [construct_dataset_name])%list).
  change (dset "shotnum" (shotnum_entry (PStr dname) shp)
               (dset "dset paths" (PStr dname) (metadata_entries a)))
    with (base_entry a dname shp).
  unfold full_entry, state_values.
  change (cl_re_patterns (with_entry self name (base_entry a dname shp)))
    with (cl_re_patterns self).
  destruct (caught_state_values
              (construct (with_entry self name (base_entry a dname shp))
                         name (cl_re_patterns self))) as [[|x l]|e];
    cbn [rbind]; try reflexivity.
  rewrite default_state_values_eq. reflexivity.
Qed.

(** One configuration mapped in full. *)
Lemma config_step_continue ms name s s' :
  config_step construct ms name s = Ok (Continue s') ->
  exists cong dn shp,
    lookup name ms = Some cong
    /\ lookup construct_dataset_name ms = Some dn
    /\ field_shape dn "Shot number" = Ok shp
    /\ dmem command_list_attr (node_attrs cong) = true
    /\ attrs_decodable (node_attrs cong) = true
    /\ s' = with_entry s name
              (full_entry construct s name (node_attrs cong)
                 (name_of (group s ++ [construct_dataset_name])%list) shp).
Proof.
  unfold config_step.
  destruct (lookup name ms) as [cong|] eqn:Ec; [|discriminate].
  destruct (lookup construct_dataset_name ms) as [dn|] eqn:Ed;
    [|discriminate].
  pose proof (fill_attrs_cases (node_attrs cong)) as Hc.
  destruct (fill_attrs (node_attrs cong) pairs []) as [[c|c]|e];
    try discriminate.
  destruct Hc as (Hcl & Hdec & ->). rewrite finish_config_eq.
  destruct (field_shape dn "Shot number") as [shp|e] eqn:Es;
    [|discriminate].
  cbv zeta.
  destruct (caught_state_values _) as [sv|e]; [|discriminate].
  cbn [rbind]. intro H. injection H as <-.
  exists cong, dn, shp. repeat split; auto.
Qed.

(** One configuration that makes the build fail. *)
Lemma config_step_return ms name s s' :
  config_step construct ms name s = Ok (Return s') ->
  build_successful s' = Some false
  /\ (lookup construct_dataset_name ms = None
      \/ exists cong,
          lookup name ms = Some cong
          /\ dmem command_list_attr (node_attrs cong) = false).
Proof.
  unfold config_step.
  destruct (lookup name ms) as [cong|] eqn:Ec; [|discriminate].
  destruct (lookup construct_dataset_name ms) as [dn|] eqn:Ed.
  - pose proof (fill_attrs_cases (node_attrs cong)) as Hc.
    destruct (fill_attrs (node_attrs cong) pairs []) as [[c|c]|e];
      try discriminate.
    + destruct (finish_config construct s name dn c); discriminate.
    + intro H. injection H as <-. split; [reflexivity|]. right. eauto.
  - intro H. injection H as <-. split; [reflexivity|]. now left.
Qed.

(** On a well-formed group a step raises nothing. *)
Lemma config_step_total ms name s cong :
  helper_raises_only_KeyError construct ->
  lookup name ms = Some cong ->
  attrs_decodable (node_attrs cong) = true ->
  match lookup construct_dataset_name ms with
  | Some n => has_shot_number n
  | None => true
  end = true ->
  exists fl, config_step construct ms name s = Ok fl.
Proof.
  intros Hh Hc Hd Hs. unfold config_step. rewrite Hc.
  destruct (lookup construct_dataset_name ms) as [dn|]; [|eauto].
  pose proof (fill_attrs_cases (node_attrs cong)) as Hf.
  destruct (fill_attrs (node_attrs cong) pairs []) as [[c|c]|e];
    [| eauto | congruence].
  destruct Hf as (_ & _ & ->). rewrite finish_config_eq.
  unfold has_shot_number in Hs.
  destruct (field_shape dn "Shot number") as [shp|e]; [|discriminate].
  cbv zeta.
  destruct (construct _ name (cl_re_patterns s)) as [sv|e] eqn:E.
  - simpl. eauto.
  - rewrite (Hh _ _ _ _ E). simpl. eauto.
Qed.

(** *** The loop over the configurations *)

Lemma config_loop_cons ms name names s :
  config_loop construct ms (name :: names) s
  = match config_step construct ms name s with
    | Ok (Continue s1) => config_loop construct ms names s1
    | Ok (Return s1) => Ok (Return s1)
    | Raise e => Raise e
    end.
Proof.
  unfold config_loop. simpl.
  destruct (config_step construct ms name s) as [[s1|s1]|e]; reflexivity.
Qed.

Lemma config_loop_return ms names s s' :
  config_loop construct ms names s = Ok (Return s') ->
  build_successful s' = Some false
  /\ (lookup construct_dataset_name ms = None
      \/ exists name cong,
          In name names /\ lookup name ms = Some cong
          /\ dmem command_list_attr (node_attrs cong) = false).
Proof.
  revert s; induction names as [|name names IH]; intro s.
  - discriminate.
  - rewrite config_loop_cons.
    destruct (config_step construct ms name s) as [[s1|s1]|e] eqn:E;
      [| |discriminate].
    + intro H. destruct (IH _ H) as [Hb [Hn|(n & cong & Hin & Hl & Hc)]].
      * auto.
      * split; [exact Hb|]. right. exists n, cong. simpl. auto.
    + intro H. injection H as <-.
      destruct (config_step_return _ _ _ _ E) as [Hb [Hn|(cong & Hl & Hc)]].
      * auto.
      * split; [exact Hb|]. right. exists name, cong. simpl. auto.
Qed.

Lemma config_loop_continue ms names s s' :
  config_loop construct ms names s = Ok (Continue s') ->
  build_successful s' = build_successful s
  /\ group s' = group s
  /\ cl_re_patterns s' = cl_re_patterns s
  /\ (forall k, ~ In k names -> dget k (configs s') = dget k (configs s))
  /\ (forall name,
         In name names ->
         exists cong dn shp,
           lookup name ms = Some cong
           /\ lookup construct_dataset_name ms = Some dn
           /\ field_shape dn "Shot number" = Ok shp
           /\ dmem command_list_attr (node_attrs cong) = true
           /\ attrs_decodable (node_attrs cong) = true
           /\ (NoDup names ->
               exists s0,
                 group s0 = group s
                 /\ cl_re_patterns s0 = cl_re_patterns s
                 /\ dget name (configs s')
                    = Some (PDict
                              (full_entry construct s0 name (node_attrs cong)
                                 (name_of
                                    (group s ++ [construct_dataset_name])%list)
                                 shp)))).
Proof.
  revert s; induction names as [|x names IH]; intro s.
  - intro H. injection H as <-. repeat split; auto. intros name [].
  - rewrite config_loop_cons.
    destruct (config_step construct ms x s) as [[s1|s1]|e] eqn:E;
      try discriminate.
    intro H.
    destruct (config_step_continue _ _ _ _ E)
      as (cong & dn & shp & Hl & Hd & Hs & Hc & Hdec & ->).
    destruct (IH _ H) as (Hb & Hg & Hp & Hother & Hin).
    simpl in Hb, Hg, Hp.
    split; [exact Hb|]. split; [exact Hg|]. split; [exact Hp|]. split.
    + intros k Hk. rewrite Hother by (intro; apply Hk; now right).
      simpl. apply dget_dset_other. intro; apply Hk; now left.
    + intros name [<-|Hn].
      * exists cong, dn, shp. repeat split; auto.
        intro Hnd. inversion Hnd; subst.
        exists s. repeat split; auto.
        rewrite Hother by assumption. simpl. apply dget_dset_same.
      * destruct (Hin _ Hn) as (cong' & dn' & shp' & Hl' & Hd' & Hs' & Hc'
                                & Hdec' & Hentry).
        exists cong', dn', shp'. repeat split; auto.
        intro Hnd. inversion Hnd; subst.
        destruct (Hentry H3) as (s0 & Hg0 & Hp0 & He).
        exists s0. simpl in Hg0, Hp0, He. repeat split; auto.
Qed.

Lemma config_loop_total ms names s :
  helper_raises_only_KeyError construct ->
  (forall name, In name names ->
                exists cong, lookup name ms = Some cong
                             /\ attrs_decodable (node_attrs cong) = true) ->
  match lookup construct_dataset_name ms with
  | Some n => has_shot_number n
  | None => true
  end = true ->
  exists fl, config_loop construct ms names s = Ok fl.
Proof.
  intros Hh Hn Hs. revert s; induction names as [|x names IH]; intro s.
  - eexists. reflexivity.
  - rewrite config_loop_cons.
    destruct (Hn x (or_introl eq_refl)) as (cong & Hl & Hd).
    destruct (config_step_total ms x s cong Hh Hl Hd Hs) as [[s1|s1] ->].
    + apply IH. intros; apply Hn; now right.
    + eauto.
Qed.

(** *** The build as a whole *)

Lemma unique_names_NoDup names : unique_names names = true -> NoDup names.
Proof.
  induction names as [|k names IH]; simpl; intro H; constructor.
  - apply andb_true_iff in H as [Hk _]. apply negb_true_iff in Hk.
    intro Hin. unfold str_in_list in Hk.
    assert (Ht : existsb (String.eqb k) names = true).
    { apply existsb_exists. exists k. split; [exact Hin|].
      apply String.eqb_refl. }
    congruence.
  - apply andb_true_iff in H as [_ H]. auto.
Qed.

Lemma subgroup_names_NoDup ms :
  unique_names (map fst ms) = true -> NoDup (subgroup_names ms).
Proof.
  intro H. unfold subgroup_names. apply NoDup_filter.
  now apply unique_names_NoDup.
Qed.

Lemma subgroup_names_lookup ms name :
  In name (subgroup_names ms) ->
  exists n, lookup name ms = Some n /\ is_group n = true.
Proof.
  unfold subgroup_names. intro H. apply filter_In in H as [_ H].
  destruct (lookup name ms) as [n|]; [eauto | discriminate].
Qed.

Lemma dmem_true_dget {V} k (d : dict V) :
  dmem k d = true -> dget k d <> None.
Proof. unfold dmem. destruct (dget k d); [discriminate | discriminate]. Qed.

Lemma dmem_false_dget {V} k (d : dict V) :
  dmem k d = false -> dget k d = None.
Proof. unfold dmem. destruct (dget k d); [discriminate | reflexivity]. Qed.

(** A successful build went through every configuration. *)
Lemma build_value_success ms self s' :
  build_configs_value construct ms self = Ok s' ->
  build_successful s' = Some true ->
  config_loop construct ms (subgroup_names ms)
              (set_build_successful true self) = Ok (Continue s').
Proof.
  unfold build_configs_value. cbv zeta.
  destruct (Nat.eqb (List.length (subgroup_names ms)) 0).
  - intro H. injection H as <-. discriminate.
  - destruct (config_loop construct ms (subgroup_names ms)
                (set_build_successful true self)) as [[s|s]|e] eqn:E;
      intro H; try discriminate; injection H as <-.
    + reflexivity.
    + intro Hb. destruct (config_loop_return _ _ _ _ E) as [Hf _].
      congruence.
Qed.

(** On a well-formed control group the build returns, and fails in
    the three cases of [build_failure] only. *)
Lemma build_value_total ms self :
  well_formed ms = true ->
  helper_raises_only_KeyError construct ->
  exists s' b,
    build_configs_value construct ms self = Ok s'
    /\ build_successful s' = Some b
    /\ (b = false <-> build_failure ms)
    /\ (b = true ->
        config_loop construct ms (subgroup_names ms)
                    (set_build_successful true self) = Ok (Continue s')).
Proof.
  intros Hwf Hh. unfold well_formed in Hwf.
  apply andb_true_iff in Hwf as [Hwf Hds].
  apply andb_true_iff in Hwf as [Hu Hdec].
  unfold build_configs_value, build_failure. cbv zeta.
  destruct (subgroup_names ms) as [|x names] eqn:En.
  - simpl. exists (set_build_successful false (set_build_successful true self)),
      false.
    repeat split; auto. discriminate.
  - cbn [List.length Nat.eqb].
    assert (Hn : forall name, In name (x :: names) ->
                 exists cong, lookup name ms = Some cong
                              /\ attrs_decodable (node_attrs cong) = true).
    { intros name Hin. pose proof Hin as Hin2. rewrite <- En in Hin2.
      destruct (subgroup_names_lookup _ _ Hin2) as (n & Hl & _).
      exists n. split; [exact Hl|].
      rewrite forallb_forall in Hdec. specialize (Hdec name Hin).
      now rewrite Hl in Hdec. }
    destruct (config_loop_total ms (x :: names)
                (set_build_successful true self) Hh Hn Hds) as [fl Hfl].
    rewrite Hfl. destruct fl as [s|s].
    + exists s, true.
      destruct (config_loop_continue _ _ _ _ Hfl) as (Hb & _ & _ & _ & Hin).
      repeat split; auto; try discriminate.
      intros [Hno|[Hno|(name & cong & Hi & Hl & Hc)]]; exfalso.
      * discriminate.
      * destruct (Hin x (or_introl eq_refl))
          as (_ & dn & _ & _ & Hd & _). congruence.
      * destruct (Hin name Hi) as (cong' & _ & _ & Hl' & _ & _ & Hm & _).
        rewrite Hl in Hl'. injection Hl' as <-.
        now apply dmem_true_dget in Hm.
    + exists s, false.
      destruct (config_loop_return _ _ _ _ Hfl)
        as [Hb [Hno|(name & cong & Hi & Hl & Hc)]].
      * repeat split; auto; discriminate.
      * repeat split; auto; try discriminate.
        intros _. right. right. exists name, cong.
        repeat split; auto. now apply dmem_false_dget.
Qed.

(** [__init__] returns the value of the build. *)
Lemma computes_init gp a ms :
  resolve (root f) gp = Some (Group a ms) ->
  computes (init construct gp) f
           (build_configs_value construct ms (new_object gp)).
Proof. intro Hr. unfold init. now apply computes_build_configs with (a := a). Qed.

Lemma init_value gp a ms w s' w' :
  resolve (root f) gp = Some (Group a ms) ->
  w_file w = f ->
  init construct gp w = (Ok s', w') ->
  build_configs_value construct ms (new_object gp) = Ok s'.
Proof.
  intros Hr F H. destruct (computes_init gp a ms Hr w F) as (w1 & E & _).
  rewrite H in E. now injection E as <- _.
Qed.

(** *** The entries of a successful build *)

Lemma full_entry_fields self name a dname shp :
  let e := full_entry construct self name a dname shp in
  dget "IP address" e = Some (metadata_value a "IP address")
  /\ dget "power supply device" e = Some (metadata_value a "Model Number")
  /\ dget "initial state" e
     = Some (metadata_value a "Initialization commands")
  /\ dget "command list" e = Some (command_list_value a)
  /\ dget "dset paths" e = Some (PStr dname)
  /\ dget "shotnum" e = Some (shotnum_entry (PStr dname) shp)
  /\ dget "state values" e
     = Some (PDict (state_values construct
                      (with_entry self name (base_entry a dname shp))
                      name dname (command_list_value a))).
Proof. repeat split; reflexivity. Qed.

Lemma metadata_value_cases a attr :
  decodable a attr = true ->
  match dget attr a with
  | Some v =>
      exists b s, v = PBytes b /\ PyStr.utf8_decode b = Some s
                  /\ metadata_value a attr = PStr s
  | None => metadata_value a attr = PNone
  end.
Proof.
  unfold decodable, metadata_value.
  destruct (dget attr a) as [v|]; [|reflexivity].
  destruct v; simpl; try discriminate.
  destruct (PyStr.utf8_decode b) as [s|] eqn:E; [|discriminate].
  intros _. exists b, s. auto.
Qed.

Lemma command_list_value_cases a :
  decodable a command_list_attr = true ->
  dmem command_list_attr a = true ->
  exists b s,
    dget command_list_attr a = Some (PBytes b)
    /\ PyStr.utf8_decode b = Some s
    /\ command_list_value a
       = PTuple (map (fun cls => PStr (PyStr.strip cls))
                     (PyStr.splitlines s)).
Proof.
  unfold decodable, command_list_value, dmem.
  destruct (dget command_list_attr a) as [v|]; [|discriminate].
  destruct v; simpl; try discriminate.
  unfold decode_command_list. simpl.
  destruct (PyStr.utf8_decode b) as [s|] eqn:E; [|discriminate].
  intros _ _. exists b, s. auto.
Qed.

Lemma attrs_decodable_pair a key attr :
  attrs_decodable a = true -> In (key, attr) pairs ->
  decodable a attr = true.
Proof.
  unfold attrs_decodable. rewrite forallb_forall. intros H Hin.
  exact (H (key, attr) Hin).
Qed.

(** The entries of [configs] after a successful build that started
    on the object [self]. *)
Lemma successful_build_entries ms self s' :
  unique_names (map fst ms) = true ->
  build_configs_value construct ms self = Ok s' ->
  build_successful s' = Some true ->
  (forall k, ~ In k (subgroup_names ms) ->
             dget k (configs s') = dget k (configs self))
  /\ forall name,
      In name (subgroup_names ms) ->
      exists cong dn shp s0,
        lookup name ms = Some cong
        /\ lookup construct_dataset_name ms = Some dn
        /\ field_shape dn "Shot number" = Ok shp
        /\ dmem command_list_attr (node_attrs cong) = true
        /\ attrs_decodable (node_attrs cong) = true
        /\ group s0 = group self
        /\ cl_re_patterns s0 = cl_re_patterns self
        /\ dget name (configs s')
           = Some (PDict
                     (full_entry construct s0 name (node_attrs cong)
                        (name_of (group self ++ [construct_dataset_name])%list)
                        shp)).
Proof.
  intros Hu Hv Hb.
  pose proof (build_value_success _ _ _ Hv Hb) as Hl.
  destruct (config_loop_continue _ _ _ _ Hl) as (_ & _ & _ & Hother & Hin).
  split; [exact Hother|].
  intros name Hn.
  destruct (Hin name Hn)
    as (cong & dn & shp & H1 & H2 & H3 & H4 & H5 & Hentry).
  destruct (Hentry (subgroup_names_NoDup _ Hu)) as (s0 & Hg & Hp & He).
  exists cong, dn, shp, s0. repeat split; auto.
Qed.

(** C2 (amended): on a control group that is well formed (unique
    member names, configuration attributes that decode, a dataset
    'Run time list' with the field 'Shot number' when there is such a
    member) and with a helper that raises nothing but KeyError,
    [_build_configs] returns with [_build_successful] True or False;
    the flag is False if and only if the control group has no
    subgroup, or has no member 'Run time list', or some configuration
    subgroup lacks 'N5700 power supply command list'; a missing
    'IP address', 'Model Number' or 'Initialization commands' leaves
    None in the configuration and the build goes on. *)
Theorem build_flag_on_well_formed_group self a ms w :
  resolve (root f) (group self) = Some (Group a ms) ->
  well_formed ms = true ->
  helper_raises_only_KeyError construct ->
  w_file w = f ->
  exists self' w' b,
    _build_configs construct self w = (Ok self', w')
    /\ build_successful self' = Some b
    /\ (b = false <-> build_failure ms)
    /\ (b = true ->
        forall name cong,
          In name (subgroup_names ms) ->
          lookup name ms = Some cong ->
          exists e,
            dget name (configs self') = Some (PDict e)
            /\ forall key attr,
                In (key, attr) optional_pairs ->
                dget attr (node_attrs cong) = None ->
                dget key e = Some PNone).
Proof.
  intros Hr Hwf Hh F.
  destruct (computes_build_configs self a ms Hr w F) as (w' & E & _).
  destruct (build_value_total ms self Hwf Hh) as (s' & b & Hv & Hb & Hiff & Hl).
  rewrite Hv in E. exists s', w', b.
  split; [exact E|]. split; [exact Hb|]. split; [exact Hiff|].
  intros -> name cong Hn Hc.
  assert (Hu : unique_names (map fst ms) = true).
  { unfold well_formed in Hwf.
    apply andb_true_iff in Hwf as [Hwf _].
    now apply andb_true_iff in Hwf as [Hu _]. }
  destruct (successful_build_entries ms self s' Hu Hv Hb) as [_ Hent].
  destruct (Hent name Hn)
    as (cong' & dn & shp & s0 & H1 & _ & _ & _ & _ & _ & _ & He).
  rewrite Hc in H1. injection H1 as <-.
  eexists. split; [exact He|].
  intros key attr Hin Hnone.
  destruct (full_entry_fields s0 name (node_attrs cong)
              (name_of (group self ++ [construct_dataset_name])%list) shp)
    as (E1 & E2 & E3 & _).
  unfold metadata_value in E1, E2, E3.
  simpl in Hin.
  destruct Hin as [Hp|[Hp|[Hp|[]]]]; injection Hp as <- <-;
    rewrite Hnone in *; assumption.
Qed.

(** C4: when the build succeeds, [configs] has one entry for each
    subgroup of the control group and no other, keyed by the name of
    the subgroup; the entry holds 'dset paths', the path name of the
    dataset 'Run time list'; 'shotnum' with that path, the field
    ('Shot number',), the shape of that field in the dtype of the
    dataset and numpy.int32; 'IP address', 'power supply device' and
    'initial state', the attributes decoded from bytes to str (None
    for a missing attribute); 'command list', the tuple of the
    stripped lines of the decoded command-list attribute. *)
Theorem successful_build_configs gp a ms w self' w' :
  resolve (root f) gp = Some (Group a ms) ->
  unique_names (map fst ms) = true ->
  w_file w = f ->
  init construct gp w = (Ok self', w') ->
  build_successful self' = Some true ->
  (forall k, dmem k (configs self') = true <-> In k (subgroup_names ms))
  /\ forall name,
      In name (subgroup_names ms) ->
      exists cong dn shp e,
        lookup name ms = Some cong
        /\ lookup construct_dataset_name ms = Some dn
        /\ field_shape dn "Shot number" = Ok shp
        /\ dget name (configs self') = Some (PDict e)
        /\ dget "dset paths" e
           = Some (PStr (name_of (gp ++ [construct_dataset_name])%list))
        /\ dget "shotnum" e
           = Some (PDict
                     [("dset paths",
                       PStr (name_of (gp ++ [construct_dataset_name])%list));
                      ("dset field", PTuple [PStr "Shot number"]);
                      ("shape", PTuple (map PInt shp));
                      ("dtype", PDtype NpInt32)])
        /\ (forall key attr,
               In (key, attr) optional_pairs ->
               match dget attr (node_attrs cong) with
               | Some v =>
                   exists b s,
                     v = PBytes b /\ PyStr.utf8_decode b = Some s
                     /\ dget key e = Some (PStr s)
               | None => dget key e = Some PNone
               end)
        /\ exists b s,
            dget command_list_attr (node_attrs cong) = Some (PBytes b)
            /\ PyStr.utf8_decode b = Some s
            /\ dget "command list" e
               = Some (PTuple (map (fun cls => PStr (PyStr.strip cls))
                                   (PyStr.splitlines s))).
Proof.
  intros Hr Hu F Hi Hb.
  pose proof (init_value gp a ms w self' w' Hr F Hi) as Hv.
  destruct (successful_build_entries ms (new_object gp) self' Hu Hv Hb)
    as [Hother Hent].
  split.
  - intro k. split.
    + intro Hk. destruct (in_dec string_dec k (subgroup_names ms)) as [|Hn];
        [assumption|].
      unfold dmem in Hk. rewrite (Hother k Hn) in Hk. discriminate.
    + intro Hk.
      destruct (Hent k Hk) as (? & ? & ? & ? & _ & _ & _ & _ & _ & _ & _ & He).
      unfold dmem. now rewrite He.
  - intros name Hn.
    destruct (Hent name Hn)
      as (cong & dn & shp & s0 & H1 & H2 & H3 & H4 & H5 & _ & _ & He).
    change (group (new_object gp)) with gp in He.
    destruct (full_entry_fields s0 name (node_attrs cong)
                (name_of (gp ++ [construct_dataset_name])%list) shp)
      as (E1 & E2 & E3 & E4 & E5 & E6 & _).
    exists cong, dn, shp. eexists.
    split; [exact H1|]. split; [exact H2|]. split; [exact H3|].
    split; [exact He|]. split; [exact E5|]. split; [exact E6|]. split.
    + intros key attr Hin.
      assert (Hd : decodable (node_attrs cong) attr = true).
      { apply (attrs_decodable_pair _ key attr H5).
        simpl in Hin. simpl.
        destruct Hin as [Hp|[Hp|[Hp|[]]]]; auto. }
      pose proof (metadata_value_cases _ _ Hd) as Hc.
      simpl in Hin.
      destruct Hin as [Hp|[Hp|[Hp|[]]]]; injection Hp as <- <-.
      * destruct (dget "IP address" (node_attrs cong)) as [v|].
        -- destruct Hc as (b & s & -> & Hs & Hm). exists b, s.
           rewrite <- Hm. auto.
        -- now rewrite <- Hc.
      * destruct (dget "Model Number" (node_attrs cong)) as [v|].
        -- destruct Hc as (b & s & -> & Hs & Hm). exists b, s.
           rewrite <- Hm. auto.
        -- now rewrite <- Hc.
      * destruct (dget "Initialization commands" (node_attrs cong)) as [v|].
        -- destruct Hc as (b & s & -> & Hs & Hm). exists b, s.
           rewrite <- Hm. auto.
        -- now rewrite <- Hc.
    + assert (Hd : decodable (node_attrs cong) command_list_attr = true).
      { apply (attrs_decodable_pair _ "command list" _ H5).
        simpl. auto. }
      destruct (command_list_value_cases _ Hd H4) as (b & s & Hg & Hs & Hc).
      exists b, s. rewrite <- Hc. auto.
Qed.

(** C5: in every configuration of a successful build, 'state values'
    is the dictionary the helper makes from the command list and the
    registered patterns when that dictionary is not empty; otherwise
    (an empty dictionary, or KeyError, which is caught) it is the
    default dictionary, whose only entry 'command' has the field
    ('Command index',), the full command list as 'command list' and
    'cl str', 're pattern' None and the shape (). *)
Theorem successful_build_state_values gp a ms w self' w' :
  resolve (root f) gp = Some (Group a ms) ->
  unique_names (map fst ms) = true ->
  w_file w = f ->
  init construct gp w = (Ok self', w') ->
  build_successful self' = Some true ->
  forall name,
    In name (subgroup_names ms) ->
    exists e cl dname self2 sv,
      dget name (configs self') = Some (PDict e)
      /\ dget "command list" e = Some cl
      /\ dget "dset paths" e = Some (PStr dname)
      /\ dget "state values" e = Some (PDict sv)
      (* the object the helper is called on *)
      /\ cl_re_patterns self2 = [N5700Pattern.volt_pattern]
      /\ cfg_get self2 name "command list" = Ok cl
      /\ cfg_get self2 name "dset paths" = Ok (PStr dname)
      /\ (forall d,
             construct self2 name (cl_re_patterns self2) = Ok d ->
             d <> [] -> sv = d)
      /\ (construct self2 name (cl_re_patterns self2) = Ok []
          \/ construct self2 name (cl_re_patterns self2) = Raise KeyError ->
          sv = [("command",
                 PDict [("dset paths", PStr dname);
                        ("dset field", PTuple [PStr "Command index"]);
                        ("re pattern", PNone);
                        ("command list", cl);
                        ("cl str", cl);
                        ("shape", PTuple []);
                        ("dtype", PDtype (np_array_dtype cl))])]).
Proof.
  intros Hr Hu F Hi Hb name Hn.
  pose proof (init_value gp a ms w self' w' Hr F Hi) as Hv.
  destruct (successful_build_entries ms (new_object gp) self' Hu Hv Hb)
    as [_ Hent].
  destruct (Hent name Hn)
    as (cong & dn & shp & s0 & _ & _ & _ & _ & _ & _ & Hp & He).
  change (group (new_object gp)) with gp in He.
  set (dname := name_of (gp ++ [construct_dataset_name])%list) in *.
  destruct (full_entry_fields s0 name (node_attrs cong) dname shp)
    as (_ & _ & _ & E4 & E5 & _ & E7).
  set (self2 := with_entry s0 name (base_entry (node_attrs cong) dname shp))
    in *.
  exists (full_entry construct s0 name (node_attrs cong) dname shp),
    (command_list_value (node_attrs cong)), dname, self2,
    (state_values construct self2 name dname
                  (command_list_value (node_attrs cong))).
  split; [exact He|]. split; [exact E4|]. split; [exact E5|].
  split; [exact E7|]. split; [exact Hp|].
  split; [unfold self2; now rewrite cfg_get_with_entry|].
  split; [unfold self2; now rewrite cfg_get_with_entry|].
  unfold state_values. split.
  - intros d Hd Hne. rewrite Hd. simpl.
    destruct d; [contradiction | reflexivity].
  - intros [Hd|Hd]; rewrite Hd; reflexivity.
Qed.

End Refinement.
End N5700Facts.

Module N5700Claims.
Import Py H5 Eff ControlTemplate N5700 N5700Facts Samples.

Lemma no_state_values_raises_only_KeyError :
  helper_raises_only_KeyError no_state_values.
Proof. intros self name ps e H. discriminate H. Qed.

(** C2, as stated, fails: the dataset 'Run time list' of this control
    group has no field 'Shot number'; [_build_configs] raises KeyError
    on it instead of returning with the flag set. *)
Lemma build_configs_raises_without_shot_number :
  fst (_build_configs no_state_values (new_object ["N5700_PS"])
                      (start no_shotnum_file)) = Raise KeyError
  /\ ~ exists self' w',
        _build_configs no_state_values (new_object ["N5700_PS"])
                       (start no_shotnum_file) = (Ok self', w').
Proof.
  split; [vm_compute; reflexivity|].
  intros (self' & w' & H). vm_compute in H. discriminate H.
Qed.

Lemma build_flag_on_well_formed_group_witness :
  exists self' w' b,
    _build_configs no_state_values (new_object sample_group)
                   (start lapd_file) = (Ok self', w')
    /\ build_successful self' = Some b
    /\ (b = false <-> build_failure sample_members)
    /\ (b = true ->
        forall name cong,
          In name (subgroup_names sample_members) ->
          lookup name sample_members = Some cong ->
          exists e,
            dget name (configs self') = Some (PDict e)
            /\ forall key attr,
                In (key, attr) optional_pairs ->
                dget attr (node_attrs cong) = None ->
                dget key e = Some PNone).
Proof.
  apply (build_flag_on_well_formed_group
           no_state_values lapd_file (new_object sample_group)
           [] sample_members (start lapd_file)).
  - reflexivity.
  - reflexivity.
  - exact no_state_values_raises_only_KeyError.
  - reflexivity.
Defined.

Lemma successful_build_configs_witness :
  exists self' w',
    init no_state_values sample_group (start lapd_file) = (Ok self', w')
    /\ (forall k, dmem k (configs self') = true
                  <-> In k (subgroup_names sample_members))
    /\ exists e,
        dget "nsconf_1" (configs self') = Some (PDict e)
        /\ dget "dset paths" e
           = Some (PStr "/Raw data + config/N5700_PS/Run time list")
        /\ dget "IP address" e = Some (PStr "192.168.7.3")
        /\ dget "initial state" e = Some PNone
        /\ dget "command list" e
           = Some (PTuple [PStr "SOURCE:VOLTAGE:LEVEL 20.0";
                           PStr "SOURCE:VOLTAGE:LEVEL 30"]).
Proof.
  destruct (init no_state_values sample_group (start lapd_file))
    as [[s|e] w'] eqn:E; [|vm_compute in E; discriminate E].
  assert (Hb : build_successful s = Some true).
  { pose proof E as E'. vm_compute in E'. injection E' as <- _.
    reflexivity. }
  destruct (successful_build_configs
              no_state_values lapd_file sample_group [] sample_members
              (start lapd_file) s w' eq_refl eq_refl eq_refl E Hb)
    as [Hkeys Hent].
  exists s, w'. split; [reflexivity|]. split; [exact Hkeys|].
  destruct (Hent "nsconf_1")
    as (cong & dn & shp & e & H1 & H2 & H3 & He & Hp & Hs & Hopt & Hcl).
  { simpl. auto. }
  exists e. split; [exact He|]. split; [exact Hp|].
  vm_compute in H1. injection H1 as <-.
  split; [|split].
  - destruct (Hopt "IP address" "IP address") as (b & s0 & Hv & Hd & Hk).
    { simpl. auto. }
    injection Hv as <-. vm_compute in Hd. injection Hd as <-. exact Hk.
  - apply (Hopt "initial state" "Initialization commands"). simpl. auto.
  - destruct Hcl as (b & s0 & Hv & Hd & Hk).
    vm_compute in Hv. injection Hv as <-.
    vm_compute in Hd. injection Hd as <-. exact Hk.
Defined.

Lemma successful_build_state_values_witness :
  exists self' w' e cl,
    init no_state_values sample_group (start lapd_file) = (Ok self', w')
    /\ dget "nsconf_1" (configs self') = Some (PDict e)
    /\ dget "command list" e = Some cl
    /\ dget "state values" e
       = Some (PDict
                 [("command",
                   PDict [("dset paths",
                           PStr "/Raw data + config/N5700_PS/Run time list");
                          ("dset field", PTuple [PStr "Command index"]);
                          ("re pattern", PNone);
                          ("command list", cl);
                          ("cl str", cl);
                          ("shape", PTuple []);
                          ("dtype", PDtype (np_array_dtype cl))])]).
Proof.
  destruct (init no_state_values sample_group (start lapd_file))
    as [[s|e] w'] eqn:E; [|vm_compute in E; discriminate E].
  assert (Hb : build_successful s = Some true).
  { pose proof E as E'. vm_compute in E'. injection E' as <- _.
    reflexivity. }
  destruct (successful_build_state_values
              no_state_values lapd_file sample_group [] sample_members
              (start lapd_file) s w' eq_refl eq_refl eq_refl E Hb
              "nsconf_1")
    as (e & cl & dname & self2 & sv & He & Hcl & Hdp & Hsv & _ & _ & _
        & _ & Hdefault).
  { simpl. auto. }
  exists s, w', e, cl. split; [reflexivity|]. split; [exact He|].
  split; [exact Hcl|]. rewrite Hsv, (Hdefault (or_introl eq_refl)).
  assert (Hn : dname = "/Raw data + config/N5700_PS/Run time list").
  { pose proof E as E'. vm_compute in E'. injection E' as <- _.
    vm_compute in He. injection He as <-.
    vm_compute in Hdp. now injection Hdp as <-. }
  now rewrite Hn.
Defined.

End N5700Claims.

(** ** The properties of a constructed [hdfMap] *)

Module HdfMapPropsFacts.
Import Py PyFacts H5 Eff EffFacts ComputesFacts HdfMap HdfMapFacts
  HdfMapProps.

(** *** Dictionaries *)

Lemma dset_fresh {V} k (v : V) d :
  dget k d = None -> dset k v d = (d ++ [(k, v)])%list.
Proof.
  induction d as [|[k' v'] d IH]; simpl; [reflexivity|].
  destruct (String.eqb k k'); [discriminate|].
  intro H. now rewrite IH.
Qed.

Lemma dget_app_fresh {V} k k' (v : V) d :
  k <> k' -> dget k d = None -> dget k (d ++ [(k', v)])%list = None.
Proof.
  intros Hne. induction d as [|[k2 v2] d IH]; simpl.
  - now destruct (String.eqb_spec k k').
  - destruct (String.eqb k k2); [discriminate | exact IH].
Qed.

Lemma dget_None_not_In {V} k (d : dict V) :
  dget k d = None <-> ~ In k (dkeys d).
Proof.
  induction d as [|[k' v'] d IH]; simpl.
  - tauto.
  - destruct (String.eqb_spec k k') as [->|Hne].
    + split; [discriminate | intro H; exfalso; apply H; now left].
    + rewrite IH. split.
      * intros H [E|Hin]; [congruence | tauto].
      * intros H Hin. apply H. now right.
Qed.

Lemma dget_In {V} k (v : V) d : dget k d = Some v -> In (k, v) d.
Proof.
  induction d as [|[k' v'] d IH]; simpl; [discriminate|].
  destruct (String.eqb_spec k k') as [->|Hne].
  - intro H. injection H as ->. now left.
  - intro H. right. auto.
Qed.

(** [d.update(items)] on items with distinct keys that are not in
    [d] appends them. *)
Lemma dupdate_fresh {V} (items d : dict V) :
  NoDup (dkeys items) ->
  (forall k, In k (dkeys items) -> dget k d = None) ->
  dupdate d items = (d ++ items)%list.
Proof.
  unfold dupdate. revert d.
  induction items as [|[k v] items IH]; intros d Hnd Hd; simpl.
  - now rewrite app_nil_r.
  - inversion Hnd as [|? ? Hk Hnd']; subst.
    rewrite (dset_fresh k v d) by (apply Hd; now left).
    rewrite IH; [now rewrite <- app_assoc | exact Hnd' |].
    intros k' Hin. apply dget_app_fresh.
    + intros ->. exact (Hk Hin).
    + apply Hd. now right.
Qed.

Lemma dupdate_nil {V} (items : dict V) :
  NoDup (dkeys items) -> dupdate [] items = items.
Proof. intro H. now rewrite dupdate_fresh. Qed.

Lemma dkeys_dset_mem {V} k (v : V) d :
  dget k d <> None -> dkeys (dset k v d) = dkeys d.
Proof.
  induction d as [|[k' v'] d IH]; simpl; [congruence|].
  destruct (String.eqb_spec k k') as [->|Hne]; simpl.
  - reflexivity.
  - intro H. now rewrite IH.
Qed.

(** *** Decoding the attributes *)

Lemma decode_items_bytes items : forall d d',
  decode_items items d = Ok d' ->
  forall k b, In (k, PBytes b) items -> PyStr.utf8_decode b <> None.
Proof.
  induction items as [|[key val] items IH]; intros d d' H k b Hin.
  - destruct Hin.
  - destruct Hin as [E|Hin].
    + injection E as -> ->. simpl in H.
      destruct (PyStr.utf8_decode b); [discriminate | discriminate].
    + simpl in H. destruct val; try (eapply IH; eassumption).
      destruct (decode_utf8 (PBytes b0)); [|discriminate].
      simpl in H. eapply IH; eassumption.
Qed.

Lemma decode_items_get items : forall d d',
  NoDup (dkeys items) ->
  decode_items items d = Ok d' ->
  forall k,
    dget k d'
    = match dget k items with
      | Some v =>
          match v with
          | PBytes _ => Some (decoded_value v)
          | _ => dget k d
          end
      | None => dget k d
      end.
Proof.
  induction items as [|[key val] items IH]; intros d d' Hnd H k.
  - simpl in H. injection H as <-. reflexivity.
  - inversion Hnd as [|? ? Hk Hnd']; subst.
    apply dget_None_not_In in Hk.
    assert (Hother : forall d0,
               decode_items items d0 = Ok d' ->
               dget key d' = dget key d0).
    { intros d0 H0. rewrite (IH _ _ Hnd' H0 key). now rewrite Hk. }
    simpl dget at 2. cbn [decode_items] in H.
    destruct (String.eqb_spec k key) as [->|Hne].
    + destruct val; try (now apply Hother).
      unfold decode_utf8 in H. unfold decoded_value.
      destruct (PyStr.utf8_decode b) as [s|]; cbn [rbind] in H;
        [|discriminate].
      rewrite (Hother _ H). apply dget_dset_same.
    + destruct val; try (now apply IH).
      destruct (decode_utf8 (PBytes b)) as [s|]; cbn [rbind] in H;
        [|discriminate].
      rewrite (IH _ _ Hnd' H k).
      now rewrite dget_dset_other.
Qed.

Lemma decode_items_keys items : forall d d',
  (forall k, In k (dkeys items) -> dget k d <> None) ->
  decode_items items d = Ok d' -> dkeys d' = dkeys d.
Proof.
  induction items as [|[key val] items IH]; intros d d' Hin H.
  - simpl in H. now injection H as <-.
  - cbn [decode_items] in H.
    assert (Hin' : forall k, In k (dkeys items) -> dget k d <> None).
    { intros k Hk. apply Hin. now right. }
    destruct val; try (now apply IH).
    destruct (decode_utf8 (PBytes b)) as [s|]; cbn [rbind] in H;
      [|discriminate].
    rewrite (IH (dset key s d) d'); [| |exact H].
    + apply dkeys_dset_mem. apply Hin. now left.
    + intros k Hk. destruct (String.eqb_spec k key) as [->|Hne].
      * rewrite dget_dset_same. discriminate.
      * rewrite dget_dset_other by assumption. now apply Hin'.
Qed.

(** The attributes of a group as [__init__] stores them: the keys
    are those of the file, a byte string is decoded, any other value
    is kept. *)
Lemma decode_items_self a d' :
  NoDup (dkeys a) ->
  decode_items a a = Ok d' ->
  dkeys d' = dkeys a
  /\ (forall k, dget k d' = option_map decoded_value (dget k a))
  /\ (forall k b, dget k a = Some (PBytes b) ->
                  PyStr.utf8_decode b <> None).
Proof.
  intros Hnd H. split; [|split].
  - apply (decode_items_keys a a d'); [|exact H].
    intros k Hk Hn. now apply dget_None_not_In in Hn.
  - intro k. rewrite (decode_items_get a a d' Hnd H k).
    destruct (dget k a) as [v|] eqn:E; [|reflexivity].
    destruct v; try reflexivity.
  - intros k b Hk. apply (decode_items_bytes a a d' H k).
    now apply dget_In.
Qed.


(** *** Warnings and the filter in force *)

Lemma tagged_frame {A} (m : M A) : tagged m -> frame m.
Proof.
  intros Hm w r w' H. destruct (Hm _ _ _ H) as (F & G & ws & L & _).
  eauto.
Qed.

Lemma tagged_ret {A} (a : A) : tagged (ret a).
Proof.
  intros w r w' H. inversion H; subst. repeat split.
  exists []. now rewrite app_nil_r.
Qed.

Lemma tagged_raise {A} e : tagged (@raise A e).
Proof.
  intros w r w' H. inversion H; subst. repeat split.
  exists []. now rewrite app_nil_r.
Qed.

Lemma tagged_lift {A} (r : result A) : tagged (lift r).
Proof.
  intros w r' w' H. inversion H; subst. repeat split.
  exists []. now rewrite app_nil_r.
Qed.

Lemma tagged_read {A} (g : file -> result A) : tagged (read g).
Proof.
  intros w r' w' H. inversion H; subst. repeat split.
  exists []. now rewrite app_nil_r.
Qed.

Lemma tagged_warn msg : tagged (warn msg).
Proof.
  intros w r w' H. inversion H; subst. simpl. repeat split.
  eexists. split; [reflexivity|]. now constructor.
Qed.

Lemma tagged_bind {A B} (m : M A) (k : A -> M B) :
  tagged m -> (forall a, tagged (k a)) -> tagged (bind m k).
Proof.
  intros Hm Hk w r w' H. unfold bind in H.
  destruct (m w) as [[a|e] w1] eqn:E.
  - destruct (Hm _ _ _ E) as (F1 & G1 & ws1 & L1 & T1).
    destruct (Hk a _ _ _ H) as (F2 & G2 & ws2 & L2 & T2).
    repeat split; try congruence.
    exists (ws1 ++ ws2)%list. split.
    + now rewrite L2, L1, app_assoc.
    + apply Forall_app. split; [exact T1|]. now rewrite <- G1.
  - inversion H; subst. exact (Hm _ _ _ E).
Qed.

Lemma tagged_for_each {X S} (body : X -> S -> M (flow S)) xs s :
  (forall x s, tagged (body x s)) -> tagged (for_each xs body s).
Proof.
  intro Hb. revert s; induction xs as [|x xs IH]; intro s; simpl.
  - apply tagged_ret.
  - apply tagged_bind; [apply Hb|].
    intros [s'|s']; [apply IH | apply tagged_ret].
Qed.

Lemma tagged_construct {A} (c : constructor A) g :
  tagged (construct c g).
Proof.
  intros w r w' H. unfold construct in H.
  destruct (c (w_file w) g) as [r1 msgs].
  inversion H; subst. simpl. repeat split.
  eexists. split; [reflexivity|].
  apply Forall_forall. intros x Hx. apply in_map_iff in Hx.
  destruct Hx as (msg & <- & _). reflexivity.
Qed.

Lemma tagged_attribute {A} (a : option A) : tagged (attribute a).
Proof. destruct a; [apply tagged_ret | apply tagged_raise]. Qed.

Lemma tagged_h5_getitem g k : tagged (h5_getitem g k).
Proof. apply tagged_read. Qed.

Lemma tagged_h5_keys g : tagged (h5_keys g).
Proof. apply tagged_read. Qed.

Lemma tagged_h5_name p : tagged (h5_name p).
Proof. apply tagged_read. Qed.

(** Under [with_filter] the warnings carry the installed filter, and
    the filter in force before is back. *)
Lemma tagged_with_filter {A} flt (m : M A) w r w' :
  tagged m ->
  with_filter flt m w = (r, w') ->
  w_file w' = w_file w /\ w_filter w' = w_filter w
  /\ exists ws,
      w_warnings w' = (w_warnings w ++ ws)%list
      /\ Forall (fun x => wn_filter x = flt) ws.
Proof.
  intros Hm H. unfold with_filter in H.
  destruct (m (World (w_file w) flt (w_warnings w))) as [r1 w1] eqn:E.
  inversion H; subst; clear H.
  destruct (Hm _ _ _ E) as (F & _ & ws & L & T). simpl in *. eauto.
Qed.

(** *** The same outcome under different filters *)

Lemma same_ret {A} (a : A) : same (ret a) (ret a).
Proof.
  intros w1 w2 r1 w1' r2 w2' F H1 H2.
  inversion H1; subst; inversion H2; subst. repeat split.
  exists [], []. now rewrite !app_nil_r.
Qed.

Lemma same_raise {A} e : same (@raise A e) (@raise A e).
Proof.
  intros w1 w2 r1 w1' r2 w2' F H1 H2.
  inversion H1; subst; inversion H2; subst. repeat split.
  exists [], []. now rewrite !app_nil_r.
Qed.

Lemma same_lift {A} (r : result A) : same (lift r) (lift r).
Proof.
  intros w1 w2 r1 w1' r2 w2' F H1 H2.
  inversion H1; subst; inversion H2; subst. repeat split.
  exists [], []. now rewrite !app_nil_r.
Qed.

Lemma same_read {A} (g : file -> result A) : same (read g) (read g).
Proof.
  intros w1 w2 r1 w1' r2 w2' F H1 H2.
  inversion H1; subst; inversion H2; subst. rewrite F. repeat split.
  exists [], []. now rewrite !app_nil_r.
Qed.

Lemma same_warn msg : same (warn msg) (warn msg).
Proof.
  intros w1 w2 r1 w1' r2 w2' F H1 H2.
  inversion H1; subst; inversion H2; subst. repeat split.
  do 2 eexists. split; [reflexivity|]. split; reflexivity.
Qed.

Lemma same_bind {A B} (m1 m2 : M A) (k1 k2 : A -> M B) :
  same m1 m2 -> (forall a, same (k1 a) (k2 a)) ->
  same (bind m1 k1) (bind m2 k2).
Proof.
  intros Hm Hk w1 w2 r1 w1' r2 w2' F H1 H2. unfold bind in H1, H2.
  destruct (m1 w1) as [x1 v1] eqn:E1. destruct (m2 w2) as [x2 v2] eqn:E2.
  destruct (Hm _ _ _ _ _ _ F E1 E2)
    as (<- & F1 & F2 & ws1 & ws2 & L1 & L2 & Hw).
  destruct x1 as [a|e].
  - assert (F' : w_file v1 = w_file v2) by congruence.
    destruct (Hk a _ _ _ _ _ _ F' H1 H2)
      as (Hr & G1 & G2 & us1 & us2 & M1 & M2 & Hu).
    split; [exact Hr|]. split; [congruence|]. split; [congruence|].
    exists (ws1 ++ us1)%list, (ws2 ++ us2)%list.
    rewrite M1, M2, L1, L2, <- !app_assoc, !map_app, Hw, Hu. auto.
  - inversion H1; subst; inversion H2; subst.
    split; [reflexivity|]. split; [exact F1|]. split; [exact F2|].
    exists ws1, ws2. auto.
Qed.

Lemma same_with_filter {A} f1 f2 (m1 m2 : M A) :
  same m1 m2 -> same (with_filter f1 m1) (with_filter f2 m2).
Proof.
  intros Hm w1 w2 r1 w1' r2 w2' F H1 H2. unfold with_filter in H1, H2.
  destruct (m1 (World (w_file w1) f1 (w_warnings w1))) as [x1 v1] eqn:E1.
  destruct (m2 (World (w_file w2) f2 (w_warnings w2))) as [x2 v2] eqn:E2.
  inversion H1; subst; inversion H2; subst.
  exact (Hm (World (w_file w1) f1 (w_warnings w1))
            (World (w_file w2) f2 (w_warnings w2)) _ _ _ _ F E1 E2).
Qed.

Lemma same_for_each {X S} (b1 b2 : X -> S -> M (flow S)) xs : forall s,
  (forall x s, same (b1 x s) (b2 x s)) ->
  same (for_each xs b1 s) (for_each xs b2 s).
Proof.
  induction xs as [|x xs IH]; intros s Hb; simpl.
  - apply same_ret.
  - apply same_bind; [apply Hb|].
    intros [s'|s']; [now apply IH | apply same_ret].
Qed.

Lemma same_construct {A} (c : constructor A) g :
  same (construct c g) (construct c g).
Proof.
  intros w1 w2 r1 w1' r2 w2' F H1 H2. unfold construct in H1, H2.
  rewrite <- F in H2. destruct (c (w_file w1) g) as [r msgs].
  inversion H1; subst; inversion H2; subst. cbn [w_file w_warnings].
  repeat split; [now symmetry|].
  do 2 eexists. split; [reflexivity|]. split; [reflexivity|].
  rewrite !map_map. reflexivity.
Qed.

Lemma same_attribute {A} (a : option A) :
  same (attribute a) (attribute a).
Proof. destruct a; [apply same_ret | apply same_raise]. Qed.

Ltac inv_bind H :=
  let a := fresh "a" in
  let w := fresh "w" in
  let E := fresh "E" in
  apply bind_ok in H as (a & w & E & H).

Ltac inv_ret H := unfold ret in H; inversion H; subst; clear H.

Section Facts.
Context {MSIMap DigiMap ControlMap : Type}.
Variable HDFMapMSI : constructor (dict MSIMap).
Variable hdfMap_digitizers : constructor (dict DigiMap).
Variable HDFMapControls : constructor (dict ControlMap).

Local Abbreviation hdfMap := (HdfMap.hdfMap MSIMap DigiMap ControlMap).
Local Abbreviation init :=
  (HdfMap.init HDFMapMSI hdfMap_digitizers HDFMapControls).

Local Open Scope eff_scope.

Lemma tagged_has_group (self : hdfMap) gname :
  tagged (has_group self gname).
Proof.
  unfold has_group. apply tagged_bind; [apply tagged_read|].
  intros [|]; simpl; [apply tagged_ret|].
  apply tagged_bind; [apply tagged_read|]. intro fn.
  apply tagged_bind; [apply tagged_warn|]. intro. apply tagged_ret.
Qed.

Lemma tagged_attach_msi (self : hdfMap) :
  tagged (__attach_msi HDFMapMSI self).
Proof.
  unfold __attach_msi, has_msi_group.
  apply tagged_bind; [apply tagged_has_group|].
  intros [|]; [|apply tagged_ret].
  apply tagged_bind; [apply tagged_h5_getitem|]. intro.
  apply tagged_bind; [apply tagged_construct|]. intro. apply tagged_ret.
Qed.

Lemma tagged_attach_digitizers (self : hdfMap) :
  tagged (__attach_digitizers hdfMap_digitizers self).
Proof.
  unfold __attach_digitizers, has_data_group.
  apply tagged_bind; [apply tagged_has_group|].
  intros [|]; [|apply tagged_ret].
  apply tagged_bind; [apply tagged_h5_getitem|]. intro.
  apply tagged_bind; [apply tagged_construct|]. intro. apply tagged_ret.
Qed.

Lemma tagged_attach_controls (self : hdfMap) :
  tagged (__attach_controls HDFMapControls self).
Proof.
  unfold __attach_controls, has_data_group.
  apply tagged_bind; [apply tagged_has_group|].
  intros [|]; [|apply tagged_ret].
  apply tagged_bind; [apply tagged_h5_getitem|]. intro.
  apply tagged_bind; [apply tagged_construct|]. intro. apply tagged_ret.
Qed.

Lemma tagged_scan_unknowns g knowns acc :
  tagged g -> tagged (scan_unknowns g knowns acc).
Proof.
  intro Hg. unfold scan_unknowns.
  apply tagged_bind; [exact Hg|]. intro p.
  apply tagged_bind; [apply tagged_h5_keys|]. intro items.
  apply tagged_bind.
  - apply tagged_for_each. intros item u.
    destruct (negb (str_in_list item knowns)); [|apply tagged_ret].
    apply tagged_bind; [exact Hg|]. intro.
    apply tagged_bind; [apply tagged_h5_getitem|]. intro.
    apply tagged_bind; [apply tagged_h5_name|]. intro. apply tagged_ret.
  - intros [u|u]; apply tagged_ret.
Qed.

Lemma tagged_attach_unknowns (self : hdfMap) :
  tagged (__attach_unknowns self).
Proof.
  unfold __attach_unknowns, has_msi_group, has_data_group.
  apply tagged_bind; [apply tagged_scan_unknowns, tagged_ret|].
  intro u. apply tagged_bind; [apply tagged_has_group|]. intro b.
  apply tagged_bind.
  { destruct b; [|apply tagged_ret].
    apply tagged_bind; [apply tagged_attribute|]. intro.
    apply tagged_scan_unknowns, tagged_h5_getitem. }
  intro u'. apply tagged_bind; [apply tagged_has_group|]. intro b'.
  apply tagged_bind; [|intro; apply tagged_ret].
  destruct b'; [|apply tagged_ret].
  apply tagged_bind; [apply tagged_attribute|]. intro.
  apply tagged_bind; [apply tagged_attribute|]. intro.
  apply tagged_scan_unknowns, tagged_h5_getitem.
Qed.

(** *** The presence checks and [populate] *)

Lemma world_eta w :
  World (w_file w) (w_filter w) (w_warnings w ++ []) = w.
Proof. destruct w. simpl. now rewrite app_nil_r. Qed.

Lemma has_group_steps (self : hdfMap) gname w b w' :
  has_group self gname w = (Ok b, w') ->
  b = present (w_file w) (hdf_obj self) gname
  /\ w' = World (w_file w) (w_filter w)
                (w_warnings w
                 ++ absent_warning (w_file w) (hdf_obj self)
                                   (w_filter w) gname)
  /\ exists a ms,
      resolve (root (w_file w)) (hdf_obj self) = Some (Group a ms).
Proof.
  rewrite has_group_run. unfold absent_warning, present.
  destruct (resolve (root (w_file w)) (hdf_obj self)) as [[a ms|a fs]|];
    try discriminate.
  destruct (lookup gname ms); intro H; inversion H; subst; clear H.
  - rewrite world_eta. eauto.
  - eauto.
Qed.

Lemma present_resolve f hdf gname :
  present f hdf gname = true ->
  exists a ms n,
    resolve (root f) hdf = Some (Group a ms)
    /\ lookup gname ms = Some n
    /\ resolve (root f) (hdf ++ [gname])%list = Some n.
Proof.
  unfold present.
  destruct (resolve (root f) hdf) as [[a ms|a fs]|] eqn:Hr;
    try discriminate.
  destruct (lookup gname ms) as [n|] eqn:Hl; [|discriminate].
  intros _. exists a, ms, n. repeat split; auto.
  now rewrite (resolve_snoc _ _ _ _ gname Hr).
Qed.

Lemma absent_attrs f hdf gname a ms :
  resolve (root f) hdf = Some (Group a ms) ->
  present f hdf gname = false ->
  attrs_at f (hdf ++ [gname])%list = [].
Proof.
  intros Hr. unfold present, attrs_at. rewrite Hr.
  rewrite (resolve_snoc _ _ _ _ gname Hr).
  destruct (lookup gname ms); [discriminate | reflexivity].
Qed.

Lemma h5_getitem_present hdf gname w :
  present (w_file w) hdf gname = true ->
  h5_getitem hdf gname w = (Ok (hdf ++ [gname])%list, w).
Proof.
  intro Hp. destruct (present_resolve _ _ _ Hp) as (a & ms & n & Hr & Hl & _).
  unfold h5_getitem. rewrite read_run. unfold node_at.
  now rewrite Hr, Hl.
Qed.

Lemma populate_ok (self : hdfMap) gname attrs attrs' w w' :
  populate self gname attrs w = (Ok attrs', w') ->
  w' = w
  /\ exists old d',
      getitem gname attrs = Ok old
      /\ decode_items
           (dupdate old (attrs_at (w_file w) (hdf_obj self ++ [gname])%list))
           (dupdate old (attrs_at (w_file w) (hdf_obj self ++ [gname])%list))
         = Ok d'
      /\ attrs' = dset gname d' attrs.
Proof.
  unfold populate. intro H. inv_bind H.
  apply h5_getitem_ok in E as [-> ->].
  inv_bind H. unfold h5_attrs in E. rewrite read_run in E.
  unfold node_at in E. unfold attrs_at.
  destruct (resolve (root (w_file w)) (hdf_obj self ++ [gname])%list)
    as [n|]; [|discriminate].
  inversion E; subst; clear E.
  inv_bind H. unfold lift in E. inversion E; subst; clear E.
  inv_bind H. unfold lift in E. inversion E; subst; clear E.
  inv_ret H. split; [reflexivity|]. exists a, a0. auto.
Qed.

(** *** The scan for unknown members *)

Lemma scan_loop (g : M path) p knowns a ms w :
  g w = (Ok p, w) ->
  resolve (root (w_file w)) p = Some (Group a ms) ->
  forall items acc,
    (forall x, In x items -> In x (map fst ms)) ->
    for_each items
      (fun item acc =>
         if negb (str_in_list item knowns) then
           p' <- g ;;
           q <- h5_getitem p' item ;;
           n <- h5_name q ;;
           ret (Continue (acc ++ [n])%list)
         else ret (Continue acc))
      acc w
    = (Ok (Continue
             (acc ++ map (fun item => name_of (p ++ [item])%list)
                         (filter (fun item => negb (str_in_list item knowns))
                                 items))%list),
       w).
Proof.
  intros Hg Hr. induction items as [|x items IH]; intros acc Hin.
  - simpl. now rewrite app_nil_r.
  - assert (Hin' : forall y, In y items -> In y (map fst ms)).
    { intros y Hy. apply Hin. now right. }
    destruct (lookup_In_keys x ms (Hin x (or_introl eq_refl)))
      as [n Hl].
    cbn [for_each filter].
    destruct (negb (str_in_list x knowns)).
    + assert (E : (p' <- g ;;
                   q <- h5_getitem p' x ;;
                   nm <- h5_name q ;;
                   ret (Continue (acc ++ [nm])%list)) w
                  = (Ok (Continue (acc ++ [name_of (p ++ [x])%list])%list),
                     w)).
      { rewrite (bind_run _ _ _ _ _ Hg).
        assert (E1 : h5_getitem p x w = (Ok (p ++ [x])%list, w)).
        { unfold h5_getitem. rewrite read_run. unfold node_at.
          now rewrite Hr, Hl. }
        rewrite (bind_run _ _ _ _ _ E1).
        assert (E2 : h5_name (p ++ [x])%list w
                     = (Ok (name_of (p ++ [x])%list), w)).
        { unfold h5_name. rewrite read_run. unfold node_at.
          now rewrite (resolve_snoc _ _ _ _ x Hr), Hl. }
        now rewrite (bind_run _ _ _ _ _ E2). }
      rewrite (bind_run _ _ _ _ _ E). rewrite IH by exact Hin'.
      cbn [map]. now rewrite <- app_assoc.
    + unfold bind at 1. unfold ret at 1. now apply IH.
Qed.

Lemma scan_unknowns_ok (g : M path) p knowns acc w u w' :
  g w = (Ok p, w) ->
  scan_unknowns g knowns acc w = (Ok u, w') ->
  w' = w
  /\ u = (acc ++ unknown_names (w_file w) p knowns)%list.
Proof.
  intros Hg. unfold scan_unknowns. rewrite (bind_run _ _ _ _ _ Hg).
  unfold unknown_names, members_at.
  destruct (resolve (root (w_file w)) p) as [[a ms|a fs]|] eqn:Hr.
  - assert (Ek : h5_keys p w = (Ok (map fst ms), w)).
    { unfold h5_keys. rewrite read_run. unfold node_at. now rewrite Hr. }
    rewrite (bind_run _ _ _ _ _ Ek).
    rewrite (bind_run _ _ _ _ _
               (scan_loop g p knowns a ms w Hg Hr (map fst ms) acc
                          (fun x H => H))).
    intro H. inversion H; subst. auto.
  - unfold h5_keys, bind. rewrite read_run. unfold node_at.
    rewrite Hr. discriminate.
  - unfold h5_keys, bind. rewrite read_run. unfold node_at.
    rewrite Hr. discriminate.
Qed.

Lemma attach_unknowns_value (self s' : hdfMap) dm dd dc w w' :
  msi self = Some dm -> digitizers self = Some dd ->
  controls self = Some dc ->
  __attach_unknowns self w = (Ok s', w') ->
  unknowns s'
  = Some (unknown_names (w_file w) (hdf_obj self)
                        [_MSI_GNAME; _DATA_GNAME]
          ++ (if present (w_file w) (hdf_obj self) _MSI_GNAME
              then unknown_names (w_file w)
                                 (hdf_obj self ++ [_MSI_GNAME])
                                 (dkeys dm)
              else [])
          ++ (if present (w_file w) (hdf_obj self) _DATA_GNAME
              then unknown_names (w_file w)
                                 (hdf_obj self ++ [_DATA_GNAME])
                                 (dkeys dd ++ dkeys dc)
              else []))%list.
Proof.
  intros Hm Hd Hc. unfold __attach_unknowns, has_msi_group, has_data_group.
  rewrite Hm, Hd, Hc. intro H.
  inv_bind H. apply scan_unknowns_ok with (p := hdf_obj self) in E as [-> ->];
    [|reflexivity].
  inv_bind H. apply has_group_steps in E as (-> & -> & _).
  set (w1 := World _ _ _) in H.
  assert (F1 : w_file w1 = w_file w) by reflexivity.
  inv_bind H. rename E into E1, a into u1, w0 into w2.
  inv_bind H. apply has_group_steps in E as (-> & -> & _).
  set (w3 := World _ _ _) in H.
  inv_bind H. rename E into E2, a into u2. inv_ret H.
  cbn [unknowns]. f_equal.
  assert (Ea : u1 = (unknown_names (w_file w) (hdf_obj self)
                                   [_MSI_GNAME; _DATA_GNAME]
                     ++ (if present (w_file w) (hdf_obj self) _MSI_GNAME
                         then unknown_names (w_file w)
                                (hdf_obj self ++ [_MSI_GNAME]) (dkeys dm)
                         else []))%list
               /\ w2 = w1).
  { destruct (present (w_file w) (hdf_obj self) _MSI_GNAME) eqn:Hp.
    - cbn [attribute] in E1.
      rewrite (bind_run _ _ w1 dm w1) in E1 by reflexivity.
      apply scan_unknowns_ok with (p := (hdf_obj self ++ [_MSI_GNAME])%list)
        in E1 as [-> ->]; [auto|].
      apply h5_getitem_present. now rewrite F1.
    - inversion E1; subst. now rewrite app_nil_r. }
  destruct Ea as [-> Ew]. subst w2.
  assert (F3 : w_file w3 = w_file w) by reflexivity.
  rewrite F1 in E2.
  destruct (present (w_file w) (hdf_obj self) _DATA_GNAME) eqn:Hp.
  - cbn [attribute] in E2.
    rewrite (bind_run _ _ w3 dd w3) in E2 by reflexivity.
    rewrite (bind_run _ _ w3 dc w3) in E2 by reflexivity.
    apply scan_unknowns_ok with (p := (hdf_obj self ++ [_DATA_GNAME])%list)
      in E2 as [_ ->].
    + rewrite F3. now rewrite <- app_assoc.
    + apply h5_getitem_present. now rewrite F3.
  - inversion E2; subst. now rewrite app_nil_r.
Qed.

(** *** The construction, step by step *)

Lemma init_steps hdf silent w m w' :
  init hdf silent w = (Ok m, w') ->
  exists d1 d2 dm dd dc post,
    (exists a ms, resolve (root (w_file w)) hdf = Some (Group a ms))
    /\ hdf_obj m = hdf
    /\ _attrs m = [(_MSI_GNAME, d1); (_DATA_GNAME, d2)]
    /\ decode_items
         (dupdate [] (attrs_at (w_file w) (hdf ++ [_MSI_GNAME])%list))
         (dupdate [] (attrs_at (w_file w) (hdf ++ [_MSI_GNAME])%list))
       = Ok d1
    /\ decode_items
         (dupdate [] (attrs_at (w_file w) (hdf ++ [_DATA_GNAME])%list))
         (dupdate [] (attrs_at (w_file w) (hdf ++ [_DATA_GNAME])%list))
       = Ok d2
    /\ msi m = Some dm /\ digitizers m = Some dd /\ controls m = Some dc
    /\ unknowns m
       = Some (unknown_names (w_file w) hdf [_MSI_GNAME; _DATA_GNAME]
               ++ (if present (w_file w) hdf _MSI_GNAME
                   then unknown_names (w_file w) (hdf ++ [_MSI_GNAME])
                                      (dkeys dm)
                   else [])
               ++ (if present (w_file w) hdf _DATA_GNAME
                   then unknown_names (w_file w) (hdf ++ [_DATA_GNAME])
                                      (dkeys dd ++ dkeys dc)
                   else []))%list
    /\ w_file w' = w_file w /\ w_filter w' = w_filter w
    /\ w_warnings w'
       = (w_warnings w
          ++ absent_warning (w_file w) hdf (w_filter w) _MSI_GNAME
          ++ absent_warning (w_file w) hdf (w_filter w) _DATA_GNAME
          ++ post)%list
    /\ Forall (fun x => wn_filter x
                        = if silent then FilterIgnore else FilterDefault)
              post.
Proof.
  unfold HdfMap.init. intro H. inv_bind H.
  apply h5_has_attr_ok in E as (-> & -> & _). cbn [hdf_obj] in *.
  destruct (dmem version_key (attrs_at (w_file w) hdf));
    simpl negb in H; cbv iota in H.
  2:{ inv_bind H. discriminate. }
  unfold has_msi_group, has_data_group in H.
  inv_bind H. apply has_group_steps in E as (-> & -> & (a0 & ms & Hr)).
  cbn [hdf_obj] in *. set (w1 := World _ _ _) in H.
  inv_bind H. rename E into Epop1, a into attrs1, w0 into w2.
  assert (P1 : w2 = w1
               /\ exists d1,
                   attrs1 = [(_MSI_GNAME, d1); (_DATA_GNAME, [])]
                   /\ decode_items
                        (dupdate [] (attrs_at (w_file w)
                                       (hdf ++ [_MSI_GNAME])%list))
                        (dupdate [] (attrs_at (w_file w)
                                       (hdf ++ [_MSI_GNAME])%list))
                      = Ok d1).
  { destruct (present (w_file w) hdf _MSI_GNAME) eqn:Hp.
    - apply populate_ok in Epop1 as (-> & old & d' & Eo & Ed & ->).
      cbn [hdf_obj] in Ed. injection Eo as <-.
      split; [reflexivity|]. exists d'. split; [reflexivity | exact Ed].
    - inversion Epop1; subst. split; [reflexivity|]. exists [].
      split; [reflexivity|].
      now rewrite (absent_attrs _ _ _ _ _ Hr Hp). }
  destruct P1 as (-> & d1 & -> & Ed1).
  inv_bind H. apply has_group_steps in E as (-> & -> & _).
  cbn [hdf_obj] in *. set (w3 := World _ _ _) in H.
  inv_bind H. rename E into Epop2, a into attrs2, w0 into w4.
  assert (F1 : w_file w1 = w_file w) by reflexivity.
  assert (F3 : w_file w3 = w_file w) by reflexivity.
  assert (P2 : w4 = w3
               /\ exists d2,
                   attrs2 = [(_MSI_GNAME, d1); (_DATA_GNAME, d2)]
                   /\ decode_items
                        (dupdate [] (attrs_at (w_file w)
                                       (hdf ++ [_DATA_GNAME])%list))
                        (dupdate [] (attrs_at (w_file w)
                                       (hdf ++ [_DATA_GNAME])%list))
                      = Ok d2).
  { rewrite F1 in Epop2.
    destruct (present (w_file w) hdf _DATA_GNAME) eqn:Hp.
    - apply populate_ok in Epop2 as (-> & old & d' & Eo & Ed & ->).
      cbn [hdf_obj] in Ed. injection Eo as <-. rewrite F3 in Ed.
      split; [reflexivity|]. exists d'. split; [reflexivity | exact Ed].
    - inversion Epop2; subst. split; [reflexivity|]. exists [].
      split; [reflexivity|].
      now rewrite (absent_attrs _ _ _ _ _ Hr Hp). }
  destruct P2 as (-> & d2 & -> & Ed2).
  (* the attach methods, under the installed filter *)
  pose proof H as Hwf.
  apply tagged_with_filter in Hwf as (Fw & Gw & post & Lw & Tw).
  2:{ apply tagged_bind; [apply tagged_attach_msi|]. intro.
      apply tagged_bind; [apply tagged_attach_digitizers|]. intro.
      apply tagged_bind; [apply tagged_attach_controls|]. intro.
      apply tagged_attach_unknowns. }
  apply with_filter_ok in H as (w5 & H & _).
  inv_bind H. rename E into Eam, a into s1, w0 into w6.
  inv_bind H. rename E into Ead, a into s2, w0 into w7.
  inv_bind H. rename E into Eac, a into s3, w0 into w8.
  pose proof (frame_attach_msi _ _ _ _ _ Eam) as (F6 & _).
  pose proof (frame_attach_digitizers _ _ _ _ _ Ead) as (F7 & _).
  pose proof (frame_attach_controls _ _ _ _ _ Eac) as (F8 & _).
  cbn [w_file] in F6.
  pose proof (attach_msi_ok _ _ _ _ _ Eam)
    as (O1 & A1 & _ & _ & _ & Pm).
  pose proof (attach_digitizers_ok _ _ _ _ _ Ead)
    as (O2 & A2 & M2 & _ & _ & Pd).
  pose proof (attach_controls_ok _ _ _ _ _ Eac)
    as (O3 & A3 & M3 & D3 & _ & Pc).
  pose proof (attach_unknowns_ok _ _ _ _ H) as (O4 & A4 & M4 & D4 & C4).
  simpl in O1, A1.
  assert (Hm : exists dm, msi s1 = Some dm).
  { destruct (present _ _ _) in Pm.
    - destruct Pm as (d & _ & _ & Hm). eauto.
    - destruct Pm as (Hm & _). eauto. }
  assert (Hd : exists dd, digitizers s2 = Some dd).
  { destruct (present _ _ _) in Pd.
    - destruct Pd as (d & _ & _ & Hd). eauto.
    - destruct Pd as (Hd & _). eauto. }
  assert (Hc : exists dc, controls s3 = Some dc).
  { destruct (present _ _ _) in Pc.
    - destruct Pc as (d & _ & _ & Hc). eauto.
    - destruct Pc as (Hc & _). eauto. }
  destruct Hm as [dm Hm], Hd as [dd Hd], Hc as [dc Hc].
  assert (Hm3 : msi s3 = Some dm) by congruence.
  assert (Hd3 : digitizers s3 = Some dd) by congruence.
  pose proof (attach_unknowns_value _ _ _ _ _ _ _ Hm3 Hd3 Hc H) as Hu.
  assert (O : hdf_obj s3 = hdf) by congruence.
  assert (F : w_file w8 = w_file w) by congruence.
  rewrite O, F in Hu.
  exists d1, d2, dm, dd, dc, post.
  split; [eauto|]. split; [now rewrite O4|].
  split; [now rewrite A4, A3, A2, A1|].
  split; [exact Ed1|]. split; [exact Ed2|].
  split; [now rewrite M4|]. split; [now rewrite D4|].
  split; [now rewrite C4|].
  split; [exact Hu|].
  split; [exact Fw|]. split; [exact Gw|]. split.
  - rewrite Lw. unfold w3, w1. cbn [w_warnings w_file w_filter].
    now rewrite <- !app_assoc.
  - exact Tw.
Qed.


(** *** The properties of the constructed object *)

(** X1: a file without the attribute 'LaPD HDF5 software version'
    is refused before anything else happens: the constructor raises
    ValueError, whatever [silent], and no group was looked for: the
    log of warnings, the filter and the file are as before. *)
Theorem hdfMap_refuses_other_files hdf silent w n :
  resolve (root (w_file w)) hdf = Some n ->
  dmem version_key (node_attrs n) = false ->
  init hdf silent w = (Raise ValueError, w).
Proof.
  intros Hr Hv. unfold HdfMap.init, is_lapd_hdf. cbn [hdf_obj].
  rewrite (bind_run _ _ _ _ _ (h5_has_attr_run _ _ _ _ Hr)).
  rewrite Hv. reflexivity.
Qed.

(** X2: on a constructed [hdfMap], [attrs] has the two keys 'MSI'
    and 'Raw data + config', and the entry of a group holds the
    attributes of that group in the file, under the same keys in
    the same order: a byte string is stored decoded, any other
    value is stored as it is.  The entry of a group that the file
    does not have is empty.  Attribute names are unique, as they
    are in a HDF5 file. *)
Theorem attrs_of_constructed hdf silent w m w' gname :
  init hdf silent w = (Ok m, w') ->
  gname = _MSI_GNAME \/ gname = _DATA_GNAME ->
  N5700.unique_names
    (dkeys (attrs_at (w_file w) (hdf ++ [gname])%list)) = true ->
  dkeys (attrs m) = [_MSI_GNAME; _DATA_GNAME]
  /\ exists d,
      dget gname (attrs m) = Some d
      /\ dkeys d = dkeys (attrs_at (w_file w) (hdf ++ [gname])%list)
      /\ (forall k,
             dget k d
             = option_map decoded_value
                 (dget k (attrs_at (w_file w) (hdf ++ [gname])%list)))
      /\ (forall k b,
             dget k (attrs_at (w_file w) (hdf ++ [gname])%list)
             = Some (PBytes b) ->
             exists s, PyStr.utf8_decode b = Some s
                       /\ dget k d = Some (PStr s))
      /\ (present (w_file w) hdf gname = false -> d = []).
Proof.
  intros H Hg Hu.
  destruct (init_steps _ _ _ _ _ H)
    as (d1 & d2 & dm & dd & dc & post & (a0 & ms & Hr) & _ & Ha & E1 & E2
        & _).
  apply N5700Facts.unique_names_NoDup in Hu.
  unfold attrs. rewrite Ha. split; [reflexivity|].
  assert (Hd : exists d,
             dget gname [(_MSI_GNAME, d1); (_DATA_GNAME, d2)] = Some d
             /\ decode_items
                  (attrs_at (w_file w) (hdf ++ [gname])%list)
                  (attrs_at (w_file w) (hdf ++ [gname])%list)
                = Ok d).
  { destruct Hg as [-> | ->].
    - exists d1. split; [reflexivity|]. now rewrite dupdate_nil in E1.
    - exists d2. split; [reflexivity|]. now rewrite dupdate_nil in E2. }
  destruct Hd as (d & Hget & Ed). exists d. split; [exact Hget|].
  destruct (decode_items_self _ _ Hu Ed) as (Hk & Hv & Hb).
  split; [exact Hk|]. split; [exact Hv|]. split.
  - intros k b Hkb. specialize (Hv k). rewrite Hkb in Hv.
    specialize (Hb k b Hkb). simpl in Hv.
    destruct (PyStr.utf8_decode b) as [s'|]; [eauto | congruence].
  - intro Hp. rewrite (absent_attrs _ _ _ _ _ Hr Hp) in Hk.
    destruct d; [reflexivity | discriminate].
Qed.

Lemma find_table (table : list (string * string)) key target :
  NoDup (map fst table) ->
  In (key, target) table ->
  find (fun kt => String.eqb key (fst kt)) table = Some (key, target).
Proof.
  induction table as [|[k t] table IH]; intros Hnd Hin; [destruct Hin|].
  inversion Hnd as [|? ? Hk Hnd']; subst. simpl.
  destruct Hin as [E|Hin].
  - injection E as -> ->. now rewrite String.eqb_refl.
  - destruct (String.eqb_spec key k) as [->|Hne]; [|auto].
    exfalso. apply Hk. apply in_map_iff. now exists (k, target).
Qed.

Lemma find_table_In (table : list (string * string)) key kt :
  find (fun kt => String.eqb key (fst kt)) table = Some kt ->
  In kt table /\ fst kt = key.
Proof.
  intro H. apply find_some in H as [Hin He].
  apply String.eqb_eq in He. auto.
Qed.

Lemma table_targets (table : list (string * string)) k1 k2 t :
  NoDup (map snd table) ->
  In (k1, t) table -> In (k2, t) table -> k1 = k2.
Proof.
  induction table as [|[k t'] table IH]; intros Hnd H1 H2; [destruct H1|].
  inversion Hnd as [|? ? Hk Hnd']; subst. simpl in Hk.
  destruct H1 as [E1|H1], H2 as [E2|H2].
  - congruence.
  - injection E1 as -> ->. exfalso. apply Hk. apply in_map_iff.
    now exists (k2, t).
  - injection E2 as -> ->. exfalso. apply Hk. apply in_map_iff.
    now exists (k1, t).
  - auto.
Qed.

(** The loop of [run_info] and [exp_info]: the entry of a branch is
    the item of its key, or stays as it was. *)
Lemma assign_info_get table :
  NoDup (map fst table) -> NoDup (map snd table) ->
  forall items info,
    NoDup (dkeys items) ->
    forall key target,
      In (key, target) table ->
      dget target (assign_info table items info)
      = match dget key items with
        | Some v => Some v
        | None => dget target info
        end.
Proof.
  intros Hf Hs. induction items as [|[k v] items IH];
    intros info Hnd key target Hin; [reflexivity|].
  inversion Hnd as [|? ? Hk Hnd']; subst.
  apply dget_None_not_In in Hk.
  cbn [assign_info dget]. rewrite (IH _ Hnd' key target Hin).
  destruct (String.eqb_spec key k) as [->|Hne].
  - rewrite Hk. unfold assign. rewrite (find_table _ _ _ Hf Hin).
    apply dget_dset_same.
  - destruct (dget key items); [reflexivity|].
    unfold assign.
    destruct (find (fun kt => String.eqb k (fst kt)) table)
      as [[k' t']|] eqn:Ef; [|reflexivity].
    apply find_table_In in Ef as [Hin' E]. simpl in E. subst k'.
    cbn [snd]. apply dget_dset_other. intros <-.
    apply Hne. exact (table_targets _ _ _ _ Hs Hin Hin').
Qed.

Lemma assign_info_keys table items : forall info,
  (forall kt, In kt table -> dget (snd kt) info <> None) ->
  dkeys (assign_info table items info) = dkeys info.
Proof.
  induction items as [|[k v] items IH]; intros info Ht; [reflexivity|].
  cbn [assign_info].
  assert (Hk : dkeys (assign table k v info) = dkeys info).
  { unfold assign.
    destruct (find (fun kt => String.eqb k (fst kt)) table)
      as [kt|] eqn:Ef; [|reflexivity].
    apply find_table_In in Ef as [Hin _].
    apply dkeys_dset_mem. now apply Ht. }
  rewrite IH; [exact Hk|].
  intros kt Hin. unfold assign.
  destruct (find (fun kt => String.eqb k (fst kt)) table)
    as [kt'|] eqn:Ef; [|now apply Ht].
  destruct (String.eqb_spec (snd kt) (snd kt')) as [->|Hne].
  - rewrite dget_dset_same. discriminate.
  - rewrite dget_dset_other by assumption. now apply Ht.
Qed.

(** The attributes of the data group as the object holds them. *)
Lemma data_attrs_of_constructed hdf silent w m w' :
  init hdf silent w = (Ok m, w') ->
  N5700.unique_names
    (dkeys (attrs_at (w_file w) (hdf ++ [_DATA_GNAME])%list)) = true ->
  exists d,
    getitem _DATA_GNAME (_attrs m) = Ok d
    /\ NoDup (dkeys d)
    /\ forall k,
        dget k d
        = option_map decoded_value
            (dget k (attrs_at (w_file w) (hdf ++ [_DATA_GNAME])%list)).
Proof.
  intros H Hu.
  destruct (init_steps _ _ _ _ _ H)
    as (d1 & d2 & dm & dd & dc & post & _ & _ & Ha & _ & E2 & _).
  apply N5700Facts.unique_names_NoDup in Hu.
  rewrite dupdate_nil in E2 by exact Hu.
  destruct (decode_items_self _ _ Hu E2) as (Hk & Hv & _).
  exists d2. rewrite Ha. split; [reflexivity|].
  split; [now rewrite Hk | exact Hv].
Qed.

Lemma info_entry table items info a key target :
  NoDup (map fst table) -> NoDup (map snd table) ->
  NoDup (dkeys items) ->
  (forall k, dget k items = option_map decoded_value (dget k a)) ->
  In (key, target) table ->
  dget target info = Some (PStr "") ->
  dget target (assign_info table items info)
  = Some (info_value a key).
Proof.
  intros Hf Hs Hnd Hv Hin Hi.
  rewrite (assign_info_get table Hf Hs items info Hnd key target Hin).
  unfold info_value. rewrite Hv.
  destruct (dget key a); [reflexivity | exact Hi].
Qed.

Ltac table_NoDup :=
  repeat (constructor; [simpl; intuition discriminate|]); constructor.

(** X3: on a constructed [hdfMap], [run_info] has the four keys
    'run name', 'run description', 'run status' and 'run date', and
    their values are the attributes 'Data run', 'Description',
    'Status' and 'Status date' of the data group as the object
    stores them (a byte string decoded), or the empty string where
    the group has no such attribute or the file has no data group. *)
Theorem run_info_of_constructed hdf silent w m w' :
  init hdf silent w = (Ok m, w') ->
  N5700.unique_names
    (dkeys (attrs_at (w_file w) (hdf ++ [_DATA_GNAME])%list)) = true ->
  let a := attrs_at (w_file w) (hdf ++ [_DATA_GNAME])%list in
  exists ri,
    run_info m = Ok ri
    /\ dkeys ri
       = ["run name"; "run description"; "run status"; "run date"]
    /\ dget "run name" ri = Some (info_value a "Data run")
    /\ dget "run description" ri = Some (info_value a "Description")
    /\ dget "run status" ri = Some (info_value a "Status")
    /\ dget "run date" ri = Some (info_value a "Status date").
Proof.
  intros H Hu a.
  destruct (data_attrs_of_constructed _ _ _ _ _ H Hu) as (d & Hg & Hnd & Hv).
  unfold run_info. rewrite Hg. cbn [rbind]. eexists.
  split; [reflexivity|].
  assert (Hf : NoDup (map fst run_info_table)) by table_NoDup.
  assert (Hs : NoDup (map snd run_info_table)) by table_NoDup.
  split.
  { apply assign_info_keys. intros kt Hin.
    repeat (destruct Hin as [<-|Hin]; [discriminate|]). destruct Hin. }
  repeat split;
    apply (info_entry run_info_table d _ a _ _ Hf Hs Hnd Hv);
    try reflexivity; simpl; tauto.
Qed.

(** X4: on a constructed [hdfMap], [exp_info] has the five keys
    'investigator', 'exp name', 'exp description', 'exp set name'
    and 'exp set description', and their values are the attributes
    'Investigator', 'Experiment name', 'Experiment description',
    'Experiment set name' and 'Experiment set description' of the
    data group as the object stores them, or the empty string
    where there is none. *)
Theorem exp_info_of_constructed hdf silent w m w' :
  init hdf silent w = (Ok m, w') ->
  N5700.unique_names
    (dkeys (attrs_at (w_file w) (hdf ++ [_DATA_GNAME])%list)) = true ->
  let a := attrs_at (w_file w) (hdf ++ [_DATA_GNAME])%list in
  exists ei,
    exp_info m = Ok ei
    /\ dkeys ei
       = ["investigator"; "exp name"; "exp description"; "exp set name";
          "exp set description"]
    /\ dget "investigator" ei = Some (info_value a "Investigator")
    /\ dget "exp name" ei = Some (info_value a "Experiment name")
    /\ dget "exp description" ei
       = Some (info_value a "Experiment description")
    /\ dget "exp set name" ei
       = Some (info_value a "Experiment set name")
    /\ dget "exp set description" ei
       = Some (info_value a "Experiment set description").
Proof.
  intros H Hu a.
  destruct (data_attrs_of_constructed _ _ _ _ _ H Hu) as (d & Hg & Hnd & Hv).
  unfold exp_info. rewrite Hg. cbn [rbind]. eexists.
  split; [reflexivity|].
  assert (Hf : NoDup (map fst exp_info_table)) by table_NoDup.
  assert (Hs : NoDup (map snd exp_info_table)) by table_NoDup.
  split.
  { apply assign_info_keys. intros kt Hin.
    repeat (destruct Hin as [<-|Hin]; [discriminate|]). destruct Hin. }
  repeat split;
    apply (info_entry exp_info_table d _ a _ _ Hf Hs Hnd Hv);
    try reflexivity; simpl; tauto.
Qed.

(** X5: on a constructed [hdfMap], [unknowns] lists, in this order,
    the path names of the members of the file that are neither
    'MSI' nor 'Raw data + config', of the members of the group
    'MSI' that are no key of [msi], and of the members of the group
    'Raw data + config' that are no key of [digitizers] or of
    [controls]; each part follows the order of the file, and a
    group that the file does not have gives nothing. *)
Theorem unknowns_of_constructed hdf silent w m w' :
  init hdf silent w = (Ok m, w') ->
  exists dm dd dc,
    msi m = Some dm /\ digitizers m = Some dd /\ controls m = Some dc
    /\ unknowns m
       = Some (unknown_names (w_file w) hdf [_MSI_GNAME; _DATA_GNAME]
               ++ (if present (w_file w) hdf _MSI_GNAME
                   then unknown_names (w_file w) (hdf ++ [_MSI_GNAME])
                                      (dkeys dm)
                   else [])
               ++ (if present (w_file w) hdf _DATA_GNAME
                   then unknown_names (w_file w) (hdf ++ [_DATA_GNAME])
                                      (dkeys dd ++ dkeys dc)
                   else []))%list.
Proof.
  intro H.
  destruct (init_steps _ _ _ _ _ H)
    as (d1 & d2 & dm & dd & dc & post & _ & _ & _ & _ & _ & Hm & Hd & Hc
        & Hu & _).
  exists dm, dd, dc. auto.
Qed.

(** X6: on a constructed [hdfMap] the properties
    [has_msi_diagnostics], [has_digitizers], [has_controls] and
    [has_unknowns] return a boolean: the attributes they measure
    are set.  A file without the group 'MSI' has no MSI
    diagnostics; a file without the group 'Raw data + config' has
    no digitizers, no controls and no main digitizer. *)
Theorem has_devices_of_constructed hdf silent w m w' :
  init hdf silent w = (Ok m, w') ->
  (exists b1 b2 b3 b4,
      has_msi_diagnostics m = Ok b1 /\ has_digitizers m = Ok b2
      /\ has_controls m = Ok b3 /\ has_unknowns m = Ok b4)
  /\ (present (w_file w) hdf _MSI_GNAME = false ->
      has_msi_diagnostics m = Ok false)
  /\ (present (w_file w) hdf _DATA_GNAME = false ->
      has_digitizers m = Ok false /\ has_controls m = Ok false
      /\ forall w2, main_digitizer m w2 = (Ok None, w2)).
Proof.
  intro H.
  destruct (init_steps _ _ _ _ _ H)
    as (d1 & d2 & dm & dd & dc & post & _ & _ & _ & _ & _ & Hm & Hd & Hc
        & Hu & _).
  destruct (init_ok _ _ _ _ _ _ _ _ H) as (_ & _ & Pm & Pd).
  unfold has_msi_diagnostics, has_digitizers, has_controls, has_unknowns,
    main_digitizer.
  split; [|split].
  - rewrite Hm, Hd, Hc, Hu. cbn [len_of rbind]. eauto 10.
  - intro Hp. rewrite Hp in Pm. destruct Pm as [-> _]. reflexivity.
  - intro Hp. rewrite Hp in Pd. destruct Pd as (-> & -> & _).
    repeat split.
Qed.

(** X7: [silent] covers the attach methods only.  The presence
    checks that [__init__] runs before them warn under the filter
    of the caller: after a construction the log holds first, under
    that filter, the warning for each of 'MSI' and
    'Raw data + config' that the file does not have, then the
    warnings of the attach methods, which all carry the filter
    'ignore' when [silent] is set and 'default' when it is not; the
    filter of the caller is in force again afterwards.  A warning
    of one of the three collections counts as issued under the
    filter in force when the collection is called. *)
Theorem silent_covers_attach_only hdf silent w m w' :
  init hdf silent w = (Ok m, w') ->
  w_filter w' = w_filter w
  /\ exists post,
      w_warnings w'
      = (w_warnings w
         ++ absent_warning (w_file w) hdf (w_filter w) _MSI_GNAME
         ++ absent_warning (w_file w) hdf (w_filter w) _DATA_GNAME
         ++ post)%list
      /\ Forall (fun x => wn_filter x
                          = if silent then FilterIgnore else FilterDefault)
                post.
Proof.
  intro H.
  destruct (init_steps _ _ _ _ _ H)
    as (d1 & d2 & dm & dd & dc & post & _ & _ & _ & _ & _ & _ & _ & _
        & _ & _ & G & L & T).
  split; [exact G|]. exists post. auto.
Qed.


(** *** [silent] and the outcome *)

Lemma same_has_group (self : hdfMap) gname :
  same (has_group self gname) (has_group self gname).
Proof.
  unfold has_group. apply same_bind; [apply same_read|].
  intros [|]; simpl; [apply same_ret|].
  apply same_bind; [apply same_read|]. intro.
  apply same_bind; [apply same_warn|]. intro. apply same_ret.
Qed.

Lemma same_populate (self : hdfMap) gname attrs :
  same (populate self gname attrs) (populate self gname attrs).
Proof.
  unfold populate. apply same_bind; [apply same_read|]. intro.
  apply same_bind; [apply same_read|]. intro.
  apply same_bind; [apply same_lift|]. intro.
  apply same_bind; [apply same_lift|]. intro. apply same_ret.
Qed.

Lemma same_scan_unknowns g knowns acc :
  same g g ->
  same (scan_unknowns g knowns acc) (scan_unknowns g knowns acc).
Proof.
  intro Hg. unfold scan_unknowns.
  apply same_bind; [exact Hg|]. intro p.
  apply same_bind; [apply same_read|]. intro items.
  apply same_bind.
  - apply same_for_each. intros item u.
    destruct (negb (str_in_list item knowns)); [|apply same_ret].
    apply same_bind; [exact Hg|]. intro.
    apply same_bind; [apply same_read|]. intro.
    apply same_bind; [apply same_read|]. intro. apply same_ret.
  - intros [u|u]; apply same_ret.
Qed.

Lemma same_attach (self : hdfMap) :
  same (self <- __attach_msi HDFMapMSI self ;;
        self <- __attach_digitizers hdfMap_digitizers self ;;
        self <- __attach_controls HDFMapControls self ;;
        __attach_unknowns self)
       (self <- __attach_msi HDFMapMSI self ;;
        self <- __attach_digitizers hdfMap_digitizers self ;;
        self <- __attach_controls HDFMapControls self ;;
        __attach_unknowns self).
Proof.
  apply same_bind.
  { unfold __attach_msi, has_msi_group.
    apply same_bind; [apply same_has_group|].
    intros [|]; [|apply same_ret].
    apply same_bind; [apply same_read|]. intro.
    apply same_bind; [apply same_construct|]. intro. apply same_ret. }
  intro s1. apply same_bind.
  { unfold __attach_digitizers, has_data_group.
    apply same_bind; [apply same_has_group|].
    intros [|]; [|apply same_ret].
    apply same_bind; [apply same_read|]. intro.
    apply same_bind; [apply same_construct|]. intro. apply same_ret. }
  intro s2. apply same_bind.
  { unfold __attach_controls, has_data_group.
    apply same_bind; [apply same_has_group|].
    intros [|]; [|apply same_ret].
    apply same_bind; [apply same_read|]. intro.
    apply same_bind; [apply same_construct|]. intro. apply same_ret. }
  intro s3. unfold __attach_unknowns, has_msi_group, has_data_group.
  apply same_bind; [apply same_scan_unknowns, same_ret|]. intro u.
  apply same_bind; [apply same_has_group|]. intro b.
  apply same_bind.
  { destruct b; [|apply same_ret].
    apply same_bind; [apply same_attribute|]. intro.
    apply same_scan_unknowns, same_read. }
  intro u'. apply same_bind; [apply same_has_group|]. intro b'.
  apply same_bind; [|intro; apply same_ret].
  destruct b'; [|apply same_ret].
  apply same_bind; [apply same_attribute|]. intro.
  apply same_bind; [apply same_attribute|]. intro.
  apply same_scan_unknowns, same_read.
Qed.

Lemma same_init hdf s1 s2 : same (init hdf s1) (init hdf s2).
Proof.
  unfold HdfMap.init, is_lapd_hdf, has_msi_group, has_data_group.
  apply same_bind.
  { unfold h5_has_attr. apply same_bind; [apply same_read|].
    intro. apply same_ret. }
  intros [|]; simpl negb; cbv iota.
  2:{ apply same_bind; [apply same_read|]. intro. apply same_raise. }
  apply same_bind; [apply same_has_group|]. intro b.
  apply same_bind.
  { destruct b; [apply same_populate | apply same_ret]. }
  intro attrs. apply same_bind; [apply same_has_group|]. intro b'.
  apply same_bind.
  { destruct b'; [apply same_populate | apply same_ret]. }
  intro attrs'. apply same_with_filter, same_attach.
Qed.

(** X22: [silent] changes nothing but the filter.  With
    [silent] set or not, on the same file, the constructor has the
    same outcome, the same object or the same exception, and
    issues the same warning messages in the same order. *)
Theorem silent_changes_no_outcome hdf w :
  fst (init hdf true w) = fst (init hdf false w)
  /\ map wn_message (w_warnings (snd (init hdf true w)))
     = map wn_message (w_warnings (snd (init hdf false w))).
Proof.
  destruct (init hdf true w) as [r1 w1] eqn:E1.
  destruct (init hdf false w) as [r2 w2] eqn:E2.
  destruct (same_init hdf true false _ _ _ _ _ _ eq_refl E1 E2)
    as (Hr & _ & _ & ws1 & ws2 & L1 & L2 & Hw).
  split; [exact Hr|]. cbn [snd]. now rewrite L1, L2, !map_app, Hw.
Qed.

End Facts.

End HdfMapPropsFacts.

Module HdfMapPropsExamples.
Import Py H5 Eff HdfMap HdfMapProps HdfMapPropsFacts Samples MoreSamples.

Local Abbreviation sample_init :=
  (HdfMap.init (known_collection msi_names)
               (known_collection digitizer_names)
               (known_collection control_names)).

Lemma hdfMap_refuses_other_files_witness :
  sample_init [] true (start other_lapd_file)
  = (Raise ValueError, start other_lapd_file).
Proof.
  apply (hdfMap_refuses_other_files
           (known_collection msi_names)
           (known_collection digitizer_names)
           (known_collection control_names)
           [] true (start other_lapd_file) (root other_lapd_file));
    reflexivity.
Defined.

Lemma attrs_of_constructed_witness :
  exists m w' d,
    sample_init [] false (start described_file) = (Ok m, w')
    /\ dget _DATA_GNAME (attrs m) = Some d
    /\ dkeys d = ["Data run"; "Description"; "Investigator";
                  "Experiment name"; "Shots"]
    /\ dget "Description" d = Some (PStr "a run")
    /\ dget "Shots" d = Some (PInt 10).
Proof.
  destruct (sample_init [] false (start described_file))
    as [[m|e] w'] eqn:E; [|vm_compute in E; discriminate].
  destruct (attrs_of_constructed
              (known_collection msi_names)
              (known_collection digitizer_names)
              (known_collection control_names)
              [] false (start described_file) m w' _DATA_GNAME E
              (or_intror eq_refl) eq_refl)
    as (_ & d & Hd & Hk & Hv & _).
  exists m, w', d. split; [reflexivity|]. split; [exact Hd|].
  split; [exact Hk|]. split; apply Hv.
Defined.

Lemma run_info_of_constructed_witness :
  exists m w' ri,
    sample_init [] false (start described_file) = (Ok m, w')
    /\ run_info m = Ok ri
    /\ dget "run name" ri = Some (PStr "run 12")
    /\ dget "run description" ri = Some (PStr "a run")
    /\ dget "run status" ri = Some (PStr "").
Proof.
  destruct (sample_init [] false (start described_file))
    as [[m|e] w'] eqn:E; [|vm_compute in E; discriminate].
  destruct (run_info_of_constructed
              (known_collection msi_names)
              (known_collection digitizer_names)
              (known_collection control_names)
              [] false (start described_file) m w' E eq_refl)
    as (ri & Hr & _ & Hn & Hd & Hs & _).
  exists m, w', ri. repeat split; assumption.
Defined.

Lemma exp_info_of_constructed_witness :
  exists m w' ei,
    sample_init [] false (start described_file) = (Ok m, w')
    /\ exp_info m = Ok ei
    /\ dget "investigator" ei = Some (PStr "Everson")
    /\ dget "exp name" ei = Some (PStr "waves")
    /\ dget "exp description" ei = Some (PStr "").
Proof.
  destruct (sample_init [] false (start described_file))
    as [[m|e] w'] eqn:E; [|vm_compute in E; discriminate].
  destruct (exp_info_of_constructed
              (known_collection msi_names)
              (known_collection digitizer_names)
              (known_collection control_names)
              [] false (start described_file) m w' E eq_refl)
    as (ei & Hr & _ & Hi & Hn & Hd & _).
  exists m, w', ei. repeat split; assumption.
Defined.

Lemma unknowns_of_constructed_witness :
  exists m w',
    sample_init [] false (start described_file) = (Ok m, w')
    /\ unknowns m
       = Some ["/Notes"; "/MSI/Langmuir probe";
               "/Raw data + config/Data run sequence"].
Proof.
  destruct (sample_init [] false (start described_file))
    as [[m|e] w'] eqn:E; [|vm_compute in E; discriminate].
  destruct (unknowns_of_constructed
              (known_collection msi_names)
              (known_collection digitizer_names)
              (known_collection control_names)
              [] false (start described_file) m w' E)
    as (dm & dd & dc & Hm & Hd & Hc & Hu).
  exists m, w'. split; [reflexivity|]. rewrite Hu.
  vm_compute in E. injection E as <- _.
  injection Hm as <-. injection Hd as <-. injection Hc as <-.
  reflexivity.
Defined.

Lemma has_devices_of_constructed_witness :
  exists m w',
    sample_init [] false (start bare_file) = (Ok m, w')
    /\ has_msi_diagnostics m = Ok false
    /\ has_digitizers m = Ok false /\ has_controls m = Ok false
    /\ main_digitizer m w' = (Ok None, w').
Proof.
  destruct (sample_init [] false (start bare_file))
    as [[m|e] w'] eqn:E; [|vm_compute in E; discriminate].
  destruct (has_devices_of_constructed
              (known_collection msi_names)
              (known_collection digitizer_names)
              (known_collection control_names)
              [] false (start bare_file) m w' E)
    as (_ & Hm & Hd).
  destruct (Hd eq_refl) as (Hd1 & Hd2 & Hd3).
  exists m, w'. repeat split; auto.
Defined.

Lemma silent_covers_attach_only_witness :
  exists m w' post,
    sample_init [] true (start bare_file) = (Ok m, w')
    /\ w_filter w' = FilterDefault
    /\ w_warnings w'
       = ([Warning FilterDefault "No MSI group found in bare.hdf5";
           Warning FilterDefault
                   "No Raw data + config group found in bare.hdf5"]
          ++ post)%list
    /\ Forall (fun x => wn_filter x = FilterIgnore) post.
Proof.
  destruct (sample_init [] true (start bare_file))
    as [[m|e] w'] eqn:E; [|vm_compute in E; discriminate].
  destruct (silent_covers_attach_only
              (known_collection msi_names)
              (known_collection digitizer_names)
              (known_collection control_names)
              [] true (start bare_file) m w' E)
    as (G & post & L & T).
  exists m, w', post. repeat split; assumption.
Defined.

End HdfMapPropsExamples.

(** ** Lines and surrounding whitespace *)

Module PyStrStripFacts.
Import PyStr PyStrFacts N5700Props.

Lemma rev_app (a b : string) : rev (a ++ b) = rev b ++ rev a.
Proof.
  induction a as [|c a IH]; simpl.
  - now rewrite sapp_nil_r.
  - now rewrite IH, sapp_assoc.
Qed.

Lemma rev_involutive (s : string) : rev (rev s) = s.
Proof.
  induction s as [|c s IH]; simpl; [reflexivity|].
  rewrite rev_app, IH. reflexivity.
Qed.

Lemma all_chars_rev p (s : string) : all_chars p (rev s) = all_chars p s.
Proof.
  induction s as [|c s IH]; simpl; [reflexivity|].
  rewrite all_chars_app, IH. simpl. rewrite andb_true_r. apply andb_comm.
Qed.

Lemma all_chars_lstrip p (s : string) :
  all_chars p s = true -> all_chars p (lstrip s) = true.
Proof.
  induction s as [|c s IH]; simpl; [auto|].
  intro H. apply andb_true_iff in H as [Hc Hs].
  destruct (is_space c); [auto|]. simpl. now rewrite Hc, Hs.
Qed.

Lemma all_chars_strip p (s : string) :
  all_chars p s = true -> all_chars p (strip s) = true.
Proof.
  intro H. unfold strip, rstrip. rewrite all_chars_rev.
  apply all_chars_lstrip. rewrite all_chars_rev.
  now apply all_chars_lstrip.
Qed.

Lemma starts_clean_lstrip (s : string) : starts_clean (lstrip s) = true.
Proof.
  induction s as [|c s IH]; simpl; [reflexivity|].
  destruct (is_space c) eqn:E; [exact IH|]. simpl. now rewrite E.
Qed.

Lemma lstrip_clean (s : string) : starts_clean s = true -> lstrip s = s.
Proof.
  destruct s as [|c s]; simpl; [reflexivity|].
  intro H. apply negb_true_iff in H. now rewrite H.
Qed.

Lemma lstrip_snoc (u : string) c :
  is_space c = false ->
  lstrip (u ++ String c EmptyString) = lstrip u ++ String c EmptyString.
Proof.
  intro Hc. induction u as [|d u IH]; simpl.
  - now rewrite Hc.
  - destruct (is_space d); [exact IH | reflexivity].
Qed.

Lemma starts_clean_rstrip (s : string) :
  starts_clean s = true -> starts_clean (rstrip s) = true.
Proof.
  unfold rstrip. destruct s as [|c s]; simpl; [reflexivity|].
  intro H. apply negb_true_iff in H.
  rewrite lstrip_snoc by exact H. rewrite rev_app. simpl. now rewrite H.
Qed.

(** [strip] leaves no whitespace at either end. *)
Lemma strip_no_outer_space (s : string) :
  no_outer_space (strip s) = true.
Proof.
  unfold no_outer_space. apply andb_true_iff. split.
  - unfold strip. apply starts_clean_rstrip, starts_clean_lstrip.
  - unfold strip, rstrip. rewrite rev_involutive.
    apply starts_clean_lstrip.
Qed.

Lemma strip_clean (s : string) : no_outer_space s = true -> strip s = s.
Proof.
  unfold no_outer_space. intro H. apply andb_true_iff in H as [H1 H2].
  unfold strip, rstrip. rewrite (lstrip_clean s H1).
  rewrite (lstrip_clean (rev s) H2). apply rev_involutive.
Qed.

Lemma strip_idempotent (s : string) : strip (strip s) = strip s.
Proof. apply strip_clean, strip_no_outer_space. Qed.

(** No line of [splitlines] holds a line boundary. *)
Lemma splitlines_aux_no_linebreak n : forall s cur,
  String.length s <= n ->
  no_linebreak (rev cur) = true ->
  forall x, In x (splitlines_aux cur s) -> no_linebreak x = true.
Proof.
  induction n as [|n IH]; intros s cur Hn Hcur x Hin.
  - destruct s; [|simpl in Hn; lia]. simpl in Hin.
    destruct cur; [destruct Hin|].
    destruct Hin as [<-|[]]. exact Hcur.
  - destruct s as [|c s]; simpl in Hin.
    + destruct cur; [destruct Hin|].
      destruct Hin as [<-|[]]. exact Hcur.
    + simpl in Hn. destruct (is_linebreak c) eqn:Ec.
      * destruct s as [|d s'].
        -- destruct Hin as [<-|[]]. exact Hcur.
        -- simpl in Hn.
           destruct (Nat.eqb (code c) 13 && Nat.eqb (code d) 10);
             destruct Hin as [<-|Hin]; try exact Hcur.
           ++ apply (IH s' EmptyString); [lia | reflexivity | exact Hin].
           ++ apply (IH (String d s') EmptyString);
                [simpl; lia | reflexivity | exact Hin].
      * apply (IH s (String c cur)); [lia | | exact Hin].
        unfold no_linebreak in *. simpl. rewrite all_chars_app, Hcur.
        simpl. now rewrite Ec.
Qed.

Lemma splitlines_no_linebreak (s x : string) :
  In x (splitlines s) -> no_linebreak x = true.
Proof.
  apply (splitlines_aux_no_linebreak (String.length s));
    [lia | reflexivity].
Qed.

(** The items of a command list: stripped lines. *)
Lemma stripped_lines_clean (s : string) :
  Forall (fun cl => strip cl = cl
                    /\ no_outer_space cl = true
                    /\ no_linebreak cl = true)
         (map strip (splitlines s)).
Proof.
  apply Forall_forall. intros cl Hin. apply in_map_iff in Hin.
  destruct Hin as (x & <- & Hx). split; [apply strip_idempotent|].
  split; [apply strip_no_outer_space|].
  apply all_chars_strip. exact (splitlines_no_linebreak s x Hx).
Qed.

End PyStrStripFacts.

(** ** More on the control device 'N5700_PS' *)

Module N5700PropsFacts.
Import Py PyFacts H5 Eff EffFacts ComputesFacts ControlTemplate N5700
  N5700Facts N5700Props PyStrStripFacts.

Local Open Scope eff_scope.

Section Build.
Variable construct :
  mapper -> string -> list Re.regex -> result (dict pyval).

Lemma frame_map_attr name cong pair self :
  frame (map_attr name cong pair self).
Proof.
  unfold map_attr. apply frame_try_except.
  - frame_tac.
  - apply frame_bind; [auto with frame|]. intro.
    destruct (negb _); frame_tac.
Qed.

Lemma frame_define_dataset_values name dset self :
  frame (define_dataset_values construct name dset self).
Proof.
  unfold define_dataset_values.
  apply frame_bind; [auto with frame|]. intro.
  apply frame_bind; [auto with frame|]. intro.
  apply frame_bind; [auto with frame|]. intro.
  apply frame_bind; [auto with frame|]. intro.
  apply frame_bind; [auto with frame|]. intro.
  apply frame_bind.
  { apply frame_with_filter, frame_try_except; auto with frame. }
  intros [|x l]; frame_tac.
Qed.

Lemma frame_map_config name self :
  frame (map_config construct name self).
Proof.
  unfold map_config.
  apply frame_bind; [auto with frame|]. intro cong.
  apply frame_bind.
  { apply frame_try_except; frame_tac. }
  intros [dset|]; [|auto with frame].
  apply frame_bind.
  { apply frame_for_each. intros. apply frame_map_attr. }
  intros [s|s]; [apply frame_define_dataset_values | auto with frame].
Qed.

Lemma frame_sgroup_names self : frame (sgroup_names self).
Proof. unfold sgroup_names. frame_tac. Qed.

Lemma frame_build_configs self : frame (_build_configs construct self).
Proof.
  unfold _build_configs.
  apply frame_bind; [apply frame_sgroup_names|]. intro names.
  destruct (Nat.eqb _ 0); [frame_tac|].
  apply frame_bind; [apply frame_sgroup_names|]. intro names'.
  apply frame_bind.
  { apply frame_for_each. intros. apply frame_map_config. }
  intros [s|s]; auto with frame.
Qed.

(** X8: building the N5700 mapping leaves the open file as it is,
    whatever the control group, the helper and the outcome; the
    warning filter in force before the call is in force after it
    (the 'ignore' filter around the state-values helper does not
    leak), and the log of warnings only grows. *)
Theorem n5700_init_keeps_file_and_filter gp w :
  w_file (snd (init construct gp w)) = w_file w
  /\ w_filter (snd (init construct gp w)) = w_filter w
  /\ exists ws,
      w_warnings (snd (init construct gp w)) = (w_warnings w ++ ws)%list.
Proof.
  destruct (init construct gp w) as [r w'] eqn:E.
  exact (frame_build_configs _ _ _ _ E).
Qed.

(** *** A build that fails *)

Lemma pure_ret {A} (a : A) : pure (ret a).
Proof. intros w r w' H. now inversion H. Qed.

Lemma pure_read {A} (g : file -> result A) : pure (read g).
Proof. intros w r w' H. now inversion H. Qed.

Lemma pure_bind {A B} (m : M A) (k : A -> M B) :
  pure m -> (forall a, pure (k a)) -> pure (bind m k).
Proof.
  intros Hm Hk w r w' H. unfold bind in H.
  destruct (m w) as [[a|e] w1] eqn:E.
  - apply Hm in E. subst w1. exact (Hk a _ _ _ H).
  - inversion H; subst. exact (Hm _ _ _ E).
Qed.

Lemma pure_filterM {X} (p : X -> M bool) xs :
  (forall x, pure (p x)) -> pure (filterM p xs).
Proof.
  intro Hp. induction xs as [|x xs IH]; simpl.
  - apply pure_ret.
  - apply pure_bind; [apply Hp|]. intro b.
    apply pure_bind; [exact IH|]. intro. apply pure_ret.
Qed.

Lemma pure_sgroup_names self : pure (sgroup_names self).
Proof.
  unfold sgroup_names. apply pure_bind; [apply pure_read|]. intro keys.
  apply pure_filterM. intro k.
  apply pure_bind; [apply pure_read|]. intro. apply pure_read.
Qed.

Lemma sgroup_names_run self a ms w :
  resolve (root (w_file w)) (group self) = Some (Group a ms) ->
  sgroup_names self w = (Ok (subgroup_names ms), w).
Proof.
  intro Hr.
  destruct (computes_sgroup_names (w_file w) self a ms Hr w eq_refl)
    as (w1 & E & _).
  pose proof (pure_sgroup_names self _ _ _ E) as ->. exact E.
Qed.

(** X9: a build that cannot start fails in one step.  When the
    control group has no subgroup, or has no member
    'Run time list', [__init__] returns, whatever the attributes
    of the configuration groups, with [_build_successful] False
    and [configs] empty, and issues exactly one warning, under the
    filter of the caller: that there is no mappable configuration,
    or that the dataset was not found for the first subgroup. *)
Theorem build_fails_before_mapping gp a ms w :
  resolve (root (w_file w)) gp = Some (Group a ms) ->
  subgroup_names ms = [] \/ lookup construct_dataset_name ms = None ->
  exists s',
    init construct gp w
    = (Ok s',
       World (w_file w) (w_filter w)
             (w_warnings w
              ++ [Warning (w_filter w)
                          (early_failure_warning ms (new_object gp))]))
    /\ build_successful s' = Some false
    /\ configs s' = [].
Proof.
  intros Hr Hf. unfold init, _build_configs. cbv zeta.
  assert (Hr' : resolve (root (w_file w))
                        (group (set_build_successful true (new_object gp)))
                = Some (Group a ms)) by exact Hr.
  rewrite (bind_run _ _ _ _ _ (sgroup_names_run _ _ _ _ Hr')).
  unfold early_failure_warning.
  destruct (subgroup_names ms) as [|x names] eqn:En.
  - cbn [List.length Nat.eqb]. eexists. split; [reflexivity|].
    split; reflexivity.
  - destruct Hf as [Hf|Hf]; [discriminate|].
    cbn [List.length Nat.eqb].
    rewrite (bind_run _ _ _ _ _ (sgroup_names_run _ _ _ _ Hr')).
    rewrite En.
    assert (Hx : In x (subgroup_names ms)) by (rewrite En; now left).
    destruct (subgroup_names_lookup _ _ Hx) as (n & Hl & _).
    set (self := set_build_successful true (new_object gp)).
    assert (E : map_config construct x self w
                = (Ok (Return (set_build_successful false self)),
                   World (w_file w) (w_filter w)
                         (w_warnings w
                          ++ [Warning (w_filter w)
                                      (dataset_warning self x)]))).
    { unfold map_config, bind, try_except, h5_getitem.
      change (group self) with gp.
      rewrite !read_run. unfold node_at. rewrite Hr.
      rewrite Hl, Hf. reflexivity. }
    assert (Ef : for_each (x :: names) (map_config construct) self w
                 = (Ok (Return (set_build_successful false self)),
                    World (w_file w) (w_filter w)
                          (w_warnings w
                           ++ [Warning (w_filter w)
                                       (dataset_warning self x)]))).
    { cbn [for_each]. now rewrite (bind_run _ _ _ _ _ E). }
    rewrite (bind_run _ _ _ _ _ Ef).
    eexists. split; [reflexivity|]. split; reflexivity.
Qed.


Lemma fill_attrs_return a c :
  fill_attrs a pairs [] = Ok (Return c) ->
  c = partial_entry a /\ dget command_list_attr a = None.
Proof.
  unfold fill_attrs, pairs, partial_entry, metadata_value,
    command_list_attr, fill_attr.
  simpl.
  destruct (dget "IP address" a) as [v1|];
    [destruct (decode_utf8 v1) as [r1|e1]|]; simpl; try discriminate.
  all: destruct (dget "Model Number" a) as [v2|];
    [destruct (decode_utf8 v2) as [r2|e2]|]; simpl; try discriminate.
  all: destruct (dget "Initialization commands" a) as [v3|];
    [destruct (decode_utf8 v3) as [r3|e3]|]; simpl; try discriminate.
  all: destruct (dget "N5700 power supply command list" a) as [v4|];
    [destruct (decode_command_list v4) as [r4|e4]|]; simpl;
    try discriminate.
  all: intro H; injection H as <-; split; reflexivity.
Qed.

Lemma config_step_return_entry ms name s s' dn :
  lookup construct_dataset_name ms = Some dn ->
  config_step construct ms name s = Ok (Return s') ->
  exists cong,
    lookup name ms = Some cong
    /\ dget command_list_attr (node_attrs cong) = None
    /\ s' = set_build_successful false
              (with_entry s name (partial_entry (node_attrs cong))).
Proof.
  intros Hd. unfold config_step. rewrite Hd.
  destruct (lookup name ms) as [cong|]; [|discriminate].
  destruct (fill_attrs (node_attrs cong) pairs []) as [[c|c]|e] eqn:Ef;
    try discriminate.
  - destruct (finish_config construct s name dn c); discriminate.
  - intro H. injection H as <-.
    destruct (fill_attrs_return _ _ Ef) as [-> Hn]. eauto.
Qed.

Lemma config_loop_return_entry ms dn names : forall s s',
  lookup construct_dataset_name ms = Some dn ->
  config_loop construct ms names s = Ok (Return s') ->
  exists name cong,
    In name names /\ lookup name ms = Some cong
    /\ dget command_list_attr (node_attrs cong) = None
    /\ dget name (configs s')
       = Some (PDict (partial_entry (node_attrs cong))).
Proof.
  induction names as [|x names IH]; intros s s' Hd; [discriminate|].
  rewrite config_loop_cons.
  destruct (config_step construct ms x s) as [[s1|s1]|e] eqn:E;
    [| |discriminate].
  - intro H. destruct (IH _ _ Hd H) as (name & cong & Hin & Hrest).
    exists name, cong. split; [now right | exact Hrest].
  - intro H. injection H as <-.
    destruct (config_step_return_entry _ _ _ _ _ Hd E)
      as (cong & Hl & Hn & ->).
    exists x, cong. split; [now left|]. split; [exact Hl|].
    split; [exact Hn|]. simpl. apply dget_dset_same.
Qed.

(** X10: a failed build is not undone.  When the control group
    has subgroups and the dataset 'Run time list', a build that
    ends with [_build_successful] False stopped at a configuration
    group without the attribute 'N5700 power supply command list',
    and [configs] keeps the entry begun for that group: it holds
    'IP address', 'power supply device' and 'initial state' as
    read, 'command list' None, and none of 'dset paths', 'shotnum'
    and 'state values'. *)
Theorem failed_build_keeps_partial_entry gp a ms dn w s' w' :
  resolve (root (w_file w)) gp = Some (Group a ms) ->
  lookup construct_dataset_name ms = Some dn ->
  subgroup_names ms <> [] ->
  init construct gp w = (Ok s', w') ->
  build_successful s' = Some false ->
  exists name cong,
    In name (subgroup_names ms) /\ lookup name ms = Some cong
    /\ dget command_list_attr (node_attrs cong) = None
    /\ dget name (configs s')
       = Some (PDict
                 [("IP address",
                   metadata_value (node_attrs cong) "IP address");
                  ("power supply device",
                   metadata_value (node_attrs cong) "Model Number");
                  ("initial state",
                   metadata_value (node_attrs cong)
                                  "Initialization commands");
                  ("command list", PNone)]).
Proof.
  intros Hr Hd Hn Hi Hb.
  pose proof (init_value construct (w_file w) gp a ms w s' w' Hr eq_refl Hi)
    as Hv.
  unfold build_configs_value in Hv. cbv zeta in Hv.
  destruct (subgroup_names ms) as [|x names] eqn:En; [congruence|].
  cbn [List.length Nat.eqb] in Hv.
  destruct (config_loop construct ms (x :: names)
              (set_build_successful true (new_object gp)))
    as [[s|s]|e] eqn:El; try discriminate; injection Hv as ->.
  - destruct (config_loop_continue construct _ _ _ _ El) as (Hb' & _).
    simpl in Hb'. congruence.
  - exact (config_loop_return_entry _ _ _ _ _ Hd El).
Qed.


(** *** A build that succeeds *)

(** X11: after a successful build every item of every
    'command list' is a clean command: it has no whitespace at
    either end (stripping it again changes nothing) and holds no
    line boundary. *)
Theorem command_list_items_clean gp a ms w s' w' :
  resolve (root (w_file w)) gp = Some (Group a ms) ->
  unique_names (map fst ms) = true ->
  init construct gp w = (Ok s', w') ->
  build_successful s' = Some true ->
  forall name,
    In name (subgroup_names ms) ->
    exists e items,
      dget name (configs s') = Some (PDict e)
      /\ dget "command list" e = Some (PTuple (map PStr items))
      /\ Forall (fun cl => PyStr.strip cl = cl
                           /\ no_outer_space cl = true
                           /\ no_linebreak cl = true)
                items.
Proof.
  intros Hr Hu Hi Hb name Hn.
  pose proof (init_value construct (w_file w) gp a ms w s' w' Hr eq_refl Hi)
    as Hv.
  destruct (successful_build_entries construct ms (new_object gp) s'
              Hu Hv Hb) as [_ Hent].
  destruct (Hent name Hn)
    as (cong & dn & shp & s0 & _ & _ & _ & H4 & H5 & _ & _ & He).
  destruct (full_entry_fields construct s0 name (node_attrs cong)
              (name_of (group (new_object gp)
                        ++ [construct_dataset_name])%list) shp)
    as (_ & _ & _ & E4 & _).
  assert (Hd : decodable (node_attrs cong) command_list_attr = true).
  { apply (attrs_decodable_pair _ "command list" _ H5). simpl. tauto. }
  destruct (command_list_value_cases _ Hd H4) as (b & s & _ & _ & Hc).
  eexists. exists (map PyStr.strip (PyStr.splitlines s)).
  split; [exact He|]. split.
  - rewrite E4, Hc, map_map. reflexivity.
  - apply stripped_lines_clean.
Qed.

Lemma config_loop_keys ms names : forall s s',
  config_loop construct ms names s = Ok (Continue s') ->
  NoDup names ->
  (forall k, In k names -> dget k (configs s) = None) ->
  dkeys (configs s') = (dkeys (configs s) ++ names)%list.
Proof.
  induction names as [|x names IH]; intros s s' H Hnd Hfresh.
  - injection H as <-. now rewrite app_nil_r.
  - rewrite config_loop_cons in H.
    destruct (config_step construct ms x s) as [[s1|s1]|e] eqn:E;
      try discriminate.
    destruct (config_step_continue construct _ _ _ _ E)
      as (cong & dn & shp & _ & _ & _ & _ & _ & ->).
    inversion Hnd as [|? ? Hx Hnd']; subst.
    rewrite (IH _ _ H Hnd').
    + simpl configs.
      rewrite HdfMapPropsFacts.dset_fresh
        by (apply Hfresh; now left).
      unfold dkeys. rewrite map_app, <- app_assoc. reflexivity.
    + intros k Hk. simpl configs. rewrite dget_dset_other.
      * apply Hfresh. now right.
      * intros ->. exact (Hx Hk).
Qed.

(** X12: after a successful build [configs] lists the
    configurations in the order in which the file lists the
    subgroups of the control group, and every entry has the same
    seven keys in the same order: 'IP address',
    'power supply device', 'initial state', 'command list',
    'dset paths', 'shotnum', 'state values'. *)
Theorem configs_follow_file_order gp a ms w s' w' :
  resolve (root (w_file w)) gp = Some (Group a ms) ->
  unique_names (map fst ms) = true ->
  init construct gp w = (Ok s', w') ->
  build_successful s' = Some true ->
  dkeys (configs s') = subgroup_names ms
  /\ forall name,
      In name (subgroup_names ms) ->
      exists e,
        dget name (configs s') = Some (PDict e)
        /\ dkeys e = entry_keys.
Proof.
  intros Hr Hu Hi Hb.
  pose proof (init_value construct (w_file w) gp a ms w s' w' Hr eq_refl Hi)
    as Hv.
  split.
  - pose proof (build_value_success construct _ _ _ Hv Hb) as Hl.
    rewrite (config_loop_keys _ _ _ _ Hl).
    + reflexivity.
    + now apply subgroup_names_NoDup.
    + reflexivity.
  - intros name Hn.
    destruct (successful_build_entries construct ms (new_object gp) s'
                Hu Hv Hb) as [_ Hent].
    destruct (Hent name Hn)
      as (cong & dn & shp & s0 & _ & _ & _ & _ & _ & _ & _ & He).
    eexists. split; [exact He | reflexivity].
Qed.


(** *** A failed build says why *)

Lemma reports_for_each {X S} (I : S -> Prop) (P : string -> Prop)
      (body : X -> S -> M (flow S)) xs : forall s,
  (forall x s, frame (body x s)) ->
  (forall x s, In x xs -> I s -> reports P (body x s)) ->
  (forall x s w s' w',
      I s -> body x s w = (Ok (Continue s'), w') -> I s') ->
  I s ->
  reports P (for_each xs body s).
Proof.
  induction xs as [|x xs IH]; intros s Hf Hr Hi Hs w s2 w' H.
  - discriminate.
  - cbn [for_each] in H. apply bind_ok in H as (fl & w1 & E & H).
    destruct fl as [s1|s1].
    + destruct (Hf _ _ _ _ _ E) as (_ & G & ws1 & L).
      destruct (IH s1 Hf (fun y s0 Hy => Hr y s0 (or_intror Hy)) Hi
                   (Hi _ _ _ _ _ Hs E) _ _ _ H)
        as (ws & msg & Hp & L2).
      exists (ws1 ++ ws)%list, msg. split; [exact Hp|].
      rewrite L2, L, G. now rewrite <- !app_assoc.
    + inversion H; subst. exact (Hr x s (or_introl eq_refl) Hs _ _ _ E).
Qed.

Lemma cfg_set_group self name key val self' :
  cfg_set self name key val = Ok self' -> group self' = group self.
Proof.
  unfold cfg_set. destruct (dget name (configs self)) as [[]|];
    try discriminate.
  intro H. now injection H as <-.
Qed.

Lemma attr_warning_group s s' name attr :
  group s = group s' -> attr_warning s name attr = attr_warning s' name attr.
Proof. unfold attr_warning, ControlTemplate.name. now intros ->. Qed.

Lemma dataset_warning_group s s' name :
  group s = group s' -> dataset_warning s name = dataset_warning s' name.
Proof. unfold dataset_warning, ControlTemplate.name. now intros ->. Qed.

Lemma map_attr_continue name cong pair s w s' w' :
  map_attr name cong pair s w = (Ok (Continue s'), w') ->
  group s' = group s.
Proof.
  unfold map_attr, try_except.
  destruct ((val <- h5_attr cong (snd pair) ;;
             val' <- lift (if String.eqb (fst pair) "command list"
                           then decode_command_list val
                           else decode_utf8 val) ;;
             self' <- lift (cfg_set s name (fst pair) val') ;;
             ret (Continue self')) w) as [[fl|e] w1] eqn:Em.
  - intro H. inversion H; subst; clear H.
    apply bind_ok in Em as (v & w2 & _ & Em).
    apply bind_ok in Em as (v' & w3 & _ & Em).
    apply bind_ok in Em as (s1 & w4 & Ec & Em).
    inversion Em; subst. unfold lift in Ec. inversion Ec.
    eapply cfg_set_group; eassumption.
  - destruct (exn_eqb e KeyError); [|discriminate].
    intro H. apply bind_ok in H as (s1 & w2 & Ec & H).
    unfold lift in Ec. inversion Ec as [Ec']; subst.
    destruct (negb (String.eqb (fst pair) "command list")).
    + apply bind_ok in H as (u & w3 & _ & H). inversion H; subst.
      eapply cfg_set_group; eassumption.
    + apply bind_ok in H as (u & w3 & _ & H). discriminate.
Qed.

Lemma command_list_pair pair :
  In pair pairs -> fst pair = "command list" ->
  snd pair = "N5700 power supply command list".
Proof.
  intros [<-|[<-|[<-|[<-|[]]]]]; simpl; intro H;
    try discriminate; reflexivity.
Qed.

Lemma reports_map_attr gp name cong pair s :
  In pair pairs -> group s = gp ->
  reports (failure_message gp) (map_attr name cong pair s).
Proof.
  intros Hin Hg w s2 w'. unfold map_attr, try_except.
  destruct ((val <- h5_attr cong (snd pair) ;;
             val' <- lift (if String.eqb (fst pair) "command list"
                           then decode_command_list val
                           else decode_utf8 val) ;;
             self' <- lift (cfg_set s name (fst pair) val') ;;
             ret (Continue self')) w) as [[fl|e] w1] eqn:Em.
  - intro H. inversion H; subst; clear H.
    apply bind_ok in Em as (v & w2 & _ & Em).
    apply bind_ok in Em as (v' & w3 & _ & Em).
    apply bind_ok in Em as (s1 & w4 & Ec & Em). discriminate.
  - assert (Hm : frame (val <- h5_attr cong (snd pair) ;;
                        val' <- lift (if String.eqb (fst pair) "command list"
                                      then decode_command_list val
                                      else decode_utf8 val) ;;
                        self' <- lift (cfg_set s name (fst pair) val') ;;
                        ret (Continue self')))
      by frame_tac.
    destruct (Hm _ _ _ Em) as (_ & G & ws1 & L).
    destruct (exn_eqb e KeyError); [|discriminate].
    intro H. apply bind_ok in H as (s1 & w2 & Ec & H).
    unfold lift in Ec. inversion Ec; subst; clear Ec.
    destruct (String.eqb_spec (fst pair) "command list") as [Ep|Ep];
      cbn [negb] in H.
    + apply bind_ok in H as (u & w3 & Ew & H).
      unfold warn in Ew. inversion Ew; subst; clear Ew.
      inversion H; subst; clear H. cbn [w_warnings].
      exists ws1, (attr_warning s name (snd pair)). split.
      * right. right. exists name.
        rewrite (command_list_pair pair Hin Ep).
        apply attr_warning_group. reflexivity.
      * rewrite L, G. now rewrite <- app_assoc.
    + apply bind_ok in H as (u & w3 & _ & H). discriminate.
Qed.

Lemma define_dataset_values_continue name dset s w fl w' :
  define_dataset_values construct name dset s w = (Ok fl, w') ->
  exists s', fl = Continue s'.
Proof.
  unfold define_dataset_values. intro H.
  do 8 (apply bind_ok in H as (? & ? & _ & H)).
  inversion H. eauto.
Qed.

Lemma sgroup_names_ok self w names w1 :
  sgroup_names self w = (Ok names, w1) ->
  exists a ms, resolve (root (w_file w)) (group self) = Some (Group a ms).
Proof.
  unfold sgroup_names. intro H. apply bind_ok in H as (keys & w2 & E & _).
  unfold h5_keys in E. rewrite read_run in E. unfold node_at in E.
  destruct (resolve (root (w_file w)) (group self)) as [[a ms|a fs]|];
    try discriminate.
  eauto.
Qed.

Lemma computes_config_loop f self a ms names :
  resolve (root f) (group self) = Some (Group a ms) ->
  computes (for_each names (map_config construct) self) f
           (config_loop construct ms names self).
Proof.
  intro Hr. unfold config_loop.
  apply computes_for_each_inv with (I := fun s => group s = group self).
  - intros name s Hs. apply computes_map_config with (a := a).
    now rewrite Hs.
  - intros name s s' Hs E. rewrite <- Hs.
    exact (config_step_group construct _ _ _ _ E).
  - reflexivity.
Qed.

Lemma map_config_continue name s w s' w' :
  map_config construct name s w = (Ok (Continue s'), w') ->
  group s' = group s.
Proof.
  intro H.
  assert (Hg : exists a ms,
             resolve (root (w_file w)) (group s) = Some (Group a ms)).
  { unfold map_config in H. apply bind_ok in H as (cong & w1 & E & _).
    unfold h5_getitem in E. rewrite read_run in E. unfold node_at in E.
    destruct (resolve (root (w_file w)) (group s)) as [[a ms|a fs]|];
      try discriminate.
    eauto. }
  destruct Hg as (a & ms & Hr).
  destruct (computes_map_config construct (w_file w) s a ms name Hr
                                w eq_refl) as (w1 & E & _).
  rewrite H in E. injection E as E _.
  exact (config_step_group construct _ _ _ _ (eq_sym E)).
Qed.

Lemma reports_map_config gp name s :
  group s = gp ->
  reports (failure_message gp) (map_config construct name s).
Proof.
  intros Hg w s2 w' H. unfold map_config in H.
  apply bind_ok in H as (cong & w1 & E1 & H).
  apply HdfMapFacts.h5_getitem_ok in E1 as [-> ->].
  apply bind_ok in H as (found & w2 & E2 & H).
  assert (Ht : frame (try_except
                        (dset <- h5_getitem (group s)
                                            construct_dataset_name ;;
                         ret (Some dset))
                        KeyError
                        (warn (dataset_warning s name) ;;; ret None)))
    by (apply frame_try_except; frame_tac).
  destruct (Ht _ _ _ E2) as (_ & G2 & ws2 & L2).
  destruct found as [ds|].
  - apply bind_ok in H as (fl & w3 & E3 & H).
    destruct fl as [s3|s3].
    + apply define_dataset_values_continue in H as [s4 H]. discriminate.
    + inversion H; subst; clear H.
      assert (Hr : reports (failure_message (group s))
                     (for_each pairs
                        (map_attr name (group s ++ [name])%list)
                        (set_configs (dset name (PDict []) (configs s)) s))).
      { apply reports_for_each with (I := fun s0 => group s0 = group s).
        - intros. apply frame_map_attr.
        - intros pair s0 Hin Hs. now apply reports_map_attr.
        - intros pair s0 w0 s0' w0' Hs E. rewrite <- Hs.
          exact (map_attr_continue _ _ _ _ _ _ _ E).
        - reflexivity. }
      destruct (Hr _ _ _ E3) as (ws & msg & Hp & L).
      exists (ws2 ++ ws)%list, msg. split; [exact Hp|].
      rewrite L, L2, G2. now rewrite <- !app_assoc.
  - inversion H; subst; clear H.
    unfold try_except in E2.
    destruct ((dset <- h5_getitem (group s) construct_dataset_name ;;
               ret (Some dset)) w) as [[r|e] w3] eqn:Ei.
    + inversion E2; subst.
      apply bind_ok in Ei as (d & w4 & _ & Ei). inversion Ei.
    + assert (Hi : frame (dset <- h5_getitem (group s)
                                             construct_dataset_name ;;
                          ret (Some dset)))
        by frame_tac.
      destruct (Hi _ _ _ Ei) as (_ & G3 & ws3 & L3).
      destruct (exn_eqb e KeyError); [|discriminate].
      apply bind_ok in E2 as (u & w4 & Ew & E2).
      unfold warn in Ew. inversion Ew; subst; clear Ew.
      inversion E2; subst; clear E2. cbn [w_warnings].
      exists ws3, (dataset_warning s name). split.
      * right. left. exists name. now apply dataset_warning_group.
      * rewrite L3, G3. now rewrite <- app_assoc.
Qed.

(** X13: a failed build says why.  Whenever [__init__] returns
    with [_build_successful] False, the last warning of the log was
    issued by the build, under the filter of the caller (the
    'ignore' filter of the method covers the state-values helper
    only), and it is one of: no mappable configuration, dataset
    'Run time list' not found, attribute
    'N5700 power supply command list' not found. *)
Theorem failed_build_says_why gp w s' w' :
  init construct gp w = (Ok s', w') ->
  build_successful s' = Some false ->
  exists ws msg,
    failure_message gp msg
    /\ w_warnings w'
       = (w_warnings w ++ ws ++ [Warning (w_filter w) msg])%list.
Proof.
  intros H Hb. unfold init, _build_configs in H. cbv zeta in H.
  set (self := set_build_successful true (new_object gp)) in H.
  apply bind_ok in H as (names & w1 & E1 & H).
  destruct (sgroup_names_ok _ _ _ _ E1) as (a & ms & Hr).
  rewrite (sgroup_names_run _ _ _ _ Hr) in E1.
  inversion E1; subst names w1; clear E1.
  destruct (Nat.eqb (List.length (subgroup_names ms)) 0).
  - apply bind_ok in H as (u & w2 & Ew & H).
    unfold warn in Ew. inversion Ew; subst; clear Ew.
    inversion H; subst; clear H. cbn [w_warnings].
    exists []. eexists. split; [left; reflexivity | reflexivity].
  - rewrite (bind_run _ _ _ _ _ (sgroup_names_run _ _ _ _ Hr)) in H.
    apply bind_ok in H as (fl & w2 & Ef & H).
    destruct (computes_config_loop (w_file w) self a ms
                (subgroup_names ms) Hr w eq_refl) as (w3 & Ec & _).
    rewrite Ef in Ec. injection Ec as Ec _.
    destruct fl as [s|s]; inversion H; subst; clear H.
    + destruct (config_loop_continue construct _ _ _ _ (eq_sym Ec))
        as (Hb' & _).
      simpl in Hb'. congruence.
    + assert (Hrep : reports (failure_message gp)
                       (for_each (subgroup_names ms)
                                 (map_config construct) self)).
      { apply reports_for_each with (I := fun s0 => group s0 = gp).
        - intros. apply frame_map_config.
        - intros name s0 _ Hs. now apply reports_map_config.
        - intros name s0 w0 s0' w0' Hs E. rewrite <- Hs.
          exact (map_config_continue _ _ _ _ _ E).
        - reflexivity. }
      exact (Hrep _ _ _ Ef).
Qed.


(** *** What the build leaves alone *)

Lemma finish_config_fixed self name dn c s' :
  finish_config construct self name dn c = Ok s' ->
  fixed_part s' = fixed_part self.
Proof.
  unfold finish_config.
  repeat match goal with
         | |- rbind ?x _ = _ -> _ => destruct x; simpl; [|discriminate]
         end.
  intro H. injection H as <-. reflexivity.
Qed.

Lemma config_step_fixed ms name s fl :
  config_step construct ms name s = Ok fl ->
  fixed_part (flow_state fl) = fixed_part s.
Proof.
  unfold config_step.
  destruct (lookup name ms) as [cong|]; [|discriminate].
  destruct (lookup construct_dataset_name ms) as [dn|].
  - destruct (fill_attrs (node_attrs cong) pairs []) as [[c|c]|e];
      try discriminate.
    + destruct (finish_config construct s name dn c) as [s2|e] eqn:E;
        simpl; [|discriminate].
      intro H. injection H as <-. exact (finish_config_fixed _ _ _ _ _ E).
    + intro H. injection H as <-. reflexivity.
  - intro H. injection H as <-. reflexivity.
Qed.

Lemma config_loop_fixed ms names : forall s fl,
  config_loop construct ms names s = Ok fl ->
  fixed_part (flow_state fl) = fixed_part s.
Proof.
  induction names as [|x names IH]; intros s fl.
  - intro H. injection H as <-. reflexivity.
  - rewrite config_loop_cons.
    destruct (config_step construct ms x s) as [[s1|s1]|e] eqn:E;
      try discriminate.
    + intro H. rewrite (IH _ _ H).
      exact (config_step_fixed _ _ _ _ E).
    + intro H. injection H as <-.
      exact (config_step_fixed _ _ _ _ E).
Qed.

(** X23: whatever the build finds, the object keeps what
    [__init__] set before it: when [__init__] returns, the object
    holds the control group it was made on, its control type is
    'power', its only command-list pattern is the voltage pattern,
    and [_build_successful] is True or False, not None. *)
Theorem n5700_init_keeps_identity gp w s' w' :
  init construct gp w = (Ok s', w') ->
  group s' = gp
  /\ dget "contype" (info s') = Some (PStr "power")
  /\ cl_re_patterns s' = [N5700Pattern.volt_pattern]
  /\ (build_successful s' = Some true \/ build_successful s' = Some false).
Proof.
  intro H.
  assert (Hg : exists a ms,
             resolve (root (w_file w)) gp = Some (Group a ms)).
  { unfold init, _build_configs in H. cbv zeta in H.
    apply bind_ok in H as (names & w1 & E & _).
    exact (sgroup_names_ok _ _ _ _ E). }
  destruct Hg as (a & ms & Hr).
  pose proof (init_value construct (w_file w) gp a ms w s' w' Hr eq_refl H)
    as Hv.
  unfold build_configs_value in Hv. cbv zeta in Hv.
  destruct (Nat.eqb (List.length (subgroup_names ms)) 0).
  - injection Hv as <-. repeat split. now right.
  - destruct (config_loop construct ms (subgroup_names ms)
                (set_build_successful true (new_object gp)))
      as [fl|e] eqn:El; [|discriminate].
    pose proof (config_loop_fixed _ _ _ _ El) as Hf.
    assert (Hs : flow_state fl = s') by (destruct fl; now injection Hv).
    rewrite Hs in Hf. unfold fixed_part in Hf.
    injection Hf as Hg Hi Hp. rewrite Hg, Hi, Hp.
    repeat split.
    destruct fl as [s|s]; injection Hv as ->.
    + left. destruct (config_loop_continue construct _ _ _ _ El) as (Hb & _).
      exact Hb.
    + right. exact (proj1 (config_loop_return construct _ _ _ _ El)).
Qed.

End Build.

End N5700PropsFacts.

Module N5700PropsExamples.
Import Py H5 Eff ControlTemplate N5700 N5700Props N5700PropsFacts
  Samples MoreSamples.

Lemma build_fails_before_mapping_witness :
  exists s',
    init no_state_values sample_group
         (start (control_file no_dataset_members))
    = (Ok s',
       World (control_file no_dataset_members) FilterDefault
             [Warning FilterDefault
                ("Dataset 'Run time list' not found for control device "
                 ++ "'N5700_PS' configuration group 'nsconf_1'")])
    /\ build_successful s' = Some false
    /\ configs s' = [].
Proof.
  exact (build_fails_before_mapping
           no_state_values sample_group [] no_dataset_members
           (start (control_file no_dataset_members))
           eq_refl (or_intror eq_refl)).
Defined.

Lemma failed_build_keeps_partial_entry_witness :
  exists s' w',
    init no_state_values sample_group
         (start (control_file no_command_list_members)) = (Ok s', w')
    /\ dget "nsconf_1" (configs s')
       = Some (PDict [("IP address", PStr "192.168.7.3");
                      ("power supply device", PNone);
                      ("initial state", PNone);
                      ("command list", PNone)]).
Proof.
  destruct (init no_state_values sample_group
                 (start (control_file no_command_list_members)))
    as [[s|e] w'] eqn:E; [|vm_compute in E; discriminate E].
  assert (Hb : build_successful s = Some false).
  { pose proof E as E'. vm_compute in E'. injection E' as <- _.
    reflexivity. }
  assert (Hn : subgroup_names no_command_list_members <> [])
    by discriminate.
  destruct (failed_build_keeps_partial_entry
              no_state_values sample_group [] no_command_list_members
              run_time_list
              (start (control_file no_command_list_members)) s w'
              eq_refl eq_refl Hn E Hb)
    as (name & cong & Hin & Hl & _ & He).
  exists s, w'. split; [reflexivity|].
  destruct Hin as [<-|[]].
  vm_compute in Hl. injection Hl as <-. exact He.
Defined.

Lemma command_list_items_clean_witness :
  exists s' w' e,
    init no_state_values sample_group (start lapd_file) = (Ok s', w')
    /\ dget "nsconf_1" (configs s') = Some (PDict e)
    /\ dget "command list" e
       = Some (PTuple [PStr "SOURCE:VOLTAGE:LEVEL 20.0";
                       PStr "SOURCE:VOLTAGE:LEVEL 30"])
    /\ PyStr.strip "SOURCE:VOLTAGE:LEVEL 30" = "SOURCE:VOLTAGE:LEVEL 30".
Proof.
  destruct (init no_state_values sample_group (start lapd_file))
    as [[s|e] w'] eqn:E; [|vm_compute in E; discriminate E].
  assert (Hb : build_successful s = Some true).
  { pose proof E as E'. vm_compute in E'. injection E' as <- _.
    reflexivity. }
  destruct (command_list_items_clean
              no_state_values sample_group [] sample_members
              (start lapd_file) s w' eq_refl eq_refl E Hb "nsconf_1")
    as (e & items & He & Hc & Hf).
  { simpl. auto. }
  exists s, w', e. split; [reflexivity|]. split; [exact He|].
  assert (Hi : items = ["SOURCE:VOLTAGE:LEVEL 20.0";
                        "SOURCE:VOLTAGE:LEVEL 30"]).
  { pose proof E as E'. vm_compute in E'. injection E' as <- _.
    vm_compute in He. injection He as <-.
    vm_compute in Hc. destruct items as [|i1 [|i2 [|i3 items]]];
      try discriminate.
    injection Hc as <- <-. reflexivity. }
  subst items. split; [exact Hc|].
  inversion Hf as [|? ? _ Hf']. inversion Hf' as [|? ? H2 _].
  exact (proj1 H2).
Defined.

Lemma configs_follow_file_order_witness :
  exists s' w',
    init no_state_values sample_group
         (start (control_file two_config_members)) = (Ok s', w')
    /\ dkeys (configs s') = ["nsconf_b"; "nsconf_a"].
Proof.
  destruct (init no_state_values sample_group
                 (start (control_file two_config_members)))
    as [[s|e] w'] eqn:E; [|vm_compute in E; discriminate E].
  assert (Hb : build_successful s = Some true).
  { pose proof E as E'. vm_compute in E'. injection E' as <- _.
    reflexivity. }
  destruct (configs_follow_file_order
              no_state_values sample_group [] two_config_members
              (start (control_file two_config_members)) s w'
              eq_refl eq_refl E Hb)
    as [Hk _].
  exists s, w'. split; [reflexivity | exact Hk].
Defined.

Lemma failed_build_says_why_witness :
  exists s' w' msg,
    init no_state_values sample_group
         (start (control_file no_command_list_members)) = (Ok s', w')
    /\ failure_message sample_group msg
    /\ List.last (w_warnings w') (Warning FilterIgnore "")
       = Warning FilterDefault msg.
Proof.
  destruct (init no_state_values sample_group
                 (start (control_file no_command_list_members)))
    as [[s|e] w'] eqn:E; [|vm_compute in E; discriminate E].
  assert (Hb : build_successful s = Some false).
  { pose proof E as E'. vm_compute in E'. injection E' as <- _.
    reflexivity. }
  destruct (failed_build_says_why
              no_state_values sample_group
              (start (control_file no_command_list_members)) s w' E Hb)
    as (ws & msg & Hp & L).
  exists s, w', msg. split; [reflexivity|]. split; [exact Hp|].
  rewrite L, app_assoc. apply last_last.
Defined.

Lemma n5700_init_keeps_identity_witness :
  exists s' w',
    init no_state_values sample_group (start lapd_file) = (Ok s', w')
    /\ group s' = sample_group
    /\ dget "contype" (info s') = Some (PStr "power")
    /\ cl_re_patterns s' = [N5700Pattern.volt_pattern].
Proof.
  destruct (init no_state_values sample_group (start lapd_file))
    as [[s|e] w'] eqn:E; [|vm_compute in E; discriminate E].
  destruct (n5700_init_keeps_identity
              no_state_values sample_group (start lapd_file) s w' E)
    as (Hg & Hc & Hp & _).
  exists s, w'. repeat split; assumption.
Defined.

End N5700PropsExamples.

(** ** More on the earlier mapping *)

Module LegacyPropsFacts.
Import Py PyFacts H5 Eff EffFacts LegacyFacts Legacy LegacyProps.

Local Open Scope eff_scope.

Lemma str_in_list_lookup k ms :
  str_in_list k (map fst ms)
  = match lookup k ms with Some _ => true | None => false end.
Proof.
  induction ms as [|[k' n] ms IH]; simpl; [reflexivity|].
  destruct (String.eqb k k'); [reflexivity | exact IH].
Qed.

(** X14: the earlier [hdfMap] takes any file: it checks nothing
    and warns of nothing.  [msi] is None when the file has no
    member 'MSI'; otherwise [found_diagnostics] lists every member
    of the group 'MSI', in the order of the file, whether or not
    its name is among the known diagnostics. *)
Theorem legacy_init_lists_every_msi_member hdf a ms w :
  resolve (root (w_file w)) hdf = Some (Group a ms) ->
  (forall n, lookup msi_group ms = Some n -> is_group n = true) ->
  exists obj,
    init hdf w = (Ok obj, w)
    /\ hdf_obj obj = hdf
    /\ match lookup msi_group ms with
       | Some (Group _ ms') =>
           exists m,
             msi obj = Some m /\ found_diagnostics m = map fst ms'
       | _ => msi obj = None
       end.
Proof.
  intros Hr Hg. unfold init, __attach_msi.
  assert (Ek : h5_keys hdf w = (Ok (map fst ms), w)).
  { unfold h5_keys. rewrite read_run. unfold node_at. now rewrite Hr. }
  assert (Ea : (keys <- h5_keys hdf ;;
                if str_in_list msi_group keys
                then g <- h5_getitem hdf msi_group ;;
                     m <- hdfMap_msi_new g ;;
                     ret (Some m)
                else ret None) w
               = (Ok (match lookup msi_group ms with
                      | Some (Group _ ms') =>
                          Some (HdfMapMsi
                                  ["Discharge"; "Gas pressure"; "Heater";
                                   "Interferometer array"; "Magnetic field"]
                                  (map fst ms'))
                      | _ => None
                      end), w)).
  { rewrite (bind_run _ _ _ _ _ Ek), str_in_list_lookup.
    destruct (lookup msi_group ms) as [n|] eqn:El; [|reflexivity].
    specialize (Hg n eq_refl).
    destruct n as [a' ms'|]; [|discriminate].
    assert (Eg : h5_getitem hdf msi_group w
                 = (Ok (hdf ++ [msi_group])%list, w)).
    { unfold h5_getitem. rewrite read_run. unfold node_at.
      now rewrite Hr, El. }
    rewrite (bind_run _ _ _ _ _ Eg).
    assert (Hr' : resolve (root (w_file w)) (hdf ++ [msi_group])%list
                  = Some (Group a' ms')).
    { now rewrite (ComputesFacts.resolve_snoc _ _ _ _ msi_group Hr). }
    now rewrite (bind_run _ _ _ _ _ (hdfMap_msi_new_run _ _ _ _ Hr')). }
  rewrite (bind_run _ _ _ _ _ Ea). eexists.
  split; [reflexivity|]. split; [reflexivity|]. cbn [msi].
  destruct (lookup msi_group ms) as [[a' ms'|]|]; eauto.
Qed.

Lemma version_loop hdf n w keys :
  resolve (root (w_file w)) hdf = Some n ->
  for_each keys
    (fun key vers =>
       if PyStr.contains "version" (PyStr.casefold key) then
         v <- h5_attr hdf key ;;
         vers <- lift (decode_utf8 v) ;;
         ret (Return vers)
       else ret (Continue vers))
    (PStr "") w
  = (match find (fun key => PyStr.contains "version" (PyStr.casefold key))
                keys with
     | Some key =>
         rbind (rbind (getitem key (node_attrs n)) decode_utf8)
               (fun vers => Ok (Return vers))
     | None => Ok (Continue (PStr ""))
     end, w).
Proof.
  intro Hr. induction keys as [|k keys IH]; [reflexivity|].
  cbn [for_each find].
  destruct (PyStr.contains "version" (PyStr.casefold k)).
  - unfold bind at 1 2.
    rewrite (HdfMapFacts.h5_attr_run _ _ _ _ Hr).
    destruct (getitem k (node_attrs n)) as [v|e]; [|reflexivity].
    cbn [rbind]. unfold lift.
    destruct (decode_utf8 v); reflexivity.
  - unfold bind at 1, ret at 1. exact IH.
Qed.

(** The earlier [hdf_version] decodes the first attribute whose
    key, case-folded, contains 'version'. *)
Lemma hdf_version_run hdf n w :
  resolve (root (w_file w)) hdf = Some n ->
  hdf_version hdf w
  = (match version_key_of (node_attrs n) with
     | Some key => rbind (getitem key (node_attrs n)) decode_utf8
     | None => Ok (PStr "")
     end, w).
Proof.
  intro Hr. unfold hdf_version, version_key_of.
  assert (Ea : h5_attrs hdf w = (Ok (node_attrs n), w)).
  { unfold h5_attrs. rewrite read_run. unfold node_at. now rewrite Hr. }
  rewrite (bind_run _ _ _ _ _ Ea). unfold bind.
  rewrite (version_loop hdf n w _ Hr).
  destruct (find _ (dkeys (node_attrs n))) as [key|]; [|reflexivity].
  destruct (getitem key (node_attrs n)) as [v|e]; [|reflexivity].
  cbn [rbind]. destruct (decode_utf8 v); reflexivity.
Qed.

(** X15: the two [hdf_version] on a file without a version.  When
    no attribute key of the file contains 'version', the earlier
    property returns the empty string, while the present one, which
    looks the attribute 'LaPD HDF5 software version' up, raises
    KeyError. *)
Theorem hdf_version_without_version_attribute
        {MSIMap DigiMap ControlMap : Type}
        (self : HdfMap.hdfMap MSIMap DigiMap ControlMap) (w : world) n :
  resolve (root (w_file w)) (HdfMap.hdf_obj self) = Some n ->
  version_key_of (node_attrs n) = None ->
  hdf_version (HdfMap.hdf_obj self) w = (Ok (PStr ""), w)
  /\ HdfMap.hdf_version self w = (Raise KeyError, w).
Proof.
  intros Hr Hv. split.
  - now rewrite (hdf_version_run _ _ _ Hr), Hv.
  - unfold HdfMap.hdf_version.
    unfold bind. rewrite (HdfMapFacts.h5_attr_run _ _ _ _ Hr).
    unfold getitem.
    destruct (dget HdfMap.version_key (node_attrs n)) as [v|] eqn:E;
      [|reflexivity].
    exfalso. unfold version_key_of in Hv.
    pose proof (find_none _ _ Hv HdfMap.version_key
                          (dget_In_keys _ _ _ E)) as Hc.
    vm_compute in Hc. discriminate Hc.
Qed.

(** X16: the two [hdf_version] agree on the files of the LaPD.
    When 'LaPD HDF5 software version' is the first attribute key
    of the file that contains 'version', the earlier property and
    the present one give the same outcome: the decoded attribute,
    or the same exception. *)
Theorem hdf_version_agrees_with_legacy
        {MSIMap DigiMap ControlMap : Type}
        (self : HdfMap.hdfMap MSIMap DigiMap ControlMap) (w : world) n :
  resolve (root (w_file w)) (HdfMap.hdf_obj self) = Some n ->
  version_key_of (node_attrs n) = Some HdfMap.version_key ->
  hdf_version (HdfMap.hdf_obj self) w = HdfMap.hdf_version self w.
Proof.
  intros Hr Hv. rewrite (hdf_version_run _ _ _ Hr), Hv.
  unfold HdfMap.hdf_version, bind.
  rewrite (HdfMapFacts.h5_attr_run _ _ _ _ Hr).
  destruct (getitem HdfMap.version_key (node_attrs n)); reflexivity.
Qed.

End LegacyPropsFacts.

Module LegacyPropsExamples.
Import Py H5 Eff Legacy LegacyProps LegacyPropsFacts Samples MoreSamples.

Lemma legacy_init_lists_every_msi_member_witness :
  exists obj m,
    init [] (start lapd_file) = (Ok obj, start lapd_file)
    /\ msi obj = Some m
    /\ found_diagnostics m = ["Discharge"; "Langmuir probe"].
Proof.
  destruct (legacy_init_lists_every_msi_member
              [] (node_attrs (root lapd_file))
              [("MSI",
                Group [] [("Discharge", Group [] []);
                          ("Langmuir probe", Group [] [])]);
               ("Raw data + config",
                Group [("Description", PBytes "a run"); ("Shots", PInt 10)]
                      [("N5700_PS", n5700_group);
                       ("SIS crate", Group [] [])])]
              (start lapd_file) eq_refl)
    as (obj & Hi & _ & Hm).
  { intros n Hn. vm_compute in Hn. injection Hn as <-. reflexivity. }
  cbn in Hm. destruct Hm as (m & Hm & Hf).
  exists obj, m. repeat split; assumption.
Defined.

Lemma hdf_version_without_version_attribute_witness :
  hdf_version [] (start other_lapd_file)
  = (Ok (PStr ""), start other_lapd_file)
  /\ HdfMap.hdf_version
       (@HdfMap.HdfMap unit unit unit [] [] None None None None)
       (start other_lapd_file)
     = (Raise KeyError, start other_lapd_file).
Proof.
  apply (hdf_version_without_version_attribute
           (@HdfMap.HdfMap unit unit unit [] [] None None None None)
           (start other_lapd_file) (root other_lapd_file));
    reflexivity.
Defined.

Lemma hdf_version_agrees_with_legacy_witness :
  hdf_version [] (start lapd_file)
  = HdfMap.hdf_version
      (@HdfMap.HdfMap unit unit unit [] [] None None None None)
      (start lapd_file).
Proof.
  apply (hdf_version_agrees_with_legacy
           (@HdfMap.HdfMap unit unit unit [] [] None None None None)
           (start lapd_file) (root lapd_file));
    reflexivity.
Defined.

End LegacyPropsExamples.

(** ** The earlier mapping of 'N5700_PS' *)

Module LegacyN5700Facts.
Import Py PyFacts H5 Eff EffFacts ComputesFacts ControlTemplate
  N5700Props N5700PropsFacts LegacyN5700.

Local Open Scope eff_scope.

Lemma pure_lift {A} (r : result A) : pure (lift r).
Proof. intros w r' w' H. now inversion H. Qed.

Lemma pure_h5_attr p k : pure (h5_attr p k).
Proof.
  unfold h5_attr. apply pure_bind; [apply pure_read|].
  intro. apply pure_lift.
Qed.

Lemma h5_getitem_inv g k w p w' a ms :
  resolve (root (w_file w)) g = Some (Group a ms) ->
  h5_getitem g k w = (Ok p, w') ->
  p = (g ++ [k])%list /\ w' = w
  /\ exists n, lookup k ms = Some n
               /\ resolve (root (w_file w)) (g ++ [k])%list = Some n.
Proof.
  intros Hr. unfold h5_getitem. rewrite read_run. unfold node_at.
  rewrite Hr. destruct (lookup k ms) as [n|] eqn:El; [|discriminate].
  intro H. inversion H; subst. repeat split.
  exists n. split; [reflexivity|].
  now rewrite (resolve_snoc _ _ _ _ k Hr).
Qed.

Lemma h5_attr_inv p k w v w' n :
  resolve (root (w_file w)) p = Some n ->
  h5_attr p k w = (Ok v, w') ->
  w' = w /\ dget k (node_attrs n) = Some v.
Proof.
  intros Hr. rewrite (HdfMapFacts.h5_attr_run _ _ _ _ Hr).
  unfold getitem. destruct (dget k (node_attrs n)); [|discriminate].
  intro H. inversion H; subst. auto.
Qed.

Section Build.
Variable construct :
  mapper -> string -> list Re.regex -> result (option (dict pyval)).
Variable np_array : pyval -> pyval.
Variable dtype_of : pyval -> np_dtype.

Local Abbreviation map_config :=
  (LegacyN5700.map_config construct np_array dtype_of).
Local Abbreviation init := (LegacyN5700.init construct np_array dtype_of).

(** One configuration mapped: nothing was missing, and nothing
    but the object changed. *)
Lemma map_config_ok name s w s1 w1 a ms :
  resolve (root (w_file w)) (group s) = Some (Group a ms) ->
  map_config name s w = (Ok s1, w1) ->
  w1 = w /\ group s1 = group s
  /\ (exists dn, lookup construct_dataset_name ms = Some dn
                 /\ N5700.has_shot_number dn = true)
  /\ exists cong,
      lookup name ms = Some cong
      /\ N5700.attrs_decodable (node_attrs cong) = true
      /\ forall attr, In attr required_attrs ->
                      dget attr (node_attrs cong) <> None.
Proof.
  intros Hr H. unfold LegacyN5700.map_config in H.
  apply bind_ok in H as (cg & w2 & E & H).
  apply (h5_getitem_inv _ _ _ _ _ _ _ Hr) in E
    as (-> & -> & cong & Hl & Hc).
  apply bind_ok in H as (v1 & w2 & E & H).
  apply (h5_attr_inv _ _ _ _ _ _ Hc) in E as (-> & A1).
  apply bind_ok in H as (ip & w2 & E & H).
  unfold lift in E; inversion E as [[E1 E2]]; subst w2; clear E.
  apply bind_ok in H as (v2 & w2 & E & H).
  apply (h5_attr_inv _ _ _ _ _ _ Hc) in E as (-> & A2).
  apply bind_ok in H as (gd & w2 & E & H).
  unfold lift in E; inversion E as [[E3 E4]]; subst w2; clear E.
  apply bind_ok in H as (v3 & w2 & E & H).
  apply (h5_attr_inv _ _ _ _ _ _ Hc) in E as (-> & A3).
  apply bind_ok in H as (ic & w2 & E & H).
  unfold lift in E; inversion E as [[E5 E6]]; subst w2; clear E.
  apply bind_ok in H as (v4 & w2 & E & H).
  apply (h5_attr_inv _ _ _ _ _ _ Hc) in E as (-> & A4).
  apply bind_ok in H as (cl & w2 & E & H).
  unfold lift in E; inversion E as [[E7 E8]]; subst w2; clear E.
  apply bind_ok in H as (ds & w2 & E & H).
  apply (h5_getitem_inv _ _ _ _ _ _ _ Hr) in E
    as (-> & -> & dn & Hd & Hdr).
  apply bind_ok in H as (s2 & w2 & E & H).
  unfold lift in E; inversion E as [[G2 E9]]; subst w2; clear E.
  apply cfg_set_group in G2.
  apply bind_ok in H as (dname & w2 & E & H).
  assert (Ew : w2 = w) by (exact (pure_read _ _ _ _ E)). subst w2.
  apply bind_ok in H as (s3 & w2 & E' & H).
  unfold lift in E'; inversion E' as [[G3 E10]]; subst w2; clear E'.
  apply cfg_set_group in G3.
  apply bind_ok in H as (dp & w2 & E' & H).
  unfold lift in E'; inversion E' as [[E11 E12]]; subst w2; clear E'.
  apply bind_ok in H as (shp & w2 & E' & H).
  assert (Ew : w2 = w) by (exact (pure_read _ _ _ _ E')). subst w2.
  assert (Hshot : N5700.has_shot_number dn = true).
  { unfold h5_field_shape in E'. rewrite read_run in E'.
    unfold node_at in E'. rewrite Hdr in E'.
    unfold N5700.has_shot_number, N5700.field_shape.
    destruct dn as [|a0 fields]; [discriminate|].
    destruct (find _ fields); [reflexivity | discriminate]. }
  apply bind_ok in H as (s4 & w2 & E'' & H).
  unfold lift in E''; inversion E'' as [[G4 E13]]; subst w2; clear E''.
  apply cfg_set_group in G4.
  apply bind_ok in H as (ps & w2 & E'' & H).
  unfold lift in E''; inversion E'' as [[E14 E15]]; subst w2; clear E''.
  apply bind_ok in H as (sv & w2 & E'' & H).
  assert (Ew : w2 = w).
  { destruct ps; [now inversion E'' | now inversion E'']. }
  subst w2.
  unfold lift in H; inversion H as [[G5 E16]]; clear H.
  apply cfg_set_group in G5.
  split; [reflexivity|]. split.
  { rewrite G5, G4, G3, G2. reflexivity. }
  split; [eauto|].
  exists cong. split; [exact Hl|]. split.
  - unfold N5700.attrs_decodable, N5700.pairs, N5700.decodable.
    cbn [forallb snd]. rewrite A1, A2, A3, A4, E1, E3, E5.
    unfold decode_command_list in E7.
    destruct (decode_utf8 v4); [reflexivity | discriminate].
  - intros attr [<-|[<-|[<-|[<-|[]]]]]; congruence.
Qed.

(** One configuration mapped: the entry it leaves. *)
Lemma map_config_value name s w s1 w1 a ms :
  resolve (root (w_file w)) (group s) = Some (Group a ms) ->
  map_config name s w = (Ok s1, w1) ->
  exists cong dn shp sv,
    lookup name ms = Some cong
    /\ lookup construct_dataset_name ms = Some dn
    /\ N5700.field_shape dn "Shot number" = Ok shp
    /\ s1 = N5700.with_entry s name
              (legacy_entry (node_attrs cong)
                 (name_of (group s ++ [construct_dataset_name])%list)
                 shp sv).
Proof.
  intros Hr H. unfold LegacyN5700.map_config in H.
  apply bind_ok in H as (cg & w2 & E & H).
  apply (h5_getitem_inv _ _ _ _ _ _ _ Hr) in E
    as (-> & -> & cong & Hl & Hc).
  apply bind_ok in H as (v1 & w2 & E & H).
  apply (h5_attr_inv _ _ _ _ _ _ Hc) in E as (-> & A1).
  apply bind_ok in H as (ip & w2 & E & H).
  unfold lift in E; inversion E as [[E1 E2]]; subst w2; clear E.
  apply bind_ok in H as (v2 & w2 & E & H).
  apply (h5_attr_inv _ _ _ _ _ _ Hc) in E as (-> & A2).
  apply bind_ok in H as (gd & w2 & E & H).
  unfold lift in E; inversion E as [[E3 E4]]; subst w2; clear E.
  apply bind_ok in H as (v3 & w2 & E & H).
  apply (h5_attr_inv _ _ _ _ _ _ Hc) in E as (-> & A3).
  apply bind_ok in H as (ic & w2 & E & H).
  unfold lift in E; inversion E as [[E5 E6]]; subst w2; clear E.
  apply bind_ok in H as (v4 & w2 & E & H).
  apply (h5_attr_inv _ _ _ _ _ _ Hc) in E as (-> & A4).
  apply bind_ok in H as (cl & w2 & E & H).
  unfold lift in E; inversion E as [[E7 E8]]; subst w2; clear E.
  apply bind_ok in H as (ds & w2 & E & H).
  apply (h5_getitem_inv _ _ _ _ _ _ _ Hr) in E
    as (-> & -> & dn & Hd & Hdr).
  change (set_configs
            (dset name
               (PDict [("IP address", ip); ("device model", gd);
                       ("init command", ic)])
               (configs s)) s)
    with (N5700.with_entry s name
            [("IP address", ip); ("device model", gd);
             ("init command", ic)]) in H.
  rewrite N5700Facts.cfg_set_with_entry in H.
  apply bind_ok in H as (s2 & w2 & E & H).
  unfold lift in E; inversion E; subst s2 w2; clear E.
  apply bind_ok in H as (dname & w2 & E & H).
  unfold h5_name in E. rewrite read_run in E. unfold node_at in E.
  rewrite Hdr in E. inversion E; subst dname w2; clear E.
  rewrite N5700Facts.cfg_set_with_entry in H.
  apply bind_ok in H as (s3 & w2 & E & H).
  unfold lift in E; inversion E; subst s3 w2; clear E.
  rewrite N5700Facts.cfg_get_with_entry in H.
  apply bind_ok in H as (dp & w2 & E & H).
  unfold lift in E; cbn in E; inversion E; subst dp w2; clear E.
  apply bind_ok in H as (shp & w2 & E & H).
  assert (Ew : w2 = w) by (exact (pure_read _ _ _ _ E)). subst w2.
  assert (Hshp : N5700.field_shape dn "Shot number" = Ok shp).
  { unfold h5_field_shape in E. rewrite read_run in E.
    unfold node_at in E. rewrite Hdr in E. unfold N5700.field_shape.
    destruct dn as [|a0 fields]; [discriminate|].
    destruct (find _ fields); inversion E; reflexivity. }
  rewrite N5700Facts.cfg_set_with_entry in H.
  apply bind_ok in H as (s4 & w2 & E' & H).
  unfold lift in E'; inversion E'; subst s4 w2; clear E'.
  apply bind_ok in H as (ps & w2 & E' & H).
  unfold lift in E'; inversion E' as [[E9 E10]]; subst w2; clear E'.
  apply bind_ok in H as (sv & w2 & E' & H).
  assert (Ew : w2 = w).
  { destruct ps; [now inversion E' | now inversion E']. }
  subst w2.
  rewrite N5700Facts.cfg_set_with_entry in H.
  unfold lift in H; inversion H; clear H.
  exists cong, dn, shp, sv. split; [exact Hl|]. split; [exact Hd|].
  split; [exact Hshp|].
  unfold legacy_entry, N5700.metadata_value, N5700.command_list_value,
    N5700.command_list_attr.
  rewrite A1, A2, A3, A4, E1, E3, E5, E7. reflexivity.
Qed.

Lemma build_loop_ok a ms names : forall s w fl w',
  resolve (root (w_file w)) (group s) = Some (Group a ms) ->
  for_each names
    (fun name self => self <- map_config name self ;; ret (Continue self))
    s w = (Ok fl, w') ->
  w' = w
  /\ (exists s', fl = Continue s')
  /\ (names <> [] ->
      exists dn, lookup construct_dataset_name ms = Some dn
                 /\ N5700.has_shot_number dn = true)
  /\ forall name,
      In name names ->
      exists cong,
        lookup name ms = Some cong
        /\ N5700.attrs_decodable (node_attrs cong) = true
        /\ forall attr, In attr required_attrs ->
                        dget attr (node_attrs cong) <> None.
Proof.
  induction names as [|x names IH]; intros s w fl w' Hr H.
  - inversion H; subst. split; [reflexivity|]. split; [eauto|].
    split; [congruence|]. intros name [].
  - cbn [for_each] in H. apply bind_ok in H as (fl1 & w1 & E & H).
    apply bind_ok in E as (s1 & w2 & E & E').
    inversion E'; subst fl1 w2; clear E'.
    destruct (map_config_ok _ _ _ _ _ _ _ Hr E)
      as (-> & Hg & Hd & Hc).
    rewrite <- Hg in Hr.
    destruct (IH _ _ _ _ Hr H) as (-> & Hfl & _ & Hn).
    split; [reflexivity|]. split; [exact Hfl|].
    split; [intros _; exact Hd|].
    intros name [<-|Hin]; [exact Hc | now apply Hn].
Qed.

Lemma build_loop_entries a ms names : forall s w fl w',
  resolve (root (w_file w)) (group s) = Some (Group a ms) ->
  for_each names
    (fun name self => self <- map_config name self ;; ret (Continue self))
    s w = (Ok fl, w') ->
  NoDup names ->
  exists s',
    fl = Continue s'
    /\ (forall k, ~ In k names -> dget k (configs s') = dget k (configs s))
    /\ forall name,
        In name names ->
        exists cong dn shp sv,
          lookup name ms = Some cong
          /\ lookup construct_dataset_name ms = Some dn
          /\ N5700.field_shape dn "Shot number" = Ok shp
          /\ dget name (configs s')
             = Some (PDict
                       (legacy_entry (node_attrs cong)
                          (name_of (group s ++ [construct_dataset_name])%list)
                          shp sv)).
Proof.
  induction names as [|x names IH]; intros s w fl w' Hr H Hnd.
  - inversion H; subst. exists s. split; [reflexivity|].
    split; [reflexivity|]. intros name [].
  - cbn [for_each] in H. apply bind_ok in H as (fl1 & w1 & E & H).
    apply bind_ok in E as (s1 & w2 & E & E').
    inversion E'; subst fl1 w2; clear E'.
    destruct (map_config_ok _ _ _ _ _ _ _ Hr E) as (-> & Hg & _).
    destruct (map_config_value _ _ _ _ _ _ _ Hr E)
      as (cong & dn & shp & sv & Hl & Hd & Hs & ->).
    inversion Hnd as [|? ? Hx Hnd']; subst.
    assert (Hr1 : resolve (root (w_file w))
                    (group (N5700.with_entry s x
                              (legacy_entry (node_attrs cong)
                                 (name_of (group s
                                           ++ [construct_dataset_name])%list)
                                 shp sv)))
                  = Some (Group a ms)) by exact Hr.
    destruct (IH _ _ _ _ Hr1 H Hnd') as (s' & -> & Hother & Hn).
    exists s'. split; [reflexivity|]. split.
    + intros k Hk. rewrite Hother by (intro; apply Hk; now right).
      simpl configs. apply dget_dset_other. intros ->. apply Hk. now left.
    + intros name [<-|Hin].
      * exists cong, dn, shp, sv. split; [exact Hl|].
        split; [exact Hd|]. split; [exact Hs|].
        rewrite (Hother x Hx). simpl configs. apply dget_dset_same.
      * exact (Hn name Hin).
Qed.

(** X17: the earlier build is all or nothing.  It catches
    nothing and warns of nothing: when [__init__] returns,
    [_build_successful] is True, the log of warnings is as before,
    every subgroup of the control group has the four attributes
    'IP address', 'Model Number', 'Initialization commands' and
    'N5700 power supply command list', and the control group has
    the member 'Run time list' if it has a subgroup at all. *)
Theorem legacy_build_is_all_or_nothing gp a ms w s' w' :
  resolve (root (w_file w)) gp = Some (Group a ms) ->
  init gp w = (Ok s', w') ->
  w' = w
  /\ build_successful s' = Some true
  /\ (N5700.subgroup_names ms <> [] ->
      lookup construct_dataset_name ms <> None)
  /\ forall name,
      In name (N5700.subgroup_names ms) ->
      exists cong,
        lookup name ms = Some cong
        /\ forall attr, In attr required_attrs ->
                        dget attr (node_attrs cong) <> None.
Proof.
  intros Hr H. unfold LegacyN5700.init, LegacyN5700._build_configs in H.
  cbv zeta in H.
  set (self := extend_patterns [] _) in H.
  assert (Hr' : resolve (root (w_file w)) (group self) = Some (Group a ms))
    by exact Hr.
  rewrite (bind_run _ _ _ _ _ (sgroup_names_run _ _ _ _ Hr')) in H.
  apply bind_ok in H as (fl & w1 & E & H).
  destruct (build_loop_ok _ _ _ _ _ _ _ Hr' E) as (-> & (s1 & ->) & Hd & Hn).
  inversion H; subst. split; [reflexivity|]. split; [reflexivity|]. split.
  - intro Hne. destruct (Hd Hne) as (dn & -> & _). discriminate.
  - intros name Hin. destruct (Hn name Hin) as (cong & Hl & _ & Ha).
    eauto.
Qed.

Lemma legacy_loop_of_init gp a ms w s' w' :
  resolve (root (w_file w)) gp = Some (Group a ms) ->
  init gp w = (Ok s', w') ->
  (N5700.subgroup_names ms <> [] ->
   exists dn, lookup construct_dataset_name ms = Some dn
              /\ N5700.has_shot_number dn = true)
  /\ forall name,
      In name (N5700.subgroup_names ms) ->
      exists cong,
        lookup name ms = Some cong
        /\ N5700.attrs_decodable (node_attrs cong) = true
        /\ forall attr, In attr required_attrs ->
                        dget attr (node_attrs cong) <> None.
Proof.
  intros Hr H. unfold LegacyN5700.init, LegacyN5700._build_configs in H.
  cbv zeta in H.
  set (self := extend_patterns [] _) in H.
  assert (Hr' : resolve (root (w_file w)) (group self) = Some (Group a ms))
    by exact Hr.
  rewrite (bind_run _ _ _ _ _ (sgroup_names_run _ _ _ _ Hr')) in H.
  apply bind_ok in H as (fl & w1 & E & H).
  destruct (build_loop_ok _ _ _ _ _ _ _ Hr' E) as (_ & _ & Hd & Hn).
  auto.
Qed.

Lemma decodable_ok a attr v :
  N5700.decodable a attr = true -> dget attr a = Some v ->
  exists s, decode_utf8 v = Ok (PStr s).
Proof.
  unfold N5700.decodable. intros H Hv. rewrite Hv in H.
  destruct (decode_utf8 v) as [r|e] eqn:E; [|discriminate].
  destruct (N5700Facts.decode_utf8_str _ _ E) as [s ->]. eauto.
Qed.

(** The attribute [attr] read and decoded with [dec], then [k]. *)
Lemma attr_step {B} p attr (dec : pyval -> result pyval)
      (k : pyval -> M B) w n v r :
  resolve (root (w_file w)) p = Some n ->
  dget attr (node_attrs n) = Some v ->
  dec v = Ok r ->
  (x <- h5_attr p attr ;; y <- lift (dec x) ;; k y) w = k r w.
Proof.
  intros Hr Hv Hd. unfold bind.
  rewrite (HdfMapFacts.h5_attr_run _ _ _ _ Hr). unfold getitem.
  rewrite Hv. unfold lift. now rewrite Hd.
Qed.

Lemma attr_missing {B} p attr (k : pyval -> M B) w n :
  resolve (root (w_file w)) p = Some n ->
  dget attr (node_attrs n) = None ->
  (x <- h5_attr p attr ;; k x) w = (Raise KeyError, w).
Proof.
  intros Hr Hv. unfold bind.
  rewrite (HdfMapFacts.h5_attr_run _ _ _ _ Hr). unfold getitem.
  now rewrite Hv.
Qed.

(** X18: where the present build gives up with a warning, the
    earlier one raises.  On a control group whose first subgroup
    has attributes that decode, but lacks one of the four
    attributes it is read for, or that has no member
    'Run time list', the earlier [__init__] raises KeyError, and
    the log of warnings is as before. *)
Theorem legacy_build_raises_KeyError gp a ms name rest cong w :
  resolve (root (w_file w)) gp = Some (Group a ms) ->
  N5700.subgroup_names ms = name :: rest ->
  lookup name ms = Some cong ->
  N5700.attrs_decodable (node_attrs cong) = true ->
  (exists attr, In attr required_attrs
                /\ dget attr (node_attrs cong) = None)
  \/ lookup construct_dataset_name ms = None ->
  init gp w = (Raise KeyError, w).
Proof.
  intros Hr En Hl Hdec Hmiss.
  unfold LegacyN5700.init, LegacyN5700._build_configs. cbv zeta.
  set (self := extend_patterns [] _).
  assert (Hr' : resolve (root (w_file w)) (group self) = Some (Group a ms))
    by exact Hr.
  rewrite (bind_run _ _ _ _ _ (sgroup_names_run _ _ _ _ Hr')), En.
  assert (Em : map_config name self w = (Raise KeyError, w)).
  { unfold LegacyN5700.map_config.
    assert (Eg : h5_getitem (group self) name w
                 = (Ok (gp ++ [name])%list, w)).
    { unfold h5_getitem. rewrite read_run. unfold node_at.
      now rewrite Hr', Hl. }
    rewrite (bind_run _ _ _ _ _ Eg).
    assert (Hc : resolve (root (w_file w)) (gp ++ [name])%list = Some cong).
    { now rewrite (resolve_snoc _ _ _ _ name Hr). }
    unfold N5700.attrs_decodable, N5700.pairs in Hdec.
    cbn [forallb snd] in Hdec.
    apply andb_true_iff in Hdec as [D1 Hdec].
    apply andb_true_iff in Hdec as [D2 Hdec].
    apply andb_true_iff in Hdec as [D3 Hdec].
    apply andb_true_iff in Hdec as [D4 _].
    destruct (dget "IP address" (node_attrs cong)) as [v1|] eqn:A1;
      [|now apply attr_missing with (n := cong)].
    destruct (decodable_ok _ _ _ D1 A1) as [s1 Hs1].
    rewrite (attr_step _ _ decode_utf8 _ _ _ _ _ Hc A1 Hs1).
    destruct (dget "Model Number" (node_attrs cong)) as [v2|] eqn:A2;
      [|now apply attr_missing with (n := cong)].
    destruct (decodable_ok _ _ _ D2 A2) as [s2 Hs2].
    rewrite (attr_step _ _ decode_utf8 _ _ _ _ _ Hc A2 Hs2).
    destruct (dget "Initialization commands" (node_attrs cong))
      as [v3|] eqn:A3; [|now apply attr_missing with (n := cong)].
    destruct (decodable_ok _ _ _ D3 A3) as [s3 Hs3].
    rewrite (attr_step _ _ decode_utf8 _ _ _ _ _ Hc A3 Hs3).
    destruct (dget "N5700 power supply command list" (node_attrs cong))
      as [v4|] eqn:A4; [|now apply attr_missing with (n := cong)].
    destruct (decodable_ok _ _ _ D4 A4) as [s4 Hs4].
    rewrite (attr_step _ _ decode_command_list _ _ _ _ _ Hc A4
                       (N5700Facts.decode_command_list_ok _ _ Hs4)).
    destruct Hmiss as [(attr & Hin & Hn)|Hn].
    - exfalso.
      destruct Hin as [<-|[<-|[<-|[<-|[]]]]]; congruence.
    - apply bind_run_raise. unfold h5_getitem. rewrite read_run.
      unfold node_at. change (group self) with gp.
      now rewrite Hr, Hn. }
  assert (Ef : for_each (name :: rest)
                 (fun name self =>
                    self <- map_config name self ;; ret (Continue self))
                 self w
               = (Raise KeyError, w)).
  { cbn [for_each]. apply bind_run_raise. now apply bind_run_raise. }
  now apply bind_run_raise.
Qed.

Section Present.
Variable construct' :
  mapper -> string -> list Re.regex -> result (dict pyval).

(** X19: the two builds disagree on a control group without
    subgroups.  The earlier [__init__] returns with
    [_build_successful] True, no configuration and no warning;
    the present one returns with [_build_successful] False. *)
Theorem empty_control_group_builds gp a ms w :
  resolve (root (w_file w)) gp = Some (Group a ms) ->
  N5700.subgroup_names ms = [] ->
  (exists s,
      init gp w = (Ok s, w)
      /\ build_successful s = Some true /\ configs s = [])
  /\ (exists s w',
         N5700.init construct' gp w = (Ok s, w')
         /\ build_successful s = Some false /\ configs s = []).
Proof.
  intros Hr En. split.
  - unfold LegacyN5700.init, LegacyN5700._build_configs. cbv zeta.
    set (self := extend_patterns [] _).
    assert (Hr' : resolve (root (w_file w)) (group self)
                  = Some (Group a ms)) by exact Hr.
    rewrite (bind_run _ _ _ _ _ (sgroup_names_run _ _ _ _ Hr')), En.
    eexists. split; [reflexivity|]. split; reflexivity.
  - destruct (N5700Facts.computes_init construct' (w_file w) gp a ms Hr
                                       w eq_refl) as (w' & E & _).
    unfold N5700.build_configs_value in E. rewrite En in E.
    cbn [List.length Nat.eqb] in E.
    eexists. exists w'. split; [exact E|]. split; reflexivity.
Qed.

(** X20: a control group that the earlier build accepts, the
    present build accepts.  When the earlier [__init__] returns on
    a control group with at least one subgroup and unique member
    names, the present [__init__], with a helper that raises
    nothing but KeyError, returns with [_build_successful] True. *)
Theorem legacy_success_implies_present_success gp a ms w s' w' :
  resolve (root (w_file w)) gp = Some (Group a ms) ->
  N5700.unique_names (map fst ms) = true ->
  N5700.subgroup_names ms <> [] ->
  N5700.helper_raises_only_KeyError construct' ->
  init gp w = (Ok s', w') ->
  exists s2 w2,
    N5700.init construct' gp w = (Ok s2, w2)
    /\ build_successful s2 = Some true.
Proof.
  intros Hr Hu Hne Hh H.
  destruct (legacy_loop_of_init _ _ _ _ _ _ Hr H) as (Hd & Hn).
  destruct (Hd Hne) as (dn & Hl & Hs).
  change (lookup N5700.construct_dataset_name ms = Some dn) in Hl.
  assert (Hwf : N5700.well_formed ms = true).
  { unfold N5700.well_formed. rewrite Hu, Hl, Hs, andb_true_r.
    cbn [andb]. apply forallb_forall. intros name Hin.
    destruct (Hn name Hin) as (cong & -> & Hdec & _). exact Hdec. }
  destruct (N5700Facts.build_value_total construct' ms
              (N5700.new_object gp) Hwf Hh)
    as (s2 & b & Hv & Hb & Hiff & _).
  destruct (N5700Facts.computes_init construct' (w_file w) gp a ms Hr
                                     w eq_refl) as (w2 & E & _).
  rewrite Hv in E. exists s2, w2. split; [exact E|].
  destruct b; [exact Hb|]. exfalso.
  destruct (proj1 Hiff eq_refl) as [He|[He|(name & cong & Hin & Hc & Hm)]].
  - contradiction.
  - congruence.
  - destruct (Hn name Hin) as (cong' & Hc' & _ & Ha).
    rewrite Hc in Hc'. injection Hc' as <-.
    apply (Ha "N5700 power supply command list"); [simpl; tauto|].
    exact Hm.
Qed.


(** X21: the two builds agree on what they both read.  When both
    the earlier and the present [__init__] return on a control
    group with unique member names, and the present build
    succeeded, the two entries of every configuration hold the same
    'IP address', 'command list' and 'dset paths', and the earlier
    'device model' and 'init command' are the present
    'power supply device' and 'initial state'; 'shotnum' differs
    in 'dset field' only: the earlier one holds the string
    'Shot number', the present one the tuple ('Shot number',). *)
Theorem legacy_and_present_entries_agree gp a ms w s1 w1 s2 w2 :
  resolve (root (w_file w)) gp = Some (Group a ms) ->
  N5700.unique_names (map fst ms) = true ->
  init gp w = (Ok s1, w1) ->
  N5700.init construct' gp w = (Ok s2, w2) ->
  build_successful s2 = Some true ->
  forall name,
    In name (N5700.subgroup_names ms) ->
    exists e1 e2,
      dget name (configs s1) = Some (PDict e1)
      /\ dget name (configs s2) = Some (PDict e2)
      /\ dget "IP address" e1 = dget "IP address" e2
      /\ dget "device model" e1 = dget "power supply device" e2
      /\ dget "init command" e1 = dget "initial state" e2
      /\ dget "command list" e1 = dget "command list" e2
      /\ dget "dset paths" e1 = dget "dset paths" e2
      /\ exists dp shp,
          dget "shotnum" e1
          = Some (PDict [("dset paths", dp);
                         ("dset field", PStr "Shot number");
                         ("shape", shp);
                         ("dtype", PDtype NpInt32)])
          /\ dget "shotnum" e2
             = Some (PDict [("dset paths", dp);
                            ("dset field", PTuple [PStr "Shot number"]);
                            ("shape", shp);
                            ("dtype", PDtype NpInt32)]).
Proof.
  intros Hr Hu H1 H2 Hb name Hin.
  (* the earlier entry *)
  unfold LegacyN5700.init, LegacyN5700._build_configs in H1.
  cbv zeta in H1.
  set (self := extend_patterns [] _) in H1.
  assert (Hr' : resolve (root (w_file w)) (group self) = Some (Group a ms))
    by exact Hr.
  rewrite (bind_run _ _ _ _ _ (sgroup_names_run _ _ _ _ Hr')) in H1.
  apply bind_ok in H1 as (fl & w3 & E & H1).
  destruct (build_loop_entries _ _ _ _ _ _ _ Hr' E
              (N5700Facts.subgroup_names_NoDup _ Hu))
    as (s' & -> & _ & Hn).
  inversion H1; subst s1 w3; clear H1.
  destruct (Hn name Hin) as (cong & dn & shp & sv & Hl & Hd & Hs & He1).
  (* the present entry *)
  pose proof (N5700Facts.init_value construct' (w_file w) gp a ms w s2 w2
                                    Hr eq_refl H2) as Hv.
  destruct (N5700Facts.successful_build_entries construct' ms
              (N5700.new_object gp) s2 Hu Hv Hb) as [_ Hent].
  destruct (Hent name Hin)
    as (cong' & dn' & shp' & s0 & Hl' & Hd' & Hs' & _ & _ & _ & _ & He2).
  rewrite Hl in Hl'. injection Hl' as <-.
  (* the same shape: both read the dataset of the control group *)
  change (lookup construct_dataset_name ms = Some dn') in Hd'.
  rewrite Hd in Hd'. injection Hd' as <-.
  rewrite Hs in Hs'. injection Hs' as <-.
  exists (legacy_entry (node_attrs cong)
            (name_of (group self ++ [construct_dataset_name])%list) shp sv).
  eexists. split; [exact He1|]. split; [exact He2|].
  repeat split. do 2 eexists. split; reflexivity.
Qed.

End Present.


End Build.

End LegacyN5700Facts.

Module LegacyN5700Examples.
Import Py H5 Eff ControlTemplate LegacyN5700 LegacyN5700Facts
  Samples MoreSamples.

Local Abbreviation sample_init :=
  (LegacyN5700.init no_legacy_state_values tuple_array np_array_dtype).

Lemma legacy_build_is_all_or_nothing_witness :
  exists s',
    sample_init sample_group (start (control_file full_members))
    = (Ok s', start (control_file full_members))
    /\ build_successful s' = Some true
    /\ exists cong,
        lookup "nsconf_1" full_members = Some cong
        /\ dget "Initialization commands" (node_attrs cong) <> None.
Proof.
  destruct (sample_init sample_group (start (control_file full_members)))
    as [[s|e] w'] eqn:E; [|vm_compute in E; discriminate E].
  destruct (legacy_build_is_all_or_nothing
              no_legacy_state_values tuple_array np_array_dtype
              sample_group [] full_members
              (start (control_file full_members)) s w' eq_refl E)
    as (-> & Hb & _ & Hn).
  exists s. split; [reflexivity|]. split; [exact Hb|].
  destruct (Hn "nsconf_1") as (cong & Hl & Ha).
  { simpl. auto. }
  exists cong. split; [exact Hl|]. apply Ha. simpl. auto.
Defined.

Lemma legacy_build_raises_KeyError_witness :
  sample_init sample_group (start lapd_file)
  = (Raise KeyError, start lapd_file).
Proof.
  apply (legacy_build_raises_KeyError
           no_legacy_state_values tuple_array np_array_dtype
           sample_group [] sample_members "nsconf_1" [] nsconf
           (start lapd_file));
    try reflexivity.
  left. exists "Initialization commands". split; [|reflexivity].
  simpl. auto.
Defined.

Lemma empty_control_group_builds_witness :
  (exists s,
      sample_init sample_group (start (control_file dataset_only_members))
      = (Ok s, start (control_file dataset_only_members))
      /\ build_successful s = Some true /\ configs s = [])
  /\ (exists s w',
         N5700.init no_state_values sample_group
                    (start (control_file dataset_only_members))
         = (Ok s, w')
         /\ build_successful s = Some false /\ configs s = []).
Proof.
  exact (empty_control_group_builds
           no_legacy_state_values tuple_array np_array_dtype
           no_state_values sample_group [] dataset_only_members
           (start (control_file dataset_only_members))
           eq_refl eq_refl).
Defined.

Lemma legacy_success_implies_present_success_witness :
  exists s2 w2,
    N5700.init no_state_values sample_group
               (start (control_file full_members)) = (Ok s2, w2)
    /\ build_successful s2 = Some true.
Proof.
  destruct (sample_init sample_group (start (control_file full_members)))
    as [[s|e] w'] eqn:E; [|vm_compute in E; discriminate E].
  assert (Hn : N5700.subgroup_names full_members <> []) by discriminate.
  assert (Hh : N5700.helper_raises_only_KeyError no_state_values)
    by (intros self name ps e0 Hx; discriminate Hx).
  exact (legacy_success_implies_present_success
           no_legacy_state_values tuple_array np_array_dtype
           no_state_values sample_group [] full_members
           (start (control_file full_members)) s w'
           eq_refl eq_refl Hn Hh E).
Defined.

Lemma legacy_and_present_entries_agree_witness :
  exists s1 w1 s2 w2 e1 e2,
    sample_init sample_group (start (control_file full_members))
    = (Ok s1, w1)
    /\ N5700.init no_state_values sample_group
                  (start (control_file full_members)) = (Ok s2, w2)
    /\ dget "nsconf_1" (configs s1) = Some (PDict e1)
    /\ dget "nsconf_1" (configs s2) = Some (PDict e2)
    /\ dget "device model" e1 = dget "power supply device" e2
    /\ dget "command list" e1 = dget "command list" e2.
Proof.
  destruct (sample_init sample_group (start (control_file full_members)))
    as [[s1|e] w1] eqn:E1; [|vm_compute in E1; discriminate E1].
  destruct (N5700.init no_state_values sample_group
                       (start (control_file full_members)))
    as [[s2|e] w2] eqn:E2; [|vm_compute in E2; discriminate E2].
  assert (Hb : build_successful s2 = Some true).
  { pose proof E2 as E'. vm_compute in E'. injection E' as <- _.
    reflexivity. }
  destruct (legacy_and_present_entries_agree
              no_legacy_state_values tuple_array np_array_dtype
              no_state_values sample_group [] full_members
              (start (control_file full_members)) s1 w1 s2 w2
              eq_refl eq_refl E1 E2 Hb "nsconf_1")
    as (e1 & e2 & H1 & H2 & _ & Hm & _ & Hc & _).
  { simpl. auto. }
  exists s1, w1, s2, w2, e1, e2. repeat split; assumption.
Defined.

End LegacyN5700Examples.
